(** * Langfuse backend of the OpenTelemetry MCP server: a shallow embedding

  The development follows [src/opentelemetry_mcp/backends/langfuse.py].
  Python objects coming from the Langfuse SDK are dynamically typed
  ([trace_item: Any], [obs: Any]); they are embedded as attribute maps over
  a small universe of Python values.  Exceptions, logging and the remote
  SDK calls are effects of a writer/error monad: a computation yields a
  result or a raised exception together with the trace of log records and
  remote calls it produced. *)

From Stdlib Require Import String Ascii List ZArith Bool Lia DecimalString Sorted.
Import ListNotations.
Open Scope string_scope.
Open Scope Z_scope.
Open Scope list_scope.
Set Warnings "-register-all".

(** ** Python values *)

Module Py.

(** The values an SDK record attribute may hold.  [PNum n] is the Python
    [int] [n]; a [float] is carried only where it is integral, which every
    result of [float] on an [int] is, and a record whose attribute holds a
    fractional float is not among the records described here.  A [datetime]
    is its count of microseconds since the epoch. *)
Inductive pyval : Type :=
| PNone
| PStr (s : string)
| PNum (n : Z)
| PBool (b : bool)
| PTime (t : Z)
| PDict (kvs : list (string * pyval))
| PList (xs : list pyval).

(** A Python [dict] with string keys, in insertion order. *)
Definition dict : Type := list (string * pyval).

(** An SDK object: its attributes by name. *)
Definition Obj : Type := list (string * pyval).

Inductive exn : Type :=
| AttributeError (what : string)
| TypeError (what : string)
| ValueError (what : string)
| ValidationError (what : string)
| ApiError (status_code : Z) (body : string)
| NotFoundError (msg : string)
| BackendError (msg : string)
| OverflowError (what : string).

(** [str(e)] *)
Definition exn_str (e : exn) : string :=
  match e with
  | AttributeError w => w
  | TypeError w => w
  | ValueError w => w
  | ValidationError w => w
  | ApiError _ body => body
  | NotFoundError m => m
  | BackendError m => m
  | OverflowError w => w
  end.

Inductive Exc (A : Type) : Type :=
| Ok (a : A)
| Raise (e : exn).
Arguments Ok {A} a.
Arguments Raise {A} e.

(** [bool(v)] *)
Definition truthy (v : pyval) : bool :=
  match v with
  | PNone => false
  | PStr s => negb (s =? "")%string
  | PNum n => negb (n =? 0)
  | PBool b => b
  | PTime _ => true
  | PDict kvs => match kvs with [] => false | _ => true end
  | PList xs => match xs with [] => false | _ => true end
  end.

(** A non-negative integer rounded to 53 significant bits, ties to even:
    the double nearest to it. *)
Definition round_to_double (n : Z) : Z :=
  let bits := Z.log2 n + 1 in
  if bits <=? 53 then n
  else
    let shift := bits - 53 in
    let q := Z.shiftr n shift in
    let r := Z.land n (Z.ones shift) in
    let half := Z.shiftl 1 (shift - 1) in
    let q := if (half <? r) || ((r =? half) && Z.odd q) then q + 1 else q in
    Z.shiftl q shift.

(** [float(n)] for an [int]: the nearest double, which is integral; [None]
    where Python raises [OverflowError], the rounded magnitude reaching
    [2 ** 1024]. *)
Definition float_of_int (n : Z) : option Z :=
  let m := round_to_double (Z.abs n) in
  if m <? 2 ^ 1024 then Some (Z.sgn n * m) else None.

(** [a or b] *)
Definition py_or (a b : pyval) : pyval := if truthy a then a else b.

(** [v == "lit"] for a string literal: only the same string is equal. *)
Definition eq_str (v : pyval) (lit : string) : bool :=
  match v with
  | PStr s => (s =? lit)%string
  | _ => false
  end.

Fixpoint dict_get (d : dict) (k : string) : option pyval :=
  match d with
  | [] => None
  | (k', v) :: d' => if (k' =? k)%string then Some v else dict_get d' k
  end.

(** [d[k] = v]: an existing key keeps its place, a new one goes last. *)
Fixpoint dict_set (d : dict) (k : string) (v : pyval) : dict :=
  match d with
  | [] => [(k, v)]
  | (k', v') :: d' =>
      if (k' =? k)%string then (k', v) :: d' else (k', v') :: dict_set d' k v
  end.

Definition hasattr (o : Obj) (name : string) : bool :=
  match dict_get o name with Some _ => true | None => false end.

Fixpoint string_repeat (n : nat) (s : string) : string :=
  match n with
  | O => ""
  | S n' => (s ++ string_repeat n' s)%string
  end.

Fixpoint list_repeat {A : Type} (n : nat) (xs : list A) : list A :=
  match n with
  | O => []
  | S n' => xs ++ list_repeat n' xs
  end.

(** [s.endswith("Z")] *)
Fixpoint endswith_Z (s : string) : bool :=
  match s with
  | EmptyString => false
  | String c EmptyString => (c =? "Z")%char
  | String _ rest => endswith_Z rest
  end.

(** [s[:-1]] *)
Fixpoint drop_last (s : string) : string :=
  match s with
  | EmptyString => EmptyString
  | String _ EmptyString => EmptyString
  | String c rest => String c (drop_last rest)
  end.

(** The characters of a string, as iterating over it yields them. *)
Fixpoint chars (s : string) : list string :=
  match s with
  | EmptyString => []
  | String c rest => String c EmptyString :: chars rest
  end.

(** An [Optional[str]] and an [Optional[datetime]] as Python values. *)
Definition of_opt_str (o : option string) : pyval :=
  match o with Some s => PStr s | None => PNone end.

Definition of_opt_time (o : option Z) : pyval :=
  match o with Some t => PTime t | None => PNone end.

End Py.
Import Py.

(** ** Effects: exceptions, logging, remote calls *)

Module Eff.

Inductive loglevel : Type := L_DEBUG | L_INFO | L_WARNING | L_ERROR.

(** The remote calls of the SDK client that the backend issues. *)
Inductive api_call : Type :=
| TraceList (params : dict)
| TraceGet (trace_id : string)
| ObservationsGetMany (trace_id : string).

(** What a computation emits.  A log record carries its level and the
    literal part of its message; the values the source interpolates into
    the message (a query, an id, an exception) are left out. *)
Inductive event : Type :=
| Log (lvl : loglevel) (text : string)
| Call (c : api_call).

(** A computation: its outcome and the events it emitted, oldest first. *)
Definition M (A : Type) : Type := Exc A * list event.

Definition ret {A : Type} (a : A) : M A := (Ok a, []).

Definition raise {A : Type} (e : exn) : M A := (Raise e, []).

Definition bind {A B : Type} (m : M A) (f : A -> M B) : M B :=
  match m with
  | (Ok a, t1) => let '(r, t2) := f a in (r, t1 ++ t2)
  | (Raise e, t1) => (Raise e, t1)
  end.

(** [try: m  except Exception as e: h e] *)
Definition try_except {A : Type} (m : M A) (h : exn -> M A) : M A :=
  match m with
  | (Ok a, t1) => (Ok a, t1)
  | (Raise e, t1) => let '(r, t2) := h e in (r, t1 ++ t2)
  end.

Definition log (lvl : loglevel) (text : string) : M unit :=
  (Ok tt, [Log lvl text]).

(** A remote call: recorded, then answered by the SDK. *)
Definition remote {A : Type} (c : api_call) (answer : Exc A) : M A :=
  (answer, [Call c]).

Definition outcome {A : Type} (m : M A) : Exc A := fst m.
Definition events {A : Type} (m : M A) : list event := snd m.

Definition is_call (ev : event) : bool :=
  match ev with Call _ => true | Log _ _ => false end.

(** The remote calls among the events of a computation. *)
Definition calls {A : Type} (m : M A) : list event := filter is_call (events m).

(** A computation that issues no remote call. *)
Definition silent {A : Type} (m : M A) : Prop := calls m = [].

End Eff.
Import Eff.

Declare Scope eff_scope.
Delimit Scope eff_scope with eff.
Notation "x <- m ;; k" := (bind m (fun x => k))
  (at level 61, m at next level, right associativity) : eff_scope.
Notation "m ;;; k" := (bind m (fun _ => k))
  (at level 61, right associativity) : eff_scope.
Open Scope eff_scope.

(** ** The common data model

    [opentelemetry_mcp/models.py] and [opentelemetry_mcp/attributes.py] are
    imported by the backend but are not among the sources; the value types
    below follow section 3 of the specification. *)

Module Models.

(** Modelled from the spec: the [status] of a span or trace, one of
    OK, ERROR, UNSET (the backend produces the literals ["OK"], ["ERROR"],
    ["UNSET"]). *)
Inductive Status : Type := OK | ERROR | UNSET.

Definition Status_eqb (a b : Status) : bool :=
  match a, b with
  | OK, OK | ERROR, ERROR | UNSET, UNSET => true
  | _, _ => false
  end.

Definition Status_str (s : Status) : string :=
  match s with OK => "OK" | ERROR => "ERROR" | UNSET => "UNSET" end.

(** Modelled from the spec: [SpanAttributes], the attribute mapping of a
    span (string key to value).  Its constructor's validation is not in the
    sources; [SpanAttributes( **raw_attrs )] is taken to keep every
    string-keyed mapping as it is. *)
Definition SpanAttributes : Type := dict.

(** Modelled from the spec: [SpanData] of models.py, with the fields of
    section 3; a null [parent_span_id] marks a root span. *)
Module SpanData.
Record t : Type := mk {
  trace_id : string;
  span_id : string;
  parent_span_id : option string;
  operation_name : string;
  service_name : string;
  start_time : Z;
  duration_ms : Z;
  status : Status;
  attributes : SpanAttributes
}.
End SpanData.

(** Modelled from the spec: [TraceData] of models.py. *)
Module TraceData.
Record t : Type := mk {
  trace_id : string;
  spans : list SpanData.t;
  start_time : Z;
  duration_ms : Z;
  service_name : string;
  root_operation : string;
  status : Status
}.
End TraceData.

(** A field declared as a string refuses any other value. *)
Definition str_field (name : string) (v : pyval) : M string :=
  match v with
  | PStr s => ret s
  | _ => raise (ValidationError name)
  end.

(** A nullable string field. *)
Definition opt_str_field (name : string) (v : pyval) : M (option string) :=
  match v with
  | PNone => ret None
  | PStr s => ret (Some s)
  | _ => raise (ValidationError name)
  end.

(** Modelled from the spec: the validating constructor [SpanData(...)];
    [trace_id], [span_id], [operation_name] and [service_name] are strings
    and [parent_span_id] is a nullable string. *)
Definition new_SpanData (trace_id span_id parent_span_id operation_name
    service_name : pyval) (start_time duration_ms : Z) (status : Status)
    (attributes : SpanAttributes) : M SpanData.t :=
  tid <- str_field "trace_id" trace_id ;;
  sid <- str_field "span_id" span_id ;;
  par <- opt_str_field "parent_span_id" parent_span_id ;;
  op <- str_field "operation_name" operation_name ;;
  svc <- str_field "service_name" service_name ;;
  ret (SpanData.mk tid sid par op svc start_time duration_ms status attributes).

(** Modelled from the spec: the validating constructor [TraceData(...)]. *)
Definition new_TraceData (trace_id : pyval) (spans : list SpanData.t)
    (start_time duration_ms : Z) (service_name root_operation : pyval)
    (status : Status) : M TraceData.t :=
  tid <- str_field "trace_id" trace_id ;;
  svc <- str_field "service_name" service_name ;;
  root <- str_field "root_operation" root_operation ;;
  ret (TraceData.mk tid spans start_time duration_ms svc root status).

(** Modelled from the spec: the filter operators.  EQUALS, NOT_EQUALS and
    CONTAINS are named by the specification; GT and LT are the numeric
    comparison operators it mentions. *)
Inductive FilterOperator : Type := EQUALS | NOT_EQUALS | CONTAINS | GT | LT.

Definition FilterOperator_eqb (a b : FilterOperator) : bool :=
  match a, b with
  | EQUALS, EQUALS | NOT_EQUALS, NOT_EQUALS | CONTAINS, CONTAINS
  | GT, GT | LT, LT => true
  | _, _ => false
  end.

(** Modelled from the spec: [FilterType], how a filter's value is to be
    compared. *)
Inductive FilterType : Type := STRING | NUMBER | BOOLEAN.

(** Modelled from the spec: [Filter] of models.py. *)
Record Filter : Type := mkFilter {
  field : string;
  operator : FilterOperator;
  value : pyval;
  type : FilterType
}.

(** Modelled from the spec: [TraceQuery] of models.py; [tags] and [filters]
    default to none. *)
Module TraceQuery.
Record t : Type := mk {
  service_name : option string;
  operation_name : option string;
  start_time : option Z;
  end_time : option Z;
  limit : Z;
  tags : option (list (string * string));
  filters : list Filter
}.
End TraceQuery.

(** Modelled from the spec: [SpanQuery] of models.py. *)
Module SpanQuery.
Record t : Type := mk {
  service_name : option string;
  operation_name : option string;
  start_time : option Z;
  end_time : option Z;
  limit : Z;
  tags : option (list (string * string));
  filters : list Filter
}.
End SpanQuery.

(** Modelled from the spec: the structured shortcuts of a query (service,
    operation, tags) as equality filters. *)
Definition shortcut_filters (service_name operation_name : option string)
    (tags : option (list (string * string))) : list Filter :=
  match service_name with
  | Some s => [mkFilter "service_name" EQUALS (PStr s) STRING]
  | None => []
  end ++
  match operation_name with
  | Some s => [mkFilter "operation_name" EQUALS (PStr s) STRING]
  | None => []
  end ++
  match tags with
  | Some kvs => map (fun kv => mkFilter (fst kv) EQUALS (PStr (snd kv)) STRING) kvs
  | None => []
  end.

(** Modelled from the spec: [TraceQuery.get_all_filters()], which composes
    the structured shortcuts and the explicit filter list into one list. *)
Definition get_all_filters (q : TraceQuery.t) : list Filter :=
  shortcut_filters (TraceQuery.service_name q) (TraceQuery.operation_name q)
    (TraceQuery.tags q) ++ TraceQuery.filters q.

(** Modelled from the spec: [SpanQuery.get_all_filters()]. *)
Definition span_get_all_filters (q : SpanQuery.t) : list Filter :=
  shortcut_filters (SpanQuery.service_name q) (SpanQuery.operation_name q)
    (SpanQuery.tags q) ++ SpanQuery.filters q.

(** Modelled from the spec: the [status] of a health check. *)
Inductive HealthStatus : Type := healthy | unhealthy.

(** Modelled from the spec: [HealthCheckResponse] of attributes.py. *)
Module HealthCheckResponse.
Record t : Type := mk {
  status : HealthStatus;
  backend : string;
  url : string;
  error : option string
}.
End HealthCheckResponse.

End Models.
Import Models.

(** ** The filter engine

    [opentelemetry_mcp/backends/filter_engine.py] is not among the sources;
    the evaluator below follows section 4.2 of the specification. *)

Module FilterEngine.

(** Modelled from the spec: an entity a filter can be evaluated on, with
    its well-known fields and its attribute mapping. *)
Class Filterable (A : Type) : Type := {
  well_known : string -> A -> option pyval;
  attribute_mapping : A -> dict
}.

#[export] Instance Filterable_span : Filterable SpanData.t := {
  well_known name s :=
    if (name =? "trace_id")%string then Some (PStr (SpanData.trace_id s))
    else if (name =? "span_id")%string then Some (PStr (SpanData.span_id s))
    else if (name =? "parent_span_id")%string
      then Some (of_opt_str (SpanData.parent_span_id s))
    else if (name =? "operation_name")%string
      then Some (PStr (SpanData.operation_name s))
    else if (name =? "service_name")%string
      then Some (PStr (SpanData.service_name s))
    else if (name =? "start_time")%string then Some (PTime (SpanData.start_time s))
    else if (name =? "duration_ms")%string then Some (PNum (SpanData.duration_ms s))
    else if (name =? "status")%string
      then Some (PStr (Status_str (SpanData.status s)))
    else None;
  attribute_mapping s := SpanData.attributes s
}.

(** Modelled from the spec: a trace resolves its own fields; it has no
    attribute mapping of its own in the data model. *)
#[export] Instance Filterable_trace : Filterable TraceData.t := {
  well_known name t :=
    if (name =? "trace_id")%string then Some (PStr (TraceData.trace_id t))
    else if (name =? "start_time")%string then Some (PTime (TraceData.start_time t))
    else if (name =? "duration_ms")%string then Some (PNum (TraceData.duration_ms t))
    else if (name =? "service_name")%string
      then Some (PStr (TraceData.service_name t))
    else if (name =? "root_operation")%string
      then Some (PStr (TraceData.root_operation t))
    else if (name =? "status")%string
      then Some (PStr (Status_str (TraceData.status t)))
    else None;
  attribute_mapping _ := []
}.

(** Modelled from the spec: field resolution.  A well-known field resolves
    off the entity, any other field against its attribute mapping. *)
Definition resolve {A : Type} `{Filterable A} (name : string) (x : A)
    : option pyval :=
  match well_known name x with
  | Some v => Some v
  | None => dict_get (attribute_mapping x) name
  end.

(** A value coerced to a filter's declared type. *)
Inductive cval : Type :=
| CStr (s : string)
| CNum (n : Z)
| CBool (b : bool).

Definition cval_eqb (a b : cval) : bool :=
  match a, b with
  | CStr x, CStr y => (x =? y)%string
  | CNum x, CNum y => x =? y
  | CBool x, CBool y => Bool.eqb x y
  | _, _ => false
  end.

Definition decimal (n : Z) : string :=
  DecimalString.NilZero.string_of_int (Z.to_int n).

Definition parse_decimal (s : string) : option Z :=
  option_map Z.of_int (DecimalString.NilZero.int_of_string s).

(** Modelled from the spec: coercion to the declared type; a value that
    has no reading at that type yields nothing, and the filter then does
    not match. *)
Definition coerce (ty : FilterType) (v : pyval) : option cval :=
  match ty, v with
  | STRING, PStr s => Some (CStr s)
  | STRING, PNum n => Some (CStr (decimal n))
  | STRING, PBool b => Some (CStr (if b then "True" else "False"))
  | NUMBER, PNum n => Some (CNum n)
  | NUMBER, PBool b => Some (CNum (if b then 1 else 0))
  | NUMBER, PStr s => option_map CNum (parse_decimal s)
  | BOOLEAN, PBool b => Some (CBool b)
  | BOOLEAN, PNum n => Some (CBool (negb (n =? 0)))
  | BOOLEAN, PStr s =>
      if (s =? "true")%string || (s =? "True")%string then Some (CBool true)
      else if (s =? "false")%string || (s =? "False")%string then Some (CBool false)
      else None
  | _, _ => None
  end.

(** [sub in s] on strings *)
Fixpoint contains_str (sub s : string) : bool :=
  String.prefix sub s ||
  match s with
  | EmptyString => false
  | String _ rest => contains_str sub rest
  end.

Definition same_at (ty : FilterType) (a b : pyval) : bool :=
  match coerce ty a, coerce ty b with
  | Some x, Some y => cval_eqb x y
  | _, _ => false
  end.

Definition differ_at (ty : FilterType) (a b : pyval) : bool :=
  match coerce ty a, coerce ty b with
  | Some x, Some y => negb (cval_eqb x y)
  | _, _ => false
  end.

Definition numeric (test : Z -> Z -> bool) (a b : pyval) : bool :=
  match coerce NUMBER a, coerce NUMBER b with
  | Some (CNum x), Some (CNum y) => test x y
  | _, _ => false
  end.

(** Modelled from the spec: one operator applied to a resolved value.
    EQUALS and NOT_EQUALS compare after coercion, CONTAINS is substring or
    membership, GT and LT compare numbers. *)
Definition eval_operator (f : Filter) (resolved : pyval) : bool :=
  match operator f with
  | EQUALS => same_at (type f) resolved (value f)
  | NOT_EQUALS => differ_at (type f) resolved (value f)
  | CONTAINS =>
      match resolved with
      | PStr s =>
          match coerce STRING (value f) with
          | Some (CStr sub) => contains_str sub s
          | _ => false
          end
      | PList xs => existsb (fun x => same_at (type f) x (value f)) xs
      | PDict kvs => existsb (fun kv => same_at (type f) (PStr (fst kv)) (value f)) kvs
      | _ => false
      end
  | GT => numeric Z.gtb resolved (value f)
  | LT => numeric Z.ltb resolved (value f)
  end.

(** Modelled from the spec: a filter on an entity; an unresolved field
    evaluates to false. *)
Definition matches {A : Type} `{Filterable A} (f : Filter) (x : A) : bool :=
  match resolve (field f) x with
  | Some v => eval_operator f v
  | None => false
  end.

(** Modelled from the spec: [FilterEngine.apply_filters(items, filters)],
    which keeps an item iff all filters match it. *)
Definition apply_filters {A : Type} `{Filterable A} (items : list A)
    (filters : list Filter) : list A :=
  filter (fun x => forallb (fun f => matches f x) filters) items.

End FilterEngine.

(** ** Dynamic operations on Python values *)

Module Dyn.

(** [o.name]: a missing attribute raises [AttributeError]. *)
Definition getattr (o : Obj) (name : string) : M pyval :=
  match dict_get o name with
  | Some v => ret v
  | None => raise (AttributeError name)
  end.

(** [v.get(key, default)]: only a mapping has the method. *)
Definition py_get (v : pyval) (key : string) (default : pyval) : M pyval :=
  match v with
  | PDict kvs =>
      ret (match dict_get kvs key with Some x => x | None => default end)
  | _ => raise (AttributeError "get")
  end.

(** [for x in v]: the elements iteration yields. *)
Definition py_iter (v : pyval) : M (list pyval) :=
  match v with
  | PList xs => ret xs
  | PStr s => ret (map PStr (chars s))
  | PDict kvs => ret (map (fun kv => PStr (fst kv)) kvs)
  | _ => raise (TypeError "object is not iterable")
  end.

(** An element of an iterable read as a key/value pair, as [dict.update]
    does: it must itself yield exactly two elements. *)
Definition as_pair (v : pyval) : option (pyval * pyval) :=
  match v with
  | PList [k; x] => Some (k, x)
  | PStr (String a (String b EmptyString)) =>
      Some (PStr (String a EmptyString), PStr (String b EmptyString))
  | PDict [(k1, _); (k2, _)] => Some (PStr k1, PStr k2)
  | _ => None
  end.

Fixpoint update_pairs (d : dict) (xs : list pyval) : M dict :=
  match xs with
  | [] => ret d
  | x :: rest =>
      match as_pair x with
      | Some (PStr k, v) => update_pairs (dict_set d k v) rest
      | Some _ => raise (TypeError "keywords must be strings")
      | None => raise (ValueError "dictionary update sequence element")
      end
  end.

(** [d.update(other)].  A key that is not a string is refused here; in
    the backend such a key would only be refused a few statements later,
    by [SpanAttributes( **raw_attrs )] within the same [try] block and with
    no log record in between. *)
Definition py_update (d : dict) (other : pyval) : M dict :=
  match other with
  | PDict kvs => ret (fold_left (fun acc kv => dict_set acc (fst kv) (snd kv)) kvs d)
  | PList xs => update_pairs d xs
  | PStr s => update_pairs d (map PStr (chars s))
  | _ => raise (TypeError "object is not iterable")
  end.

(** [v * 1000] *)
Definition py_mul_1000 (v : pyval) : M pyval :=
  match v with
  | PNum n => ret (PNum (n * 1000))
  | PBool b => ret (PNum (if b then 1000 else 0))
  | PStr s => ret (PStr (string_repeat 1000 s))
  | PList xs => ret (PList (list_repeat 1000 xs))
  | _ => raise (TypeError "unsupported operand type(s) for *")
  end.

(** A [for] loop that threads the variables it updates. *)
Fixpoint for_each {A S : Type} (xs : list A) (body : S -> A -> M S) (acc : S)
    : M S :=
  match xs with
  | [] => ret acc
  | x :: rest => acc' <- body acc x ;; for_each rest body acc'
  end.

End Dyn.
Import Dyn.

(** ** Sets and sorting

    The backend collects names in a Python [set] and returns
    [sorted(list(...))] of it. *)

Module Coll.

(** What a hashable value is hashed and compared as.  [True] and [1] are
    the same key, as are [False] and [0]. *)
Inductive key : Type :=
| KNone
| KStr (s : string)
| KNum (n : Z)
| KTime (t : Z).

(** The key of a value; a [list] or [dict] is unhashable. *)
Definition as_key (v : pyval) : option key :=
  match v with
  | PNone => Some KNone
  | PStr s => Some (KStr s)
  | PNum n => Some (KNum n)
  | PBool b => Some (KNum (if b then 1 else 0))
  | PTime t => Some (KTime t)
  | PDict _ => None
  | PList _ => None
  end.

Definition key_eqb (a b : key) : bool :=
  match a, b with
  | KNone, KNone => true
  | KStr x, KStr y => (x =? y)%string
  | KNum x, KNum y => x =? y
  | KTime x, KTime y => x =? y
  | _, _ => false
  end.

(** [a <= b] where [<] is defined: between two strings (by code point),
    two numbers, two datetimes. *)
Definition key_leb (a b : key) : option bool :=
  match a, b with
  | KStr x, KStr y => Some (String.leb x y)
  | KNum x, KNum y => Some (x <=? y)
  | KTime x, KTime y => Some (x <=? y)
  | _, _ => None
  end.

Definition same_key (v w : pyval) : bool :=
  match as_key v, as_key w with
  | Some a, Some b => key_eqb a b
  | _, _ => false
  end.

Definition comparable (v w : pyval) : bool :=
  match as_key v, as_key w with
  | Some a, Some b => match key_leb a b with Some _ => true | None => false end
  | _, _ => false
  end.

Definition py_leb (v w : pyval) : bool :=
  match as_key v, as_key w with
  | Some a, Some b => match key_leb a b with Some r => r | None => false end
  | _, _ => false
  end.

(** [s.add(v)], the set kept in insertion order: an unhashable value
    raises, a value equal to a member changes nothing. *)
Definition set_add (s : list pyval) (v : pyval) : M (list pyval) :=
  match as_key v with
  | None => raise (TypeError "unhashable type")
  | Some _ => if existsb (same_key v) s then ret s else ret (s ++ [v])
  end.

Fixpoint insert_sorted (x : pyval) (l : list pyval) : list pyval :=
  match l with
  | [] => [x]
  | y :: rest => if py_leb x y then x :: l else y :: insert_sorted x rest
  end.

Definition py_sort (l : list pyval) : list pyval := fold_right insert_sorted [] l.

(** [sorted(list(s))] of a set [s].  With fewer than two members nothing
    is compared.  Otherwise the members are compared with [<], which
    raises unless they are all strings, all numbers or all datetimes; the
    members of a set being pairwise different, their sorted order does not
    depend on the order the set yields them in. *)
Definition sorted_set (s : list pyval) : M (list pyval) :=
  match s with
  | [] => ret s
  | [_] => ret s
  | v :: rest =>
      if forallb (comparable v) rest then ret (py_sort s)
      else raise (TypeError "'<' not supported between instances")
  end.

(** [url.rstrip("/")] *)
Fixpoint rstrip_slash (s : string) : string :=
  match s with
  | EmptyString => EmptyString
  | String c rest =>
      match rstrip_slash rest with
      | EmptyString => if (c =? "/")%char then EmptyString else String c EmptyString
      | String c' rest' => String c (String c' rest')
      end
  end.

(** [s.endswith("/")] *)
Fixpoint endswith_slash (s : string) : bool :=
  match s with
  | EmptyString => false
  | String c EmptyString => (c =? "/")%char
  | String _ rest => endswith_slash rest
  end.

End Coll.
Import Coll.

(** ** The Langfuse backend *)

Module Langfuse.
Import FilterEngine.

(** Modelled from the spec: the attribute names of
    [opentelemetry_mcp/constants.py], which is not among the sources.  They
    are the keys of the fixed generative-AI attribute namespace; the backend
    itself reads two of them back as string literals (["service.name"],
    ["gen_ai.system"]). *)
Module Service.
Definition NAME : string := "service.name".
End Service.

Module GenAI.
Definition SYSTEM : string := "gen_ai.system".
Definition REQUEST_MODEL : string := "gen_ai.request.model".
Definition RESPONSE_MODEL : string := "gen_ai.response.model".
End GenAI.

(** What a run of the backend depends on besides its arguments: the wall
    clock, the Python builtins whose results are not computed here, the
    answers of the Langfuse SDK client and the backend's stored URL.
    [now] is what a reading of [datetime.now()] returns; successive
    readings within one call are not told apart, so nothing below is
    stated about how two of them compare. *)
Record Env : Type := mkEnv {
  now : Z;
  fromisoformat : string -> option Z;
  float_of_str : string -> option Z;
  py_str : pyval -> string;
  api_trace_list : dict -> Exc (option (list Obj));
  api_trace_get : string -> Exc Obj;
  api_observations_get_many : string -> Exc (option (list Obj));
  url : string
}.

(** [timedelta(days=1)], in microseconds. *)
Definition one_day : Z := 86400000000.

(** "max 100 for Langfuse" *)
Definition max_limit : Z := 100.

(** [get_supported_operators] *)
Definition get_supported_operators : list FilterOperator :=
  [EQUALS; NOT_EQUALS; CONTAINS].

(** [op in supported_operators] *)
Definition op_in (op : FilterOperator) (ops : list FilterOperator) : bool :=
  existsb (FilterOperator_eqb op) ops.

(** [_langfuse_level_to_status] *)
Definition _langfuse_level_to_status (level : pyval) : Status :=
  if eq_str level "ERROR" then ERROR
  else if eq_str level "DEFAULT" || eq_str level "WARNING" then OK
  else UNSET.

(** [any(span.status == "ERROR" for span in spans)] *)
Definition any_error (spans : list SpanData.t) : bool :=
  existsb (fun span => Status_eqb (SpanData.status span) ERROR) spans.

(** [_determine_trace_status] *)
Definition _determine_trace_status (trace_item : Obj) (spans : list SpanData.t)
    : M Status :=
  level <- getattr trace_item "level" ;;
  if eq_str level "ERROR" then ret ERROR
  else if eq_str level "WARNING" then
    if any_error spans then ret ERROR else ret OK
  else if eq_str level "DEFAULT" then
    if any_error spans then ret ERROR else ret OK
  else ret UNSET.

Section WithEnv.
Variable env : Env.

(** [float(v)] *)
Definition py_float (v : pyval) : M Z :=
  match v with
  | PNum n =>
      match float_of_int n with
      | Some x => ret x
      | None => raise (OverflowError "int too large to convert to float")
      end
  | PBool b => ret (if b then 1 else 0)
  | PStr s =>
      match float_of_str env s with
      | Some n => ret n
      | None => raise (ValueError "could not convert string to float")
      end
  | _ => raise (TypeError "float() argument must be a string or a real number")
  end.

(** [f"{v}"] *)
Definition format (v : pyval) : string :=
  match v with
  | PStr s => s
  | _ => py_str env v
  end.

(** [_parse_timestamp] *)
Definition _parse_timestamp (timestamp : pyval) : M Z :=
  if negb (truthy timestamp) then ret (now env)
  else
    match timestamp with
    | PTime t => ret t
    | _ =>
        try_except
          (let timestamp :=
             match timestamp with
             | PStr s =>
                 if endswith_Z s then PStr (drop_last s ++ "+00:00")%string
                 else timestamp
             | _ => timestamp
             end in
           match timestamp with
           | PStr s =>
               match fromisoformat env s with
               | Some t => ret t
               | None => raise (ValueError "Invalid isoformat string")
               end
           | _ => raise (TypeError "fromisoformat: argument must be str")
           end)
          (fun e => log L_WARNING "Error parsing timestamp" ;;; ret (now env))
    end.

(** [_create_span_from_trace_metadata] *)
Definition _create_span_from_trace_metadata (trace_item : Obj) : M SpanData.t :=
  name <- getattr trace_item "name" ;;
  id <- getattr trace_item "id" ;;
  user_id <- getattr trace_item "user_id" ;;
  session_id <- getattr trace_item "session_id" ;;
  version <- getattr trace_item "version" ;;
  let raw_attrs : dict :=
    dict_set (dict_set (dict_set (dict_set (dict_set []
      Service.NAME (py_or name (PStr "")))
      "langfuse.trace.id" id)
      "langfuse.trace.user_id" (py_or user_id (PStr "")))
      "langfuse.trace.session_id" (py_or session_id (PStr "")))
      "langfuse.trace.version" (py_or version (PStr "")) in
  metadata <- getattr trace_item "metadata" ;;
  raw_attrs <- (if truthy metadata then py_update raw_attrs metadata
                else ret raw_attrs) ;;
  tags <- getattr trace_item "tags" ;;
  raw_attrs <- (if truthy tags then
                  tag_list <- py_iter tags ;;
                  for_each tag_list
                    (fun raw_attrs tag =>
                       ret (dict_set raw_attrs ("tag." ++ format tag)%string
                              (PStr "true")))
                    raw_attrs
                else ret raw_attrs) ;;
  let span_attributes : SpanAttributes := raw_attrs in
  trace_id <- getattr trace_item "id" ;;
  span_id <- getattr trace_item "id" ;;
  name <- getattr trace_item "name" ;;
  timestamp <- getattr trace_item "timestamp" ;;
  start_time <- _parse_timestamp timestamp ;;
  latency_ms <- getattr trace_item "latency_ms" ;;
  duration_ms <- py_float (py_or latency_ms (PNum 0)) ;;
  level <- getattr trace_item "level" ;;
  new_SpanData trace_id span_id PNone
    (py_or name (PStr "unknown")) (py_or name (PStr "unknown"))
    start_time duration_ms (_langfuse_level_to_status level) span_attributes.

(** [_convert_langfuse_observation_to_span] *)
Definition _convert_langfuse_observation_to_span (trace_id : pyval) (obs : Obj)
    : M (option SpanData.t) :=
  try_except
    (metadata <- getattr obs "metadata" ;;
     service <- (if truthy metadata then py_get metadata "service.name" PNone
                 else ret (PStr "")) ;;
     id <- getattr obs "id" ;;
     type <- getattr obs "type" ;;
     name <- getattr obs "name" ;;
     let raw_attrs : dict :=
       dict_set (dict_set (dict_set (dict_set []
         Service.NAME service)
         "langfuse.observation.id" id)
         "langfuse.observation.type" type)
         "langfuse.observation.name" name in
     raw_attrs <- (if truthy metadata then py_update raw_attrs metadata
                   else ret raw_attrs) ;;
     usage_details <- (if eq_str type "generation"
                       then getattr obs "usage_details" else ret PNone) ;;
     raw_attrs <- (if eq_str type "generation" && truthy usage_details then
                     model <- getattr obs "model" ;;
                     system <- (if truthy model then ret model
                                else py_get metadata "gen_ai.system" (PStr "")) ;;
                     let raw_attrs := dict_set raw_attrs GenAI.SYSTEM system in
                     let raw_attrs := dict_set raw_attrs GenAI.REQUEST_MODEL model in
                     let raw_attrs := dict_set raw_attrs GenAI.RESPONSE_MODEL model in
                     prompt <- py_get usage_details "prompt_tokens" PNone ;;
                     let raw_attrs :=
                       dict_set raw_attrs "gen_ai.usage.prompt_tokens" prompt in
                     completion <- py_get usage_details "completion_tokens" PNone ;;
                     let raw_attrs :=
                       dict_set raw_attrs "gen_ai.usage.completion_tokens" completion in
                     total <- py_get usage_details "total_tokens" PNone ;;
                     ret (dict_set raw_attrs "gen_ai.usage.total_tokens" total)
                   else ret raw_attrs) ;;
     let span_attributes : SpanAttributes := raw_attrs in
     span_id <- getattr obs "id" ;;
     parent <- getattr obs "parent_observation_id" ;;
     name <- getattr obs "name" ;;
     let service_name :=
       match dict_get raw_attrs Service.NAME with
       | Some v => v
       | None => PStr ""
       end in
     start <- getattr obs "start_time" ;;
     start_time <- _parse_timestamp start ;;
     latency_ms <- getattr obs "latency_ms" ;;
     duration_ms <- py_float (py_or latency_ms (PNum 0)) ;;
     level <- getattr obs "level" ;;
     span <- new_SpanData trace_id span_id parent name service_name
               start_time duration_ms (_langfuse_level_to_status level)
               span_attributes ;;
     ret (Some span))
    (fun e =>
       log L_ERROR "Error converting Langfuse observation to SpanData" ;;;
       ret None).

(** [not observations]: no list given, or an empty one. *)
Definition no_observations (observations : option (list Obj)) : bool :=
  match observations with
  | None => true
  | Some [] => true
  | Some (_ :: _) => false
  end.

(** The [latency_ms] computed from whichever latency attribute the SDK
    version at hand provides. *)
Definition trace_latency_ms (trace_item : Obj) : M pyval :=
  if hasattr trace_item "latency_ms" then
    v <- getattr trace_item "latency_ms" ;; ret (py_or v (PNum 0))
  else if hasattr trace_item "latency" then
    v <- getattr trace_item "latency" ;;
    if truthy v then py_mul_1000 (py_or v (PNum 0)) else ret (PNum 0)
  else if hasattr trace_item "duration" then
    v <- getattr trace_item "duration" ;;
    if truthy v then py_mul_1000 (py_or v (PNum 0)) else ret (PNum 0)
  else ret (PNum 0).

(** The [spans] a trace conversion collects: the span synthesized from the
    trace metadata when no observations are given, else the observations
    that convert, or again the synthesized span when none does. *)
Definition collected_spans (trace_item : Obj)
    (observations : option (list Obj)) : M (list SpanData.t) :=
  if no_observations observations then
    root <- _create_span_from_trace_metadata trace_item ;;
    ret [root]
  else
    spans <- for_each
               (match observations with Some l => l | None => [] end)
               (fun spans obs =>
                  id <- getattr trace_item "id" ;;
                  span <- _convert_langfuse_observation_to_span id obs ;;
                  ret (match span with
                       | Some s => spans ++ [s]
                       | None => spans
                       end))
               [] ;;
    match spans with
    | [] =>
        root <- _create_span_from_trace_metadata trace_item ;;
        ret [root]
    | _ :: _ => ret spans
    end.

(** The body of the [try] block of [_convert_langfuse_trace_to_trace]. *)
Definition convert_trace_body (trace_item : Obj)
    (observations : option (list Obj)) : M TraceData.t :=
  spans <- collected_spans trace_item observations ;;
  status <- _determine_trace_status trace_item spans ;;
  latency_ms <- trace_latency_ms trace_item ;;
  trace_id <- getattr trace_item "id" ;;
  timestamp <- getattr trace_item "timestamp" ;;
  start_time <- _parse_timestamp timestamp ;;
  duration_ms <- py_float latency_ms ;;
  name <- getattr trace_item "name" ;;
  session_id <- getattr trace_item "session_id" ;;
  root_operation <- (if truthy session_id then ret session_id
                     else
                       name <- getattr trace_item "name" ;;
                       ret (py_or name (PStr "unknown"))) ;;
  new_TraceData trace_id spans start_time duration_ms
    (py_or name (PStr "unknown")) root_operation status.

(** [_convert_langfuse_trace_to_trace] *)
Definition _convert_langfuse_trace_to_trace (trace_item : Obj)
    (observations : option (list Obj)) : M (option TraceData.t) :=
  try_except
    (trace <- convert_trace_body trace_item observations ;; ret (Some trace))
    (fun e =>
       log L_ERROR "Error converting Langfuse trace to TraceData" ;;;
       ret None).

(** The SDK query parameters [search_traces] builds from a query. *)
Definition search_traces_params (query : TraceQuery.t) : dict :=
  let params : dict := [] in
  let params :=
    if truthy (of_opt_str (TraceQuery.service_name query))
    then dict_set params "name" (of_opt_str (TraceQuery.service_name query))
    else params in
  let params :=
    if truthy (of_opt_str (TraceQuery.operation_name query))
    then dict_set params "session_id" (of_opt_str (TraceQuery.operation_name query))
    else params in
  let params :=
    if truthy (of_opt_time (TraceQuery.start_time query))
    then dict_set params "from_timestamp" (of_opt_time (TraceQuery.start_time query))
    else dict_set params "from_timestamp" (PTime (now env - one_day)) in
  let params :=
    if truthy (of_opt_time (TraceQuery.end_time query))
    then dict_set params "to_timestamp" (of_opt_time (TraceQuery.end_time query))
    else params in
  let params := dict_set params "limit" (PNum (Z.min (TraceQuery.limit query) max_limit)) in
  match TraceQuery.tags query with
  | Some ((tag, _) :: _) => dict_set params "tag" (PStr tag)
  | _ => params
  end.

(** [response.data or []] *)
Definition data_or_empty (data : option (list Obj)) : list Obj :=
  match data with
  | Some l => l
  | None => []
  end.

(** The conversion loop of [search_traces]. *)
Definition convert_traces (traces_data : list Obj) : M (list TraceData.t) :=
  for_each traces_data
    (fun traces trace_item =>
       trace <- _convert_langfuse_trace_to_trace trace_item None ;;
       ret (match trace with
            | Some t => traces ++ [t]
            | None => traces
            end))
    [].

(** The filters [search_traces] evaluates client-side. *)
Definition client_filters_of (all_filters : list Filter) : list Filter :=
  filter (fun f => negb (op_in (operator f) get_supported_operators)) all_filters.

(** [search_traces] *)
Definition search_traces (query : TraceQuery.t) : M (list TraceData.t) :=
  log L_DEBUG "Searching traces with query" ;;;
  let params := search_traces_params query in
  traces_data <- try_except
                   (data <- remote (TraceList params) (api_trace_list env params) ;;
                    ret (data_or_empty data))
                   (fun e => log L_ERROR "Error querying Langfuse" ;;; raise e) ;;
  log L_DEBUG "Found traces from Langfuse" ;;;
  traces <- convert_traces traces_data ;;
  let all_filters := get_all_filters query in
  let client_filters := client_filters_of all_filters in
  match client_filters with
  | [] => ret traces
  | _ :: _ =>
      log L_INFO "Applying filters client-side" ;;;
      ret (apply_filters traces client_filters)
  end.

(** [search_spans] *)
Definition search_spans (query : SpanQuery.t) : M (list SpanData.t) :=
  log L_DEBUG "Searching spans with query" ;;;
  traces <- search_traces
              (TraceQuery.mk (SpanQuery.service_name query)
                 (SpanQuery.operation_name query) (SpanQuery.start_time query)
                 (SpanQuery.end_time query) (SpanQuery.limit query) None []) ;;
  let all_spans :=
    fold_left (fun all_spans trace => all_spans ++ TraceData.spans trace)
      traces [] in
  let all_filters := span_get_all_filters query in
  match all_filters with
  | [] => ret all_spans
  | _ :: _ => ret (apply_filters all_spans all_filters)
  end.

(** [get_trace] *)
Definition get_trace (trace_id : string) : M (option TraceData.t) :=
  log L_DEBUG "Fetching trace" ;;;
  try_except
    (trace_item <- remote (TraceGet trace_id) (api_trace_get env trace_id) ;;
     observations_response <-
       remote (ObservationsGetMany trace_id)
         (api_observations_get_many env trace_id) ;;
     let observations := data_or_empty observations_response in
     _convert_langfuse_trace_to_trace trace_item (Some observations))
    (fun e => log L_ERROR "Error fetching trace" ;;; raise e).

(** [health_check] *)
Definition health_check : M HealthCheckResponse.t :=
  try_except
    (response <- remote (TraceList [("limit", PNum 1)])
                   (api_trace_list env [("limit", PNum 1)]) ;;
     ret (HealthCheckResponse.mk healthy "langfuse" (url env) None))
    (fun e =>
       log L_ERROR "Health check failed" ;;;
       ret (HealthCheckResponse.mk unhealthy "langfuse" (url env) (Some (exn_str e)))).

(** The fallback composition the specification mandates for a backend
    without a native span search: search the traces with the trace-level
    fields of the span query, flatten the spans of all returned traces,
    then run the filter engine over them with the composed filters. *)
Definition search_spans_spec (query : SpanQuery.t) : M (list SpanData.t) :=
  traces <- search_traces
              (TraceQuery.mk (SpanQuery.service_name query)
                 (SpanQuery.operation_name query) (SpanQuery.start_time query)
                 (SpanQuery.end_time query) (SpanQuery.limit query) None []) ;;
  ret (apply_filters (flat_map TraceData.spans traces)
         (span_get_all_filters query)).

End WithEnv.

(** What the last stage of [search_traces] makes of the converted traces. *)
Definition client_stage (query : TraceQuery.t) (traces : list TraceData.t)
    : list TraceData.t :=
  match client_filters_of (get_all_filters query) with
  | [] => traces
  | _ :: _ => apply_filters traces (client_filters_of (get_all_filters query))
  end.

Definition attr_ok (o : Obj) (name : string) (test : pyval -> bool) : bool :=
  match dict_get o name with
  | Some v => test v
  | None => false
  end.

Definition is_str (v : pyval) : bool :=
  match v with PStr _ => true | _ => false end.

Definition is_opt_str (v : pyval) : bool :=
  match v with PNone | PStr _ => true | _ => false end.

Definition is_opt_dict (v : pyval) : bool :=
  match v with PNone | PDict _ => true | _ => false end.

Definition is_opt_list (v : pyval) : bool :=
  match v with PNone | PList _ => true | _ => false end.

(** [None], or an [int] within the range of [float]. *)
Definition is_opt_num (v : pyval) : bool :=
  match v with
  | PNone => true
  | PNum n => match float_of_int n with Some _ => true | None => false end
  | _ => false
  end.

(** A trace record as the Langfuse API documents it: a string id, optional
    strings for name and session, an optional metadata mapping, an optional
    list of tags, an optional [latency_ms] that [float] accepts, and the
    other attributes the backend reads present. *)
Definition well_formed_trace (trace_item : Obj) : bool :=
  attr_ok trace_item "id" is_str &&
  attr_ok trace_item "name" is_opt_str &&
  attr_ok trace_item "user_id" (fun _ => true) &&
  attr_ok trace_item "session_id" is_opt_str &&
  attr_ok trace_item "version" (fun _ => true) &&
  attr_ok trace_item "metadata" is_opt_dict &&
  attr_ok trace_item "tags" is_opt_list &&
  attr_ok trace_item "timestamp" (fun _ => true) &&
  attr_ok trace_item "latency_ms" is_opt_num &&
  attr_ok trace_item "level" (fun _ => true).

(** [query] with the explicit filters [extra] added to its own. *)
Definition with_more_filters (query : TraceQuery.t) (extra : list Filter)
    : TraceQuery.t :=
  TraceQuery.mk (TraceQuery.service_name query) (TraceQuery.operation_name query)
    (TraceQuery.start_time query) (TraceQuery.end_time query)
    (TraceQuery.limit query) (TraceQuery.tags query)
    (TraceQuery.filters query ++ extra).

(** The trace a record converts to in a search, if it converts. *)
Definition converted (env : Env) (trace_item : Obj) : option TraceData.t :=
  match outcome (_convert_langfuse_trace_to_trace env trace_item None) with
  | Ok (Some trace) => Some trace
  | _ => None
  end.

(** The traces a batch of records converts to: those that convert, in the
    order of the batch. *)
Definition converted_traces (env : Env) (traces_data : list Obj)
    : list TraceData.t :=
  flat_map (fun trace_item =>
              match converted env trace_item with
              | Some trace => [trace]
              | None => []
              end) traces_data.

(** The span an observation converts to, if it converts. *)
Definition converted_span (env : Env) (trace_id : pyval) (obs : Obj)
    : option SpanData.t :=
  match outcome (_convert_langfuse_observation_to_span env trace_id obs) with
  | Ok (Some span) => Some span
  | _ => None
  end.

(** The spans a batch of observations converts to. *)
Definition converted_spans (env : Env) (trace_id : pyval)
    (observations : list Obj) : list SpanData.t :=
  flat_map (fun obs =>
              match converted_span env trace_id obs with
              | Some span => [span]
              | None => []
              end) observations.

(** The outcomes section 4.1 of the specification allows [get_trace]: the
    full trace, a [NotFoundError], or a [BackendError]. *)
Definition allowed_get_trace_outcome (r : Exc (option TraceData.t)) : bool :=
  match r with
  | Ok (Some _) => true
  | Raise (NotFoundError _) => true
  | Raise (BackendError _) => true
  | _ => false
  end.

(** The trace query [search_spans] hands to [search_traces]: the
    trace-level fields of the span query, no tags, no filters. *)
Definition trace_query_of (query : SpanQuery.t) : TraceQuery.t :=
  TraceQuery.mk (SpanQuery.service_name query) (SpanQuery.operation_name query)
    (SpanQuery.start_time query) (SpanQuery.end_time query)
    (SpanQuery.limit query) None [].

(** The attributes every conversion of a trace record reads. *)
Definition trace_attributes : list string :=
  ["id"; "name"; "user_id"; "session_id"; "version"; "metadata"; "tags";
   "timestamp"; "latency_ms"; "level"].

(** *** The other operations of the backend *)

Section Catalog.
Variable env : Env.

(** [list_services] *)
Definition list_services : M (list pyval) :=
  log L_DEBUG "Listing services (trace names)" ;;;
  try_except
    (data <- remote (TraceList [("limit", PNum 100)])
               (api_trace_list env [("limit", PNum 100)]) ;;
     let traces := data_or_empty data in
     service_names <- for_each traces
                        (fun service_names trace =>
                           name <- getattr trace "name" ;;
                           if truthy name then set_add service_names name
                           else ret service_names)
                        [] ;;
     sorted_set service_names)
    (fun e => log L_ERROR "Error listing services" ;;; raise e).

(** [get_service_operations] *)
Definition get_service_operations (service_name : string) : M (list pyval) :=
  log L_DEBUG "Getting operations for service" ;;;
  try_except
    (data <- remote (TraceList [("name", PStr service_name); ("limit", PNum 100)])
               (api_trace_list env
                  [("name", PStr service_name); ("limit", PNum 100)]) ;;
     let traces := data_or_empty data in
     operations <- for_each traces
                     (fun operations trace =>
                        session_id <- getattr trace "session_id" ;;
                        if truthy session_id then set_add operations session_id
                        else ret operations)
                     [] ;;
     sorted_set operations)
    (fun e => log L_ERROR "Error getting operations" ;;; raise e).

(** [close]: a no-op. *)
Definition close : M unit := ret tt.

End Catalog.

(** The non-empty strings an attribute holds over a batch of records, in
    the order of the batch. *)
Definition strings_of (attr : string) (traces : list Obj) : list string :=
  flat_map (fun trace =>
              match dict_get trace attr with
              | Some (PStr s) => if (s =? "")%string then [] else [s]
              | _ => []
              end) traces.

(** A list of strings without its repetitions, first occurrences kept. *)
Definition unique (names : list string) : list string :=
  fold_left (fun acc s => if existsb (String.eqb s) acc then acc else acc ++ [s])
    names [].

Fixpoint str_insert (x : string) (l : list string) : list string :=
  match l with
  | [] => [x]
  | y :: rest => if String.leb x y then x :: l else y :: str_insert x rest
  end.

(** Strings in ascending code point order. *)
Definition str_sort (l : list string) : list string := fold_right str_insert [] l.

(** Strictly ascending: each string is below all later ones. *)
Definition ascending : list string -> Prop :=
  StronglySorted (fun a b => String.ltb a b = true).

(** [_create_headers] *)
Definition _create_headers : dict :=
  [("Content-Type", PStr "application/json")].

(** [_format_timestamp]; [isoformat] is [datetime.isoformat]. *)
Definition _format_timestamp (isoformat : Z -> string) (dt : Z) : string :=
  (isoformat dt ++ "Z")%string.

Section Construction.
(** The SDK client and its constructor [Langfuse(public_key, secret_key,
    host)]. *)
Variable Client : Type.
Variable Langfuse_new : string -> string -> string -> Exc Client.

(** The attributes of a [LangfuseBackend] instance. *)
Record LangfuseBackend : Type := mkBackend {
  public_key : option string;
  secret_key : option string;
  timeout : Z;
  backend_url : string;
  api_key : option string;
  _langfuse_client : Client
}.

(** [__init__] *)
Definition __init__ (url : string) (public_key secret_key : option string)
    (timeout : Z) : M LangfuseBackend :=
  if negb (truthy (of_opt_str public_key)) || negb (truthy (of_opt_str secret_key))
  then raise (ValueError "Langfuse backend requires both public_key and secret_key")
  else
    let url := rstrip_slash url in
    match public_key, secret_key with
    | Some pk, Some sk =>
        client <- (Langfuse_new pk sk url, []) ;;
        ret (mkBackend public_key secret_key timeout url secret_key client)
    | _, _ =>
        raise (ValueError "Langfuse backend requires both public_key and secret_key")
    end.

End Construction.

End Langfuse.
Import FilterEngine.
Import Langfuse.

(** ** Concrete SDK records and environments

    Used to run the backend on explicit inputs. *)

Module Examples.

Definition t0 : Z := 1700000000000000.

(** A well-formed trace record whose level is the neutral one. *)
Definition trace_checkout : Obj :=
  [("id", PStr "t-1"); ("name", PStr "checkout"); ("user_id", PNone);
   ("session_id", PStr "s-1"); ("version", PNone); ("metadata", PNone);
   ("tags", PList [PStr "prod"]); ("timestamp", PTime t0);
   ("latency_ms", PNum 120); ("level", PStr "DEFAULT")].

Definition trace_search : Obj :=
  [("id", PStr "t-2"); ("name", PStr "search"); ("user_id", PStr "u-7");
   ("session_id", PNone); ("version", PNone);
   ("metadata", PDict [("region", PStr "eu")]);
   ("tags", PNone); ("timestamp", PTime (t0 + 5));
   ("latency_ms", PNone); ("level", PStr "ERROR")].

(** A malformed trace record: it has an id and a timestamp, nothing else. *)
Definition trace_malformed : Obj :=
  [("id", PStr "t-bad"); ("timestamp", PTime (t0 + 1))].

Definition obs_llm : Obj :=
  [("id", PStr "o-1"); ("type", PStr "generation"); ("name", PStr "chat");
   ("metadata", PDict [("service.name", PStr "checkout")]);
   ("usage_details", PDict [("prompt_tokens", PNum 10);
                            ("completion_tokens", PNum 5);
                            ("total_tokens", PNum 15)]);
   ("model", PStr "gpt"); ("parent_observation_id", PNone);
   ("start_time", PTime t0); ("latency_ms", PNum 40);
   ("level", PStr "DEFAULT")].

(** A malformed observation: it has no name. *)
Definition obs_malformed : Obj := [("id", PStr "o-bad"); ("metadata", PNone)].

Definition attr_is (item : Obj) (attr : string) (v : pyval) : bool :=
  match dict_get item attr, v with
  | Some (PStr a), PStr b => (a =? b)%string
  | _, _ => false
  end.

Definition param_ok (params : dict) (key : string) (test : pyval -> bool) : bool :=
  match dict_get params key with
  | Some v => test v
  | None => true
  end.

Definition has_tag (item : Obj) (v : pyval) : bool :=
  match dict_get item "tags" with
  | Some (PList tags) =>
      existsb (fun t => match t, v with
                        | PStr a, PStr b => (a =? b)%string
                        | _, _ => false
                        end) tags
  | _ => false
  end.

Definition time_ok (item : Obj) (test : Z -> Z -> bool) (v : pyval) : bool :=
  match v, dict_get item "timestamp" with
  | PTime bound, Some (PTime t) => test bound t
  | _, _ => false
  end.

(** A trace store that honours every parameter of [trace.list]. *)
Definition selected (params : dict) (item : Obj) : bool :=
  param_ok params "name" (attr_is item "name") &&
  param_ok params "session_id" (attr_is item "session_id") &&
  param_ok params "from_timestamp" (time_ok item Z.leb) &&
  param_ok params "to_timestamp" (time_ok item Z.geb) &&
  param_ok params "tag" (has_tag item).

Definition limit_of (params : dict) : nat :=
  match dict_get params "limit" with
  | Some (PNum n) => Z.to_nat n
  | _ => 50%nat
  end.

Definition stored_trace_list (store : list Obj) (params : dict)
    : Exc (option (list Obj)) :=
  Ok (Some (firstn (limit_of params) (filter (selected params) store))).

Definition stored_trace_get (store : list Obj) (trace_id : string) : Exc Obj :=
  match filter (fun item => attr_is item "id" (PStr trace_id)) store with
  | item :: _ => Ok item
  | [] => Raise (ApiError 404 "Trace not found")
  end.

(** A Langfuse whose store holds [store], with observations [observations]
    for every trace, read one minute after [t0]. *)
Definition langfuse_with (store observations : list Obj) : Env :=
  mkEnv (t0 + 60000000) (fun _ => None) (fun _ => None) (fun _ => "?")
    (stored_trace_list store) (stored_trace_get store)
    (fun _ => Ok (Some observations)) "https://cloud.langfuse.com".

(** A Langfuse that answers every call with a server error. *)
Definition langfuse_down : Env :=
  mkEnv t0 (fun _ => None) (fun _ => None) (fun _ => "?")
    (fun _ => Raise (ApiError 503 "Service Unavailable"))
    (fun _ => Raise (ApiError 503 "Service Unavailable"))
    (fun _ => Raise (ApiError 503 "Service Unavailable"))
    "https://cloud.langfuse.com".

(** A query for the traces whose status is ERROR, through an explicit
    filter. *)
Definition status_is_error : Filter := mkFilter "status" EQUALS (PStr "ERROR") STRING.

Definition errors_query : TraceQuery.t :=
  TraceQuery.mk None None (Some t0) None 20 None [status_is_error].

Definition big_query : TraceQuery.t :=
  TraceQuery.mk None None None None 500 None [].

End Examples.
Import Examples.

(** Further records: a trace without a name and without a session, and a
    trace as an SDK version without [latency_ms] returns it, its latency
    in seconds. *)
Module MoreExamples.

Definition trace_nameless : Obj :=
  [("id", PStr "t-3"); ("name", PNone); ("user_id", PNone);
   ("session_id", PNone); ("version", PNone); ("metadata", PNone);
   ("tags", PNone); ("timestamp", PTime (t0 + 7));
   ("latency_ms", PNum 15); ("level", PNone)].

Definition trace_legacy : Obj :=
  [("id", PStr "t-4"); ("name", PStr "billing"); ("session_id", PNone);
   ("timestamp", PTime (t0 + 9)); ("latency", PNum 2);
   ("level", PStr "WARNING")].

(** A complete record of such an SDK version: every attribute the backend
    reads but [latency_ms], the latency given in seconds. *)
Definition trace_seconds : Obj :=
  [("id", PStr "t-5"); ("name", PStr "refund"); ("user_id", PNone);
   ("session_id", PNone); ("version", PNone); ("metadata", PNone);
   ("tags", PNone); ("timestamp", PTime (t0 + 11));
   ("latency", PNum 2); ("level", PStr "DEFAULT")].

(** An observation that reports an error. *)
Definition obs_failed : Obj :=
  [("id", PStr "o-2"); ("type", PStr "span"); ("name", PStr "charge");
   ("metadata", PDict [("service.name", PStr "billing"); ("attempt", PNum 3)]);
   ("parent_observation_id", PStr "o-1");
   ("start_time", PTime (t0 + 10)); ("latency_ms", PNum 7);
   ("level", PStr "ERROR")].

End MoreExamples.
Import MoreExamples.

(** * Properties *)

(** ** The effect monad *)

Section EffLemmas.
Context {A B : Type}.

Lemma outcome_bind (m : M A) (f : A -> M B) :
  outcome (bind m f) =
  match outcome m with
  | Ok a => outcome (f a)
  | Raise e => Raise e
  end.
Proof.
  destruct m as [[a | e] t]; simpl; [destruct (f a) |]; reflexivity.
Qed.

Lemma events_bind (m : M A) (f : A -> M B) :
  events (bind m f) =
  match outcome m with
  | Ok a => events m ++ events (f a)
  | Raise _ => events m
  end.
Proof.
  destruct m as [[a | e] t]; simpl; [destruct (f a) |]; reflexivity.
Qed.

Lemma bind_Ok_inv (m : M A) (f : A -> M B) (b : B) :
  outcome (bind m f) = Ok b ->
  exists a, outcome m = Ok a /\ outcome (f a) = Ok b.
Proof.
  rewrite outcome_bind. destruct (outcome m) as [a | e]; [eauto | discriminate].
Qed.

Lemma bind_Ok (m : M A) (f : A -> M B) (a : A) :
  outcome m = Ok a -> outcome (bind m f) = outcome (f a).
Proof. intros H. rewrite outcome_bind, H. reflexivity. Qed.

Lemma bind_Raise (m : M A) (f : A -> M B) (e : exn) :
  outcome m = Raise e -> outcome (bind m f) = Raise e.
Proof. intros H. rewrite outcome_bind, H. reflexivity. Qed.

End EffLemmas.

Lemma outcome_try_except {A : Type} (m : M A) (h : exn -> M A) :
  outcome (try_except m h) =
  match outcome m with
  | Ok a => Ok a
  | Raise e => outcome (h e)
  end.
Proof.
  destruct m as [[a | e] t]; simpl; [| destruct (h e)]; reflexivity.
Qed.

Lemma events_try_except {A : Type} (m : M A) (h : exn -> M A) :
  events (try_except m h) =
  match outcome m with
  | Ok _ => events m
  | Raise e => events m ++ events (h e)
  end.
Proof.
  destruct m as [[a | e] t]; simpl; [| destruct (h e)]; reflexivity.
Qed.

Lemma calls_bind {A B : Type} (m : M A) (f : A -> M B) :
  calls (bind m f) =
  match outcome m with
  | Ok a => calls m ++ calls (f a)
  | Raise _ => calls m
  end.
Proof.
  unfold calls. rewrite events_bind.
  destruct (outcome m); [apply filter_app | reflexivity].
Qed.

Lemma calls_try_except {A : Type} (m : M A) (h : exn -> M A) :
  calls (try_except m h) =
  match outcome m with
  | Ok _ => calls m
  | Raise e => calls m ++ calls (h e)
  end.
Proof.
  unfold calls. rewrite events_try_except.
  destruct (outcome m); [reflexivity | apply filter_app].
Qed.

Lemma silent_ret {A : Type} (a : A) : silent (ret a).
Proof. reflexivity. Qed.

Lemma silent_raise {A : Type} (e : exn) : silent (@raise A e).
Proof. reflexivity. Qed.

Lemma silent_log (lvl : loglevel) (text : string) : silent (log lvl text).
Proof. reflexivity. Qed.

Lemma silent_bind {A B : Type} (m : M A) (f : A -> M B) :
  silent m -> (forall a, silent (f a)) -> silent (bind m f).
Proof.
  unfold silent. intros Hm Hf. rewrite calls_bind, Hm.
  destruct (outcome m); [apply Hf | reflexivity].
Qed.

Lemma silent_try_except {A : Type} (m : M A) (h : exn -> M A) :
  silent m -> (forall e, silent (h e)) -> silent (try_except m h).
Proof.
  unfold silent. intros Hm Hh. rewrite calls_try_except, Hm.
  destruct (outcome m); [reflexivity | apply Hh].
Qed.

Lemma silent_for_each {A S : Type} (xs : list A) (body : S -> A -> M S) :
  (forall acc x, silent (body acc x)) -> forall acc, silent (for_each xs body acc).
Proof.
  intros Hbody. induction xs as [| x rest IH]; intros acc; simpl.
  - apply silent_ret.
  - apply silent_bind; [apply Hbody | intros; apply IH].
Qed.

Create HintDb silent_db.
#[export] Hint Resolve silent_ret silent_raise silent_log : silent_db.

(** Splits a computation along its binds, handlers, loops and branches
    until only primitive steps remain. *)
Ltac silent_step :=
  match goal with
  | |- silent (bind _ _) => apply silent_bind; [| intros]
  | |- silent (try_except _ _) => apply silent_try_except; [| intros]
  | |- silent (for_each _ _ _) => apply silent_for_each; intros
  | |- silent (ret _) => apply silent_ret
  | |- silent (raise _) => apply silent_raise
  | |- silent (log _ _) => apply silent_log
  | |- silent (let _ := _ in _) => cbv zeta
  | |- silent (if ?c then _ else _) => destruct c
  | |- silent (match ?x with _ => _ end) => destruct x
  end.

Ltac silent_auto := repeat silent_step; auto with silent_db.

(** ** Only the SDK client talks to the backend

    Record conversion emits log records but never a remote call. *)

Lemma silent_getattr (o : Obj) (name : string) : silent (getattr o name).
Proof. unfold getattr. silent_auto. Qed.

Lemma silent_py_get (v : pyval) (key : string) (default : pyval) :
  silent (py_get v key default).
Proof. unfold py_get. destruct v; silent_auto. Qed.

Lemma silent_py_iter (v : pyval) : silent (py_iter v).
Proof. unfold py_iter. destruct v; silent_auto. Qed.

Lemma silent_update_pairs (xs : list pyval) :
  forall d, silent (update_pairs d xs).
Proof.
  induction xs as [| x rest IH]; intros d; simpl; [apply silent_ret |].
  destruct (as_pair x) as [[k v] |]; [| apply silent_raise].
  destruct k; solve [apply silent_raise | apply IH].
Qed.

Lemma silent_py_update (d : dict) (other : pyval) : silent (py_update d other).
Proof.
  unfold py_update.
  destruct other; solve [silent_auto | apply silent_update_pairs].
Qed.

Lemma silent_py_mul_1000 (v : pyval) : silent (py_mul_1000 v).
Proof. unfold py_mul_1000. destruct v; silent_auto. Qed.

Lemma silent_str_field (name : string) (v : pyval) : silent (str_field name v).
Proof. unfold str_field. destruct v; silent_auto. Qed.

Lemma silent_opt_str_field (name : string) (v : pyval) :
  silent (opt_str_field name v).
Proof. unfold opt_str_field. destruct v; silent_auto. Qed.

#[export] Hint Resolve silent_getattr silent_py_get silent_py_iter
  silent_py_update silent_py_mul_1000 silent_str_field silent_opt_str_field
  : silent_db.

Lemma silent_new_SpanData a b c d e f g h i :
  silent (new_SpanData a b c d e f g h i).
Proof. unfold new_SpanData. silent_auto. Qed.

Lemma silent_new_TraceData a b c d e f g :
  silent (new_TraceData a b c d e f g).
Proof. unfold new_TraceData. silent_auto. Qed.

Lemma silent_determine_trace_status (trace_item : Obj) (spans : list SpanData.t) :
  silent (_determine_trace_status trace_item spans).
Proof. unfold _determine_trace_status. silent_auto. Qed.

#[export] Hint Resolve silent_new_SpanData silent_new_TraceData
  silent_determine_trace_status : silent_db.

Section SilentConversion.
Variable env : Env.

Lemma silent_py_float (v : pyval) : silent (py_float env v).
Proof. unfold py_float. destruct v; silent_auto. Qed.

Lemma silent_parse_timestamp (timestamp : pyval) :
  silent (_parse_timestamp env timestamp).
Proof. unfold _parse_timestamp. silent_auto. Qed.

Hint Resolve silent_py_float silent_parse_timestamp : silent_db.

Lemma silent_create_span (trace_item : Obj) :
  silent (_create_span_from_trace_metadata env trace_item).
Proof. unfold _create_span_from_trace_metadata. silent_auto. Qed.

Lemma silent_convert_observation (trace_id : pyval) (obs : Obj) :
  silent (_convert_langfuse_observation_to_span env trace_id obs).
Proof. unfold _convert_langfuse_observation_to_span. silent_auto. Qed.

Lemma silent_trace_latency_ms (trace_item : Obj) :
  silent (trace_latency_ms trace_item).
Proof. unfold trace_latency_ms. silent_auto. Qed.

Hint Resolve silent_create_span silent_convert_observation
  silent_trace_latency_ms : silent_db.

Lemma silent_collected_spans (trace_item : Obj) (observations : option (list Obj)) :
  silent (collected_spans env trace_item observations).
Proof. unfold collected_spans. silent_auto. Qed.

Hint Resolve silent_collected_spans : silent_db.

Lemma silent_convert_trace_body (trace_item : Obj) (observations : option (list Obj)) :
  silent (convert_trace_body env trace_item observations).
Proof. unfold convert_trace_body. silent_auto. Qed.

Hint Resolve silent_convert_trace_body : silent_db.

Lemma silent_convert_trace (trace_item : Obj) (observations : option (list Obj)) :
  silent (_convert_langfuse_trace_to_trace env trace_item observations).
Proof. unfold _convert_langfuse_trace_to_trace. silent_auto. Qed.

Hint Resolve silent_convert_trace : silent_db.

Lemma silent_convert_traces (traces_data : list Obj) :
  silent (convert_traces env traces_data).
Proof. unfold convert_traces. silent_auto. Qed.

End SilentConversion.

(** ** The remote call of a trace search *)

Lemma outcome_fetch (env : Env) (params : dict) :
  outcome
    (try_except
       (data <- remote (TraceList params) (api_trace_list env params) ;;
        ret (data_or_empty data))
       (fun e => log L_ERROR "Error querying Langfuse" ;;; raise e)) =
  match api_trace_list env params with
  | Ok data => Ok (data_or_empty data)
  | Raise e => Raise e
  end.
Proof. destruct (api_trace_list env params); reflexivity. Qed.

Lemma calls_fetch (env : Env) (params : dict) :
  calls
    (try_except
       (data <- remote (TraceList params) (api_trace_list env params) ;;
        ret (data_or_empty data))
       (fun e => log L_ERROR "Error querying Langfuse" ;;; raise e)) =
  [Call (TraceList params)].
Proof. destruct (api_trace_list env params); reflexivity. Qed.

Lemma silent_client_stage (query : TraceQuery.t) (traces : list TraceData.t) :
  silent
    (match client_filters_of (get_all_filters query) with
     | [] => ret traces
     | _ :: _ =>
         log L_INFO "Applying filters client-side" ;;;
         ret (apply_filters traces
                (client_filters_of (get_all_filters query)))
     end).
Proof. silent_auto. Qed.

(** [search_traces] issues exactly one remote call, [trace.list] with the
    parameters built from the query. *)
Lemma calls_search_traces (env : Env) (query : TraceQuery.t) :
  calls (search_traces env query) =
  [Call (TraceList (search_traces_params env query))].
Proof.
  unfold search_traces. cbv zeta.
  rewrite calls_bind. simpl (outcome (log _ _)). cbv iota.
  rewrite calls_bind, calls_fetch, outcome_fetch.
  destruct (api_trace_list env (search_traces_params env query)) as [data | e];
    [| reflexivity].
  change (calls (log L_DEBUG "Searching traces with query")) with (@nil event).
  cbn [app]. f_equal.
  apply silent_bind; [apply silent_log | intros _].
  apply silent_bind; [apply silent_convert_traces | intros traces].
  apply silent_client_stage.
Qed.

(** ** Conversion never raises *)

Lemma convert_trace_total (env : Env) (trace_item : Obj)
    (observations : option (list Obj)) :
  outcome (_convert_langfuse_trace_to_trace env trace_item observations) =
  match outcome (convert_trace_body env trace_item observations) with
  | Ok trace => Ok (Some trace)
  | Raise _ => Ok None
  end.
Proof.
  unfold _convert_langfuse_trace_to_trace.
  rewrite outcome_try_except, outcome_bind.
  destruct (outcome (convert_trace_body env trace_item observations));
    reflexivity.
Qed.

Lemma convert_trace_outcome (env : Env) (trace_item : Obj) :
  outcome (_convert_langfuse_trace_to_trace env trace_item None) =
  Ok (converted env trace_item).
Proof.
  unfold converted. rewrite convert_trace_total.
  destruct (outcome (convert_trace_body env trace_item None)); reflexivity.
Qed.

Lemma outcome_convert_loop (env : Env) (traces_data : list Obj) :
  forall acc,
    outcome
      (for_each traces_data
         (fun traces trace_item =>
            trace <- _convert_langfuse_trace_to_trace env trace_item None ;;
            ret (match trace with
                 | Some t => traces ++ [t]
                 | None => traces
                 end))
         acc) = Ok (acc ++ converted_traces env traces_data).
Proof.
  induction traces_data as [| x rest IH]; intros acc; simpl.
  - rewrite app_nil_r. reflexivity.
  - rewrite outcome_bind, outcome_bind, convert_trace_outcome.
    destruct (converted env x) as [t |]; cbn [outcome fst ret].
    + rewrite IH, <- app_assoc. reflexivity.
    + apply IH.
Qed.

Lemma outcome_convert_traces (env : Env) (traces_data : list Obj) :
  outcome (convert_traces env traces_data) = Ok (converted_traces env traces_data).
Proof. unfold convert_traces. apply outcome_convert_loop. Qed.

(** The result of a trace search: the backend's failure as it is, or the
    converted records after the client-side stage. *)
Lemma outcome_search_traces (env : Env) (query : TraceQuery.t) :
  outcome (search_traces env query) =
  match api_trace_list env (search_traces_params env query) with
  | Ok data =>
      Ok (client_stage query (converted_traces env (data_or_empty data)))
  | Raise e => Raise e
  end.
Proof.
  unfold search_traces. cbv zeta.
  rewrite outcome_bind. cbn [outcome fst log].
  rewrite outcome_bind, outcome_fetch.
  destruct (api_trace_list env (search_traces_params env query)) as [data | e];
    [| reflexivity].
  rewrite outcome_bind. cbn [outcome fst log].
  rewrite outcome_bind, outcome_convert_traces.
  unfold client_stage.
  destruct (client_filters_of (get_all_filters query)); reflexivity.
Qed.

(** ** Query parameters *)

(** Runs through the shapes of a query that decide which parameters are
    set. *)
Ltac params_cases :=
  match goal with
  | |- context [search_traces_params] => unfold search_traces_params
  | _ => idtac
  end;
  match goal with
  | query : TraceQuery.t |- _ =>
      destruct query as [svc op start stop lim tags fs];
      destruct svc as [svc |], op as [op |], start, stop,
        tags as [[| [tag v] tags] |];
      simpl;
      repeat match goal with
             | |- context [(?s =? "")%string] => destruct (s =? "")%string; simpl
             end;
      reflexivity
  end.

Lemma params_from_timestamp (env : Env) (query : TraceQuery.t) :
  dict_get (search_traces_params env query) "from_timestamp" =
  Some (PTime match TraceQuery.start_time query with
              | Some t => t
              | None => now env - one_day
              end).
Proof.
  unfold search_traces_params. params_cases.
Qed.

Lemma params_limit (env : Env) (query : TraceQuery.t) :
  dict_get (search_traces_params env query) "limit" =
  Some (PNum (Z.min (TraceQuery.limit query) 100)).
Proof.
  unfold search_traces_params. params_cases.
Qed.

Lemma converted_traces_length (env : Env) (traces_data : list Obj) :
  (length (converted_traces env traces_data) <= length traces_data)%nat.
Proof.
  induction traces_data as [| x rest IH]; simpl; [lia |].
  rewrite length_app. destruct (converted env x); simpl; lia.
Qed.

Lemma apply_filters_length {A : Type} `{Filterable A} (items : list A)
    (filters : list Filter) :
  (length (apply_filters items filters) <= length items)%nat.
Proof. apply filter_length_le. Qed.

Lemma client_stage_length (query : TraceQuery.t) (traces : list TraceData.t) :
  (length (client_stage query traces) <= length traces)%nat.
Proof.
  unfold client_stage.
  destruct (client_filters_of (get_all_filters query));
    [lia | apply apply_filters_length].
Qed.

(** C7: a limit above the backend's maximum of 100 is clamped, never
    rejected.  [search_traces] issues its one remote call with
    [limit = min(query.limit, 100)]; it raises only what the remote call
    raised, whatever the requested limit; and when the backend returns no
    more records than the limit it was given, the search returns at most
    100 traces. *)
Theorem C7_limit_clamped (env : Env) (query : TraceQuery.t) :
  calls (search_traces env query) =
    [Call (TraceList (search_traces_params env query))] /\
  dict_get (search_traces_params env query) "limit" =
    Some (PNum (Z.min (TraceQuery.limit query) 100)) /\
  (forall e, outcome (search_traces env query) = Raise e ->
     api_trace_list env (search_traces_params env query) = Raise e) /\
  (forall data,
     api_trace_list env (search_traces_params env query) = Ok data ->
     Z.of_nat (length (data_or_empty data)) <= Z.min (TraceQuery.limit query) 100 ->
     exists traces,
       outcome (search_traces env query) = Ok traces /\
       Z.of_nat (length traces) <= 100).
Proof.
  split; [apply calls_search_traces |].
  split; [apply params_limit |].
  rewrite outcome_search_traces. split.
  - intros e. destruct (api_trace_list env (search_traces_params env query));
      intros H; [discriminate H | injection H as ->; reflexivity].
  - intros data Hdata Hlen. rewrite Hdata. eexists. split; [reflexivity |].
    pose proof (client_stage_length query
                  (converted_traces env (data_or_empty data))).
    pose proof (converted_traces_length env (data_or_empty data)). lia.
Qed.

(** A query with [limit=500] against a store of 150 traces that honours the
    limit it is sent. *)
Lemma C7_limit_500_witness :
  dict_get
    (search_traces_params (langfuse_with (repeat trace_checkout 150) []) big_query)
    "limit" = Some (PNum 100) /\
  exists traces,
    outcome (search_traces (langfuse_with (repeat trace_checkout 150) []) big_query) =
      Ok traces /\
    Z.of_nat (length traces) <= 100.
Proof.
  destruct (C7_limit_clamped (langfuse_with (repeat trace_checkout 150) []) big_query)
    as [_ [Hlimit [_ Hbound]]].
  split; [exact Hlimit |].
  apply (Hbound (Some (firstn 100 (repeat trace_checkout 150)))).
  - reflexivity.
  - vm_compute. discriminate.
Defined.

(** C8: without a [start_time] the search asks for the last 24 hours: the
    one remote call carries [from_timestamp = now - 1 day]; with a
    [start_time] it carries that instead.  Either way the window is bounded
    from below. *)
Theorem C8_default_time_window (env : Env) (query : TraceQuery.t) :
  calls (search_traces env query) =
    [Call (TraceList (search_traces_params env query))] /\
  dict_get (search_traces_params env query) "from_timestamp" =
    Some (PTime match TraceQuery.start_time query with
                | Some start_time => start_time
                | None => now env - 86400000000
                end).
Proof.
  split; [apply calls_search_traces | apply params_from_timestamp].
Qed.

(** C9: [health_check] never raises.  It issues the one-result probe and
    returns a response: healthy, with the backend name and URL, when the
    probe succeeds; unhealthy, with the failure's text in the [error] field,
    when the probe raises. *)
Theorem C9_health_check_never_raises (env : Env) :
  calls (health_check env) = [Call (TraceList [("limit", PNum 1)])] /\
  outcome (health_check env) =
    Ok match api_trace_list env [("limit", PNum 1)] with
       | Ok _ => HealthCheckResponse.mk healthy "langfuse" (url env) None
       | Raise e => HealthCheckResponse.mk unhealthy "langfuse" (url env) (Some (exn_str e))
       end.
Proof.
  unfold health_check.
  destruct (api_trace_list env [("limit", PNum 1)]); split; reflexivity.
Qed.

(** ** Trace status *)

Lemma any_error_statuses (spans spans' : list SpanData.t) :
  map SpanData.status spans = map SpanData.status spans' ->
  any_error spans = any_error spans'.
Proof.
  unfold any_error. revert spans'.
  induction spans as [| s rest IH]; intros [| s' rest'] H; simpl in *;
    try discriminate; [reflexivity |].
  injection H as Hs Hrest. rewrite Hs, (IH _ Hrest). reflexivity.
Qed.

Lemma any_error_In (spans : list SpanData.t) (span : SpanData.t) :
  In span spans -> SpanData.status span = ERROR -> any_error spans = true.
Proof.
  intros Hin Hst. apply existsb_exists. exists span.
  rewrite Hst. split; [exact Hin | reflexivity].
Qed.

(** C2: the status of a trace is a function of its level and of the
    statuses of its spans alone, computed without logging, remote call or
    exception.  Level ERROR gives ERROR whatever the spans; level WARNING
    or DEFAULT with an ERROR span gives ERROR; any other level (one the
    backend has no mapping for, [None] included) gives UNSET. *)
Theorem C2_trace_status_derivation (trace_item : Obj) (level : pyval)
    (spans : list SpanData.t) (Hlevel : dict_get trace_item "level" = Some level) :
  (forall trace_item' spans',
     dict_get trace_item' "level" = Some level ->
     map SpanData.status spans' = map SpanData.status spans ->
     _determine_trace_status trace_item' spans' =
     _determine_trace_status trace_item spans) /\
  (exists status, _determine_trace_status trace_item spans = (Ok status, [])) /\
  (level = PStr "ERROR" ->
     outcome (_determine_trace_status trace_item spans) = Ok ERROR) /\
  (level = PStr "WARNING" \/ level = PStr "DEFAULT" ->
     (exists span, In span spans /\ SpanData.status span = ERROR) ->
     outcome (_determine_trace_status trace_item spans) = Ok ERROR) /\
  (level <> PStr "ERROR" -> level <> PStr "WARNING" -> level <> PStr "DEFAULT" ->
     outcome (_determine_trace_status trace_item spans) = Ok UNSET).
Proof.
  assert (Hrun : forall item sp,
             dict_get item "level" = Some level ->
             _determine_trace_status item sp =
             (Ok (if eq_str level "ERROR" then ERROR
                  else if eq_str level "WARNING" || eq_str level "DEFAULT"
                       then (if any_error sp then ERROR else OK)
                       else UNSET), [])).
  { intros item sp H. unfold _determine_trace_status, getattr. rewrite H.
    cbv beta iota zeta delta [bind ret].
    destruct (eq_str level "ERROR"), (eq_str level "WARNING"),
      (eq_str level "DEFAULT"), (any_error sp); reflexivity. }
  repeat split.
  - intros item' spans' Hl Hst. rewrite (Hrun _ _ Hl), (Hrun _ _ Hlevel).
    rewrite (any_error_statuses _ _ Hst). reflexivity.
  - rewrite (Hrun _ _ Hlevel). eexists. reflexivity.
  - intros ->. rewrite (Hrun _ _ Hlevel). reflexivity.
  - intros Hl [span [Hin Hst]]. rewrite (Hrun _ _ Hlevel).
    rewrite (any_error_In _ _ Hin Hst). destruct Hl as [-> | ->]; reflexivity.
  - intros HE HW HD. rewrite (Hrun _ _ Hlevel).
    assert (Hneq : forall lit, level <> PStr lit -> eq_str level lit = false).
    { intros lit Hne. destruct level; try reflexivity. simpl.
      apply String.eqb_neq. intros ->. apply Hne. reflexivity. }
    rewrite (Hneq _ HE), (Hneq _ HW), (Hneq _ HD). reflexivity.
Qed.

(** The derivation at a trace of level WARNING with one failed span. *)
Lemma C2_trace_status_witness :
  outcome
    (_determine_trace_status [("id", PStr "t-9"); ("level", PStr "WARNING")]
       [SpanData.mk "t-9" "o-1" None "chat" "svc" 0 1 OK [];
        SpanData.mk "t-9" "o-2" None "tool" "svc" 0 1 ERROR []]) = Ok ERROR /\
  outcome
    (_determine_trace_status [("id", PStr "t-9"); ("level", PNone)]
       [SpanData.mk "t-9" "o-1" None "chat" "svc" 0 1 OK []]) = Ok UNSET.
Proof.
  split.
  - refine (proj1 (proj2 (proj2 (proj2
      (C2_trace_status_derivation
         [("id", PStr "t-9"); ("level", PStr "WARNING")] (PStr "WARNING")
         [SpanData.mk "t-9" "o-1" None "chat" "svc" 0 1 OK [];
          SpanData.mk "t-9" "o-2" None "tool" "svc" 0 1 ERROR []]
         eq_refl)))) (or_introl eq_refl) _).
    exists (SpanData.mk "t-9" "o-2" None "tool" "svc" 0 1 ERROR []).
    split; [right; left; reflexivity | reflexivity].
  - refine (proj2 (proj2 (proj2 (proj2
      (C2_trace_status_derivation
         [("id", PStr "t-9"); ("level", PNone)] PNone
         [SpanData.mk "t-9" "o-1" None "chat" "svc" 0 1 OK []]
         eq_refl)))) _ _ _); discriminate.
Defined.

(** ** Span search *)

Lemma fold_left_spans (traces : list TraceData.t) :
  forall acc,
    fold_left (fun all_spans trace => all_spans ++ TraceData.spans trace)
      traces acc = acc ++ flat_map TraceData.spans traces.
Proof.
  induction traces as [| t rest IH]; intros acc; simpl.
  - rewrite app_nil_r. reflexivity.
  - rewrite IH, app_assoc. reflexivity.
Qed.

Lemma apply_filters_nil {A : Type} `{Filterable A} (items : list A) :
  apply_filters items [] = items.
Proof.
  unfold apply_filters. simpl.
  induction items as [| x rest IH]; simpl; [| rewrite IH]; reflexivity.
Qed.

(** The trace query a span search hands to [search_traces]. *)
Lemma span_search_delegates (env : Env) (query : SpanQuery.t)
    (k : list TraceData.t -> M (list SpanData.t)) :
  (forall traces, silent (k traces)) ->
  calls (bind (search_traces env
                 (TraceQuery.mk (SpanQuery.service_name query)
                    (SpanQuery.operation_name query) (SpanQuery.start_time query)
                    (SpanQuery.end_time query) (SpanQuery.limit query) None []))
           k) =
  calls (search_traces env
           (TraceQuery.mk (SpanQuery.service_name query)
              (SpanQuery.operation_name query) (SpanQuery.start_time query)
              (SpanQuery.end_time query) (SpanQuery.limit query) None [])).
Proof.
  intros Hk. rewrite calls_bind.
  destruct (outcome (search_traces env _)); [| reflexivity].
  rewrite (Hk a). apply app_nil_r.
Qed.

(** C5: [search_spans] is the mandated fallback composition.  It returns
    what the composition returns (or raises what it raises) and issues the
    same remote calls: [search_traces] on the trace-level fields of the span
    query, the spans of all returned traces flattened in order, and the
    filter engine run over them with the filters of [get_all_filters()]. *)
Theorem C5_search_spans_is_fallback_composition (env : Env) (query : SpanQuery.t) :
  outcome (search_spans env query) = outcome (search_spans_spec env query) /\
  calls (search_spans env query) = calls (search_spans_spec env query).
Proof.
  unfold search_spans, search_spans_spec. cbv zeta. split.
  - rewrite outcome_bind. cbn [outcome fst log].
    rewrite !outcome_bind.
    destruct (outcome (search_traces env _)) as [traces | e]; [| reflexivity].
    rewrite fold_left_spans. cbn [app].
    destruct (span_get_all_filters query) as [| f fs]; cbn [outcome fst ret].
    + rewrite apply_filters_nil. reflexivity.
    + reflexivity.
  - rewrite calls_bind. cbn [outcome fst log].
    change (calls (log L_DEBUG "Searching spans with query")) with (@nil event).
    cbn [app].
    rewrite !span_search_delegates; [reflexivity | intros; apply silent_ret |].
    intros traces. destruct (span_get_all_filters query); apply silent_ret.
Qed.

(** ** Failure isolation in a batch *)

Lemma converted_body (env : Env) (trace_item : Obj) :
  converted env trace_item =
  match outcome (convert_trace_body env trace_item None) with
  | Ok trace => Some trace
  | Raise _ => None
  end.
Proof.
  unfold converted. rewrite convert_trace_total.
  destruct (outcome (convert_trace_body env trace_item None)); reflexivity.
Qed.

Lemma converted_traces_app (env : Env) (xs ys : list Obj) :
  converted_traces env (xs ++ ys) =
  converted_traces env xs ++ converted_traces env ys.
Proof. apply flat_map_app. Qed.

Lemma converted_traces_good (env : Env) (items : list Obj) :
  Forall (fun item => exists trace,
            outcome (convert_trace_body env item None) = Ok trace) items ->
  Forall2 (fun item trace => outcome (convert_trace_body env item None) = Ok trace)
    items (converted_traces env items).
Proof.
  induction 1 as [| item rest [trace Htrace] _ IH]; simpl; [constructor |].
  rewrite converted_body, Htrace. simpl. constructor; assumption.
Qed.

(** A failed conversion leaves its error record in the log. *)
Lemma convert_trace_logs_failure (env : Env) (trace_item : Obj)
    (observations : option (list Obj)) (e : exn) :
  outcome (convert_trace_body env trace_item observations) = Raise e ->
  In (Log L_ERROR "Error converting Langfuse trace to TraceData")
    (events (_convert_langfuse_trace_to_trace env trace_item observations)).
Proof.
  intros H. unfold _convert_langfuse_trace_to_trace.
  rewrite events_try_except, outcome_bind, H.
  apply in_or_app. right. left. reflexivity.
Qed.

Lemma events_convert_loop (env : Env) (traces_data : list Obj) :
  forall acc,
    events
      (for_each traces_data
         (fun traces trace_item =>
            trace <- _convert_langfuse_trace_to_trace env trace_item None ;;
            ret (match trace with
                 | Some t => traces ++ [t]
                 | None => traces
                 end))
         acc) =
    flat_map (fun trace_item =>
                events (_convert_langfuse_trace_to_trace env trace_item None))
      traces_data.
Proof.
  induction traces_data as [| x rest IH]; intros acc; simpl; [reflexivity |].
  rewrite events_bind, outcome_bind, events_bind, convert_trace_outcome.
  cbn [outcome events fst snd ret]. rewrite app_nil_r, IH. reflexivity.
Qed.

Lemma events_search_traces (env : Env) (query : TraceQuery.t)
    (data : option (list Obj)) (ev : event) (trace_item : Obj) :
  api_trace_list env (search_traces_params env query) = Ok data ->
  In trace_item (data_or_empty data) ->
  In ev (events (_convert_langfuse_trace_to_trace env trace_item None)) ->
  In ev (events (search_traces env query)).
Proof.
  intros Hdata Hitem Hev. unfold search_traces. cbv zeta.
  rewrite events_bind. cbn [outcome fst log]. apply in_or_app. right.
  rewrite events_bind, outcome_fetch, Hdata. apply in_or_app. right.
  rewrite events_bind. cbn [outcome fst log]. apply in_or_app. right.
  rewrite events_bind, outcome_convert_traces. apply in_or_app. left.
  unfold convert_traces. rewrite events_convert_loop.
  apply in_flat_map. exists trace_item. split; assumption.
Qed.

(** One malformed trace record among the records of a search: the search
    raises nothing, hands exactly the converted traces of the other
    records, in order, to the client-side stage, and logs the drop. *)
Lemma trace_batch_isolation (env : Env) (query : TraceQuery.t)
    (before after : list Obj) (bad : Obj) (e : exn)
    (Hdata : api_trace_list env (search_traces_params env query) =
             Ok (Some (before ++ bad :: after)))
    (Hbad : outcome (convert_trace_body env bad None) = Raise e)
    (Hgood : Forall (fun item => exists trace,
                       outcome (convert_trace_body env item None) = Ok trace)
               (before ++ after)) :
  exists traces,
    Forall2 (fun item trace => outcome (convert_trace_body env item None) = Ok trace)
      (before ++ after) traces /\
    length traces = length (before ++ after) /\
    outcome (search_traces env query) = Ok (client_stage query traces) /\
    (client_filters_of (get_all_filters query) = [] ->
       outcome (search_traces env query) = Ok traces) /\
    In (Log L_ERROR "Error converting Langfuse trace to TraceData")
      (events (search_traces env query)).
Proof.
  exists (converted_traces env (before ++ after)).
  pose proof (converted_traces_good env _ Hgood) as Hall.
  assert (Hrun : outcome (search_traces env query) =
                 Ok (client_stage query (converted_traces env (before ++ after)))).
  { rewrite outcome_search_traces, Hdata. cbn [data_or_empty].
    rewrite !converted_traces_app.
    change (bad :: after) with ([bad] ++ after).
    rewrite converted_traces_app. unfold converted_traces at 2.
    cbn [flat_map]. rewrite converted_body, Hbad. reflexivity. }
  split; [exact Hall |].
  split; [symmetry; apply (Forall2_length Hall) |].
  split; [exact Hrun |].
  split.
  - intros Hnone. rewrite Hrun. unfold client_stage. rewrite Hnone. reflexivity.
  - apply (events_search_traces env query (Some (before ++ bad :: after)) _ bad Hdata).
    + cbn [data_or_empty]. apply in_or_app. right. left. reflexivity.
    + apply (convert_trace_logs_failure env bad None e Hbad).
Qed.

(** ** Filters the search leaves unenforced *)

Lemma client_filters_of_app (fs gs : list Filter) :
  client_filters_of (fs ++ gs) = client_filters_of fs ++ client_filters_of gs.
Proof. apply filter_app. Qed.

Lemma client_filters_of_supported (fs : list Filter) :
  Forall (fun f => op_in (operator f) get_supported_operators = true) fs ->
  client_filters_of fs = [].
Proof.
  induction 1 as [| f rest Hf _ IH]; [reflexivity |].
  unfold client_filters_of in *. cbn [filter]. rewrite Hf. exact IH.
Qed.

(** X1: explicit filters whose operator the backend declares as supported
    have no effect on a search: they set no query parameter and are not
    part of the client-side stage.  Against the same Langfuse, the search
    with such filters added returns or raises what the search without them
    does, after the same remote call; and it emits the same events after
    its opening debug record, the one that prints the query. *)
Lemma search_traces_ignores_supported_filters (env : Env) (query : TraceQuery.t)
    (extra : list Filter) :
  Forall (fun f => op_in (operator f) get_supported_operators = true) extra ->
  outcome (search_traces env (with_more_filters query extra)) =
    outcome (search_traces env query) /\
  calls (search_traces env (with_more_filters query extra)) =
    calls (search_traces env query) /\
  tl (events (search_traces env (with_more_filters query extra))) =
    tl (events (search_traces env query)).
Proof.
  intros Hextra.
  assert (Hparams : search_traces_params env (with_more_filters query extra) =
                    search_traces_params env query) by reflexivity.
  assert (Hclient : client_filters_of (get_all_filters (with_more_filters query extra)) =
                    client_filters_of (get_all_filters query)).
  { destruct query as [svc op start stop lim tags fs].
    unfold get_all_filters, with_more_filters. cbn [TraceQuery.service_name
      TraceQuery.operation_name TraceQuery.start_time TraceQuery.end_time
      TraceQuery.limit TraceQuery.tags TraceQuery.filters].
    rewrite app_assoc, client_filters_of_app.
    rewrite (client_filters_of_supported extra Hextra), app_nil_r.
    reflexivity. }
  unfold search_traces. rewrite Hparams, Hclient.
  split; [reflexivity | split; reflexivity].
Qed.

(** C1, at a query that asks for the traces of status ERROR through an
    explicit EQUALS filter, against a store that honours every parameter it
    is sent: the filter is among the composed filters, no query parameter
    carries it, the client-side stage holds no filter, and the search
    returns both stored traces, the first of which has status OK and does
    not match the filter. *)
Theorem C1_equals_filter_not_enforced :
  In status_is_error (get_all_filters errors_query) /\
  search_traces_params (langfuse_with [trace_checkout; trace_search] []) errors_query =
    [("from_timestamp", PTime t0); ("limit", PNum 20)] /\
  client_filters_of (get_all_filters errors_query) = [] /\
  exists returned,
    outcome (search_traces (langfuse_with [trace_checkout; trace_search] [])
               errors_query) = Ok returned /\
    map TraceData.trace_id returned = ["t-1"; "t-2"] /\
    map TraceData.status returned = [OK; ERROR] /\
    map (matches status_is_error) returned = [false; true].
Proof.
  split; [left; reflexivity |].
  split; [reflexivity |].
  split; [reflexivity |].
  eexists. split; [reflexivity |].
  repeat split.
Qed.

(** ** The spans of a converted trace *)

Lemma getattr_inv (o : Obj) (name : string) (v : pyval) :
  outcome (getattr o name) = Ok v -> dict_get o name = Some v.
Proof.
  unfold getattr. destruct (dict_get o name); simpl; congruence.
Qed.

Lemma getattr_Ok (o : Obj) (name : string) (v : pyval) :
  dict_get o name = Some v -> outcome (getattr o name) = Ok v.
Proof. unfold getattr. intros ->. reflexivity. Qed.

Lemma str_field_inv (name : string) (v : pyval) (s : string) :
  outcome (str_field name v) = Ok s -> v = PStr s.
Proof. destruct v; simpl; congruence. Qed.

Lemma opt_str_field_None (name : string) (o : option string) :
  outcome (opt_str_field name PNone) = Ok o -> o = None.
Proof. simpl. congruence. Qed.

(** Splits a successful sequence into its first step and the rest. *)
Ltac inv_bind H :=
  cbv zeta in H;
  match type of H with
  | outcome (bind _ _) = Ok _ =>
      let a := fresh "v" in
      let H1 := fresh "Hv" in
      apply bind_Ok_inv in H; destruct H as [a [H1 H]]
  end.

Ltac inv_fields :=
  repeat match goal with
         | H : outcome (getattr _ _) = Ok _ |- _ => apply getattr_inv in H
         | H : outcome (str_field _ _) = Ok _ |- _ => apply str_field_inv in H
         | H : outcome (opt_str_field _ PNone) = Ok _ |- _ =>
             apply opt_str_field_None in H
         end.

(** The span synthesized from trace metadata carries the trace's id as its
    trace id and as its span id, and has no parent. *)
Lemma create_span_ids (env : Env) (trace_item : Obj) (root : SpanData.t) :
  outcome (_create_span_from_trace_metadata env trace_item) = Ok root ->
  dict_get trace_item "id" = Some (PStr (SpanData.span_id root)) /\
  SpanData.trace_id root = SpanData.span_id root /\
  SpanData.parent_span_id root = None.
Proof.
  intros H. unfold _create_span_from_trace_metadata in H.
  repeat inv_bind H. unfold new_SpanData in H. repeat inv_bind H.
  cbn [outcome fst ret] in H. injection H as <-.
  inv_fields. subst. cbn [SpanData.span_id SpanData.trace_id SpanData.parent_span_id].
  repeat split; congruence.
Qed.

Lemma convert_trace_body_shape (env : Env) (trace_item : Obj)
    (observations : option (list Obj)) (trace : TraceData.t) :
  outcome (convert_trace_body env trace_item observations) = Ok trace ->
  outcome (collected_spans env trace_item observations) =
    Ok (TraceData.spans trace) /\
  dict_get trace_item "id" = Some (PStr (TraceData.trace_id trace)).
Proof.
  intros H. unfold convert_trace_body in H.
  repeat inv_bind H. unfold new_TraceData in H. repeat inv_bind H.
  cbn [outcome fst ret] in H. injection H as <-.
  inv_fields. subst. cbn [TraceData.spans TraceData.trace_id].
  split; assumption.
Qed.


(** ** Well-formed trace records convert *)

Lemma attr_ok_inv (o : Obj) (name : string) (test : pyval -> bool) :
  attr_ok o name test = true ->
  exists v, dict_get o name = Some v /\ test v = true.
Proof.
  unfold attr_ok. destruct (dict_get o name) as [v |]; [eauto | discriminate].
Qed.


Lemma for_each_ret {A S : Type} (g : S -> A -> S) (xs : list A) :
  forall acc,
    outcome (for_each xs (fun acc x => ret (g acc x)) acc) = Ok (fold_left g xs acc).
Proof.
  induction xs as [| x rest IH]; intros acc; cbn [for_each fold_left];
    [reflexivity |].
  rewrite outcome_bind. cbn [outcome fst ret]. apply IH.
Qed.















Lemma convert_trace_Some (env : Env) (trace_item : Obj)
    (observations : option (list Obj)) (trace : TraceData.t) :
  outcome (_convert_langfuse_trace_to_trace env trace_item observations) =
    Ok (Some trace) <->
  outcome (convert_trace_body env trace_item observations) = Ok trace.
Proof.
  rewrite convert_trace_total.
  destruct (outcome (convert_trace_body env trace_item observations));
    split; congruence.
Qed.



(** C3, at a record without [latency_ms].  The conversion reads the latency
    of such a record from [latency], in seconds, and with an observation
    that converts the record becomes a trace of 2000 ms.  With no
    observations the root span is synthesized, which reads [latency_ms]
    unguarded: the [AttributeError] is caught, an error is logged, the
    conversion returns [None], and a search that finds this record returns
    no trace for it. *)
Theorem C3_latency_only_record_is_dropped :
  well_formed_trace (("latency_ms", PNum 2000) :: trace_seconds) = true /\
  hasattr trace_seconds "latency_ms" = false /\
  outcome (trace_latency_ms trace_seconds) = Ok (PNum 2000) /\
  (exists trace,
     outcome (_convert_langfuse_trace_to_trace (langfuse_with [] [])
                trace_seconds (Some [obs_llm])) = Ok (Some trace) /\
     TraceData.duration_ms trace = 2000) /\
  outcome (_create_span_from_trace_metadata (langfuse_with [] []) trace_seconds) =
    Raise (AttributeError "latency_ms") /\
  _convert_langfuse_trace_to_trace (langfuse_with [] []) trace_seconds None =
    (Ok None, [Log L_ERROR "Error converting Langfuse trace to TraceData"]) /\
  stored_trace_list [trace_seconds] (search_traces_params (langfuse_with [] []) big_query) =
    Ok (Some [trace_seconds]) /\
  outcome (search_traces (langfuse_with [trace_seconds] []) big_query) = Ok [].
Proof.
  split; [reflexivity |].
  split; [reflexivity |].
  split; [reflexivity |].
  split; [eexists; split; reflexivity |].
  split; [reflexivity |].
  split; [reflexivity |].
  split; reflexivity.
Qed.

(** ** Fetching one trace *)

(** The outcome of [get_trace]: the failure of the first fetch that fails,
    else whatever the conversion helper returns. *)
Lemma outcome_get_trace (env : Env) (trace_id : string) :
  outcome (get_trace env trace_id) =
  match api_trace_get env trace_id with
  | Raise e => Raise e
  | Ok trace_item =>
      match api_observations_get_many env trace_id with
      | Raise e => Raise e
      | Ok data =>
          outcome (_convert_langfuse_trace_to_trace env trace_item
                     (Some (data_or_empty data)))
      end
  end.
Proof.
  unfold get_trace. rewrite outcome_bind. cbn [outcome fst log].
  rewrite outcome_try_except, outcome_bind. unfold remote at 1. cbn [outcome fst].
  destruct (api_trace_get env trace_id) as [trace_item | e]; [| reflexivity].
  rewrite outcome_bind. unfold remote at 1. cbn [outcome fst].
  destruct (api_observations_get_many env trace_id) as [data | e]; [| reflexivity].
  cbv zeta. rewrite convert_trace_total.
  destruct (outcome (convert_trace_body env trace_item (Some (data_or_empty data))));
    reflexivity.
Qed.

(** C4 does not hold as stated: a fetch that the SDK fails with its own
    error, here for an unavailable server, makes [get_trace] raise that very
    error, which is neither a [NotFoundError] nor a [BackendError]. *)
Lemma C4_get_trace_counterexample :
  outcome (get_trace langfuse_down "t-1") =
    Raise (ApiError 503 "Service Unavailable") /\
  allowed_get_trace_outcome (outcome (get_trace langfuse_down "t-1")) = false.
Proof. split; reflexivity. Qed.

(** C4, amended: [get_trace] logs the SDK's own exception and passes it on
    unchanged.  It raises what the trace fetch raised, after the debug
    record, the one remote call and the error record; else what the
    observations fetch raised, after the debug record, the two remote calls
    and the error record; it raises nothing of its own, and whenever it
    raises, the error record is the last thing it emitted; and when both
    fetches succeed and the record converts, it returns the converted
    trace. *)
Theorem C4_get_trace_passes_sdk_errors_on (env : Env) (trace_id : string) :
  (forall e, api_trace_get env trace_id = Raise e ->
     outcome (get_trace env trace_id) = Raise e /\
     events (get_trace env trace_id) =
       [Log L_DEBUG "Fetching trace"; Call (TraceGet trace_id);
        Log L_ERROR "Error fetching trace"]) /\
  (forall trace_item e,
     api_trace_get env trace_id = Ok trace_item ->
     api_observations_get_many env trace_id = Raise e ->
     outcome (get_trace env trace_id) = Raise e /\
     events (get_trace env trace_id) =
       [Log L_DEBUG "Fetching trace"; Call (TraceGet trace_id);
        Call (ObservationsGetMany trace_id);
        Log L_ERROR "Error fetching trace"]) /\
  (forall e, outcome (get_trace env trace_id) = Raise e ->
     (api_trace_get env trace_id = Raise e \/
      api_observations_get_many env trace_id = Raise e) /\
     exists earlier,
       events (get_trace env trace_id) =
         earlier ++ [Log L_ERROR "Error fetching trace"]) /\
  (forall trace_item data trace,
     api_trace_get env trace_id = Ok trace_item ->
     api_observations_get_many env trace_id = Ok data ->
     outcome (convert_trace_body env trace_item (Some (data_or_empty data))) =
       Ok trace ->
     outcome (get_trace env trace_id) = Ok (Some trace)).
Proof.
  split; [| split; [| split]].
  - intros e H. unfold get_trace. rewrite H. split; reflexivity.
  - intros trace_item e Ht Ho. unfold get_trace. rewrite Ht.
    unfold remote at 1. cbn [bind try_except log outcome events fst snd app].
    rewrite Ho. split; reflexivity.
  - intros e. rewrite outcome_get_trace.
    destruct (api_trace_get env trace_id) as [trace_item | e1] eqn:Ht.
    + destruct (api_observations_get_many env trace_id) as [data | e2] eqn:Ho.
      * rewrite convert_trace_total.
        destruct (outcome (convert_trace_body env trace_item _)); discriminate.
      * intros H. injection H as ->. split; [right; reflexivity |].
        exists [Log L_DEBUG "Fetching trace"; Call (TraceGet trace_id);
                Call (ObservationsGetMany trace_id)].
        unfold get_trace. rewrite Ht.
        unfold remote at 1. cbn [bind try_except log outcome events fst snd app].
        rewrite Ho. reflexivity.
    + intros H. injection H as ->. split; [left; reflexivity |].
      exists [Log L_DEBUG "Fetching trace"; Call (TraceGet trace_id)].
      unfold get_trace. rewrite Ht. reflexivity.
  - intros trace_item data trace Ht Ho H.
    rewrite outcome_get_trace, Ht, Ho. apply convert_trace_Some. exact H.
Qed.

(** A failed fetch and a successful one. *)
Lemma C4_get_trace_witness :
  outcome (get_trace langfuse_down "t-1") =
    Raise (ApiError 503 "Service Unavailable") /\
  exists trace,
    outcome (get_trace (langfuse_with [trace_checkout] [obs_llm; obs_malformed])
               "t-1") = Ok (Some trace) /\
    TraceData.trace_id trace = "t-1".
Proof.
  split.
  - exact (proj1 (proj1 (C4_get_trace_passes_sdk_errors_on langfuse_down "t-1")
                    (ApiError 503 "Service Unavailable") eq_refl)).
  - eexists. split.
    + exact (proj2 (proj2 (proj2
               (C4_get_trace_passes_sdk_errors_on
                  (langfuse_with [trace_checkout] [obs_llm; obs_malformed]) "t-1")))
               trace_checkout (Some [obs_llm; obs_malformed]) _
               eq_refl eq_refl eq_refl).
    + reflexivity.
Defined.

(** C10: when the conversion of the fetched record raises, the conversion
    helper catches the exception, logs it and returns [None], and
    [get_trace] returns that [None]: it neither raises nor returns a
    trace. *)
Theorem C10_get_trace_returns_None_when_conversion_fails (env : Env)
    (trace_id : string) (trace_item : Obj) (data : option (list Obj)) (e : exn)
    (Htrace : api_trace_get env trace_id = Ok trace_item)
    (Hobs : api_observations_get_many env trace_id = Ok data)
    (Hfail : outcome (convert_trace_body env trace_item
                        (Some (data_or_empty data))) = Raise e) :
  outcome (_convert_langfuse_trace_to_trace env trace_item
             (Some (data_or_empty data))) = Ok None /\
  In (Log L_ERROR "Error converting Langfuse trace to TraceData")
    (events (_convert_langfuse_trace_to_trace env trace_item
               (Some (data_or_empty data)))) /\
  outcome (get_trace env trace_id) = Ok None.
Proof.
  assert (Hnone : outcome (_convert_langfuse_trace_to_trace env trace_item
                             (Some (data_or_empty data))) = Ok None).
  { rewrite convert_trace_total, Hfail. reflexivity. }
  split; [exact Hnone |].
  split; [exact (convert_trace_logs_failure env trace_item _ e Hfail) |].
  rewrite outcome_get_trace, Htrace, Hobs. exact Hnone.
Qed.

(** The fetch of a stored record that has no name. *)
Lemma C10_get_trace_None_witness :
  outcome (get_trace (langfuse_with [trace_malformed] [obs_llm]) "t-bad") = Ok None.
Proof.
  exact (proj2 (proj2
    (C10_get_trace_returns_None_when_conversion_fails
       (langfuse_with [trace_malformed] [obs_llm]) "t-bad" trace_malformed
       (Some [obs_llm]) (AttributeError "level") eq_refl eq_refl eq_refl))).
Defined.

(** ** Failure isolation among the observations of a trace *)

Lemma convert_observation_outcome (env : Env) (trace_id : pyval) (obs : Obj) :
  outcome (_convert_langfuse_observation_to_span env trace_id obs) =
  Ok (converted_span env trace_id obs).
Proof.
  unfold converted_span, _convert_langfuse_observation_to_span.
  rewrite outcome_try_except.
  match goal with
  | |- context [match outcome ?body with _ => _ end] =>
      destruct (outcome body) as [[span |] | e] eqn:Hbody
  end; try reflexivity.
Qed.

(** A failed observation conversion leaves its error record in the log. *)
Lemma convert_observation_logs_failure (env : Env) (trace_id : pyval) (obs : Obj) :
  converted_span env trace_id obs = None ->
  In (Log L_ERROR "Error converting Langfuse observation to SpanData")
    (events (_convert_langfuse_observation_to_span env trace_id obs)).
Proof.
  unfold converted_span, _convert_langfuse_observation_to_span.
  rewrite outcome_try_except, events_try_except.
  match goal with
  | |- context [match outcome ?body with _ => _ end] =>
      destruct (outcome body) as [[span |] | e] eqn:Hbody
  end.
  - discriminate.
  - exfalso. repeat inv_bind Hbody. discriminate Hbody.
  - intros _. apply in_or_app. right. left. reflexivity.
Qed.

Lemma outcome_observation_loop (env : Env) (trace_item : Obj) (id : pyval)
    (observations : list Obj) :
  dict_get trace_item "id" = Some id ->
  forall acc,
    outcome
      (for_each observations
         (fun spans obs =>
            id <- getattr trace_item "id" ;;
            span <- _convert_langfuse_observation_to_span env id obs ;;
            ret (match span with
                 | Some s => spans ++ [s]
                 | None => spans
                 end))
         acc) = Ok (acc ++ converted_spans env id observations).
Proof.
  intros Hid.
  induction observations as [| obs rest IH]; intros acc;
    cbn [for_each converted_spans flat_map].
  - rewrite app_nil_r. reflexivity.
  - rewrite outcome_bind, (bind_Ok _ _ _ (getattr_Ok _ _ _ Hid)).
    rewrite outcome_bind, convert_observation_outcome.
    destruct (converted_span env id obs) as [s |]; cbn [outcome fst ret].
    + rewrite IH, <- app_assoc. reflexivity.
    + apply IH.
Qed.

Lemma events_observation_loop (env : Env) (trace_item : Obj) (id : pyval)
    (observations : list Obj) :
  dict_get trace_item "id" = Some id ->
  forall acc,
    events
      (for_each observations
         (fun spans obs =>
            id <- getattr trace_item "id" ;;
            span <- _convert_langfuse_observation_to_span env id obs ;;
            ret (match span with
                 | Some s => spans ++ [s]
                 | None => spans
                 end))
         acc) =
    flat_map (fun obs => events (_convert_langfuse_observation_to_span env id obs))
      observations.
Proof.
  intros Hid.
  induction observations as [| obs rest IH]; intros acc;
    cbn [for_each flat_map]; [reflexivity |].
  rewrite events_bind, (bind_Ok _ _ _ (getattr_Ok _ _ _ Hid)).
  rewrite outcome_bind, convert_observation_outcome. cbn [outcome fst ret].
  rewrite events_bind, (getattr_Ok _ _ _ Hid).
  unfold getattr at 1. rewrite Hid. cbn [events snd ret app].
  rewrite events_bind, convert_observation_outcome.
  cbn [events snd ret]. rewrite app_nil_r, IH. reflexivity.
Qed.

Lemma converted_spans_app (env : Env) (id : pyval) (xs ys : list Obj) :
  converted_spans env id (xs ++ ys) =
  converted_spans env id xs ++ converted_spans env id ys.
Proof. apply flat_map_app. Qed.

Lemma converted_spans_good (env : Env) (id : pyval) (observations : list Obj) :
  Forall (fun obs => converted_span env id obs <> None) observations ->
  Forall2 (fun obs span => converted_span env id obs = Some span)
    observations (converted_spans env id observations).
Proof.
  induction 1 as [| obs rest Hobs _ IH]; cbn [converted_spans flat_map];
    [constructor |].
  destruct (converted_span env id obs) as [span |] eqn:Hspan; [| congruence].
  constructor; [exact Hspan | exact IH].
Qed.

(** One malformed observation among the observations of a trace, of which
    at least one converts: the spans collected for the trace are exactly
    the converted spans of the other observations, in order, and the drop
    is logged. *)
Lemma observation_batch_isolation (env : Env) (trace_item : Obj) (id : pyval)
    (before after : list Obj) (bad : Obj) :
  dict_get trace_item "id" = Some id ->
  converted_span env id bad = None ->
  Forall (fun obs => converted_span env id obs <> None) (before ++ after) ->
  before ++ after <> [] ->
  exists spans,
    Forall2 (fun obs span => converted_span env id obs = Some span)
      (before ++ after) spans /\
    length spans = length (before ++ after) /\
    outcome (collected_spans env trace_item (Some (before ++ bad :: after))) =
      Ok spans /\
    (forall trace,
       outcome (_convert_langfuse_trace_to_trace env trace_item
                  (Some (before ++ bad :: after))) = Ok (Some trace) ->
       TraceData.spans trace = spans) /\
    In (Log L_ERROR "Error converting Langfuse observation to SpanData")
      (events (collected_spans env trace_item (Some (before ++ bad :: after)))).
Proof.
  intros Hid Hbad Hgood Hsome.
  exists (converted_spans env id (before ++ after)).
  pose proof (converted_spans_good env id _ Hgood) as Hall.
  assert (Hlen : length (converted_spans env id (before ++ after)) =
                 length (before ++ after))
    by (symmetry; apply (Forall2_length Hall)).
  assert (Hdrop : converted_spans env id (before ++ bad :: after) =
                  converted_spans env id (before ++ after)).
  { change (bad :: after) with ([bad] ++ after).
    rewrite !converted_spans_app. unfold converted_spans at 2.
    cbn [flat_map]. rewrite Hbad. reflexivity. }
  assert (Hpresent : no_observations (Some (before ++ bad :: after)) = false)
    by (destruct before; reflexivity).
  assert (Hrun : outcome (collected_spans env trace_item
                            (Some (before ++ bad :: after))) =
                 Ok (converted_spans env id (before ++ after))).
  { unfold collected_spans. rewrite Hpresent, outcome_bind.
    rewrite (outcome_observation_loop env trace_item id _ Hid), Hdrop.
    cbn [app].
    destruct (converted_spans env id (before ++ after)) as [| s rest];
      [| reflexivity].
    destruct (before ++ after); [congruence | discriminate Hlen]. }
  split; [exact Hall |].
  split; [exact Hlen |].
  split; [exact Hrun |].
  split.
  - intros trace H. apply convert_trace_Some in H.
    apply convert_trace_body_shape in H. destruct H as [Hspans _].
    congruence.
  - unfold collected_spans. rewrite Hpresent, events_bind.
    rewrite (outcome_observation_loop env trace_item id _ Hid).
    apply in_or_app. left.
    rewrite (events_observation_loop env trace_item id _ Hid).
    apply in_flat_map. exists bad. split.
    + apply in_or_app. right. left. reflexivity.
    + apply convert_observation_logs_failure. exact Hbad.
Qed.

(** C6: one malformed record does not abort a batch.  When the backend
    answers a search with N trace records that convert and one that does
    not, the search raises nothing: it hands exactly the N converted
    traces, in order, to the client-side stage (and returns exactly those N
    when no filter is left for that stage), and the log holds the error
    record of the dropped one.  Likewise, among the observations of a
    trace, one that does not convert is logged and left out, and the trace
    carries exactly the N >= 1 spans of those that convert. *)
Theorem C6_malformed_record_is_dropped (env : Env) :
  (forall (query : TraceQuery.t) (before after : list Obj) (bad : Obj) (e : exn),
     api_trace_list env (search_traces_params env query) =
       Ok (Some (before ++ bad :: after)) ->
     outcome (convert_trace_body env bad None) = Raise e ->
     Forall (fun item => exists trace,
               outcome (convert_trace_body env item None) = Ok trace)
       (before ++ after) ->
     exists traces,
       Forall2 (fun item trace =>
                  outcome (convert_trace_body env item None) = Ok trace)
         (before ++ after) traces /\
       length traces = length (before ++ after) /\
       outcome (search_traces env query) = Ok (client_stage query traces) /\
       (client_filters_of (get_all_filters query) = [] ->
          outcome (search_traces env query) = Ok traces) /\
       In (Log L_ERROR "Error converting Langfuse trace to TraceData")
         (events (search_traces env query))) /\
  (forall (trace_item : Obj) (id : pyval) (before after : list Obj) (bad : Obj),
     dict_get trace_item "id" = Some id ->
     converted_span env id bad = None ->
     Forall (fun obs => converted_span env id obs <> None) (before ++ after) ->
     before ++ after <> [] ->
     exists spans,
       Forall2 (fun obs span => converted_span env id obs = Some span)
         (before ++ after) spans /\
       length spans = length (before ++ after) /\
       outcome (collected_spans env trace_item (Some (before ++ bad :: after))) =
         Ok spans /\
       (forall trace,
          outcome (_convert_langfuse_trace_to_trace env trace_item
                     (Some (before ++ bad :: after))) = Ok (Some trace) ->
          TraceData.spans trace = spans) /\
       In (Log L_ERROR "Error converting Langfuse observation to SpanData")
         (events (collected_spans env trace_item
                    (Some (before ++ bad :: after))))).
Proof.
  split.
  - intros query before after bad e. apply trace_batch_isolation.
  - intros trace_item id before after bad. apply observation_batch_isolation.
Qed.

(** A search over three records, the middle one malformed, and a trace
    with two observations, the second one malformed. *)
Lemma C6_malformed_record_witness :
  (exists traces,
     length traces = 2%nat /\
     outcome
       (search_traces
          (langfuse_with [trace_checkout; trace_malformed; trace_search] [])
          big_query) = Ok traces) /\
  (exists spans,
     length spans = 1%nat /\
     outcome
       (collected_spans (langfuse_with [trace_checkout] [])
          trace_checkout (Some [obs_llm; obs_malformed])) = Ok spans).
Proof.
  split.
  - destruct (proj1 (C6_malformed_record_is_dropped
                (langfuse_with [trace_checkout; trace_malformed; trace_search] []))
              big_query [trace_checkout] [trace_search] trace_malformed
              (AttributeError "name") eq_refl eq_refl)
      as [traces [_ [Hlen [_ [Hrun _]]]]].
    + repeat constructor; eexists; reflexivity.
    + exists traces. split; [exact Hlen | exact (Hrun eq_refl)].
  - destruct (proj2 (C6_malformed_record_is_dropped
                (langfuse_with [trace_checkout] []))
              trace_checkout (PStr "t-1") [obs_llm] [] obs_malformed
              eq_refl eq_refl)
      as [spans [_ [Hlen [Hrun _]]]].
    + repeat constructor; discriminate.
    + discriminate.
    + exists spans. split; [exact Hlen | exact Hrun].
Defined.

(** ** Further properties of the search *)

(** X2: every filter whose operator the backend does not declare as
    supported is enforced on the result of a search: each returned trace matches
    it. *)
Theorem unsupported_filters_are_enforced (env : Env) (query : TraceQuery.t)
    (traces : list TraceData.t) (f : Filter) (trace : TraceData.t) :
  outcome (search_traces env query) = Ok traces ->
  In f (get_all_filters query) ->
  op_in (operator f) get_supported_operators = false ->
  In trace traces ->
  matches f trace = true.
Proof.
  rewrite outcome_search_traces.
  destruct (api_trace_list env (search_traces_params env query)) as [data | e];
    [| discriminate].
  intros Hrun Hf Hop Htrace. injection Hrun as <-.
  assert (Hclient : In f (client_filters_of (get_all_filters query))).
  { apply filter_In. split; [exact Hf | rewrite Hop; reflexivity]. }
  unfold client_stage in Htrace.
  destruct (client_filters_of (get_all_filters query)) as [| g gs] eqn:Hfs;
    [contradiction |].
  apply filter_In in Htrace. destruct Htrace as [_ Hall].
  rewrite forallb_forall in Hall. apply Hall. exact Hclient.
Qed.

(** A search for the traces that took more than 100 ms. *)
Lemma unsupported_filters_witness :
  exists traces,
    outcome
      (search_traces (langfuse_with [trace_checkout; trace_search] [])
         (TraceQuery.mk None None (Some t0) None 20 None
            [mkFilter "duration_ms" GT (PNum 100) NUMBER])) = Ok traces /\
    map TraceData.trace_id traces = ["t-1"] /\
    forall trace, In trace traces ->
      matches (mkFilter "duration_ms" GT (PNum 100) NUMBER) trace = true.
Proof.
  eexists. split; [reflexivity |]. split; [reflexivity |].
  intros trace Hin.
  refine (unsupported_filters_are_enforced
            (langfuse_with [trace_checkout; trace_search] [])
            (TraceQuery.mk None None (Some t0) None 20 None
               [mkFilter "duration_ms" GT (PNum 100) NUMBER])
            _ (mkFilter "duration_ms" GT (PNum 100) NUMBER) trace
            eq_refl _ eq_refl Hin).
  left. reflexivity.
Defined.

(** The query of [errors_query] with and without its explicit filter. *)
Lemma ignored_filters_witness :
  outcome (search_traces (langfuse_with [trace_checkout; trace_search] [])
             errors_query) =
  outcome (search_traces (langfuse_with [trace_checkout; trace_search] [])
             (TraceQuery.mk None None (Some t0) None 20 None [])).
Proof.
  refine (proj1 (search_traces_ignores_supported_filters
                   (langfuse_with [trace_checkout; trace_search] [])
                   (TraceQuery.mk None None (Some t0) None 20 None [])
                   [status_is_error] _)).
  repeat constructor.
Defined.

(** X3: timestamps fail soft.  [_parse_timestamp] never raises; a missing
    timestamp reads as the current time and a [datetime] as itself. *)
Theorem parse_timestamp_fails_soft (env : Env) (timestamp : pyval) :
  exists t,
    outcome (_parse_timestamp env timestamp) = Ok t /\
    (truthy timestamp = false -> t = now env) /\
    (forall t', timestamp = PTime t' -> t = t').
Proof.
  unfold _parse_timestamp.
  destruct (truthy timestamp) eqn:Htruthy; cbn [negb].
  - assert (Hsoft : forall m : M Z,
               exists t, outcome (try_except m
                           (fun _ => log L_WARNING "Error parsing timestamp" ;;;
                                     ret (now env))) = Ok t).
    { intros m. rewrite outcome_try_except.
      destruct (outcome m); eexists; reflexivity. }
    destruct timestamp;
      try (match goal with
           | |- context [try_except ?m _] => destruct (Hsoft m) as [t Ht]
           end;
           exists t; split; [exact Ht |];
           split; [intros H; congruence | intros t' H; discriminate H]).
    exists t. split; [reflexivity |].
    split; [intros H; congruence | intros t' H; injection H as ->; reflexivity].
  - eexists. split; [reflexivity |]. split; [reflexivity |].
    intros t' ->. discriminate Htruthy.
Qed.

(** ** Span search, in full *)

Lemma delegated_query_has_no_client_filter (query : SpanQuery.t) :
  client_filters_of (get_all_filters (trace_query_of query)) = [].
Proof.
  destruct query as [svc op start stop lim tags fs].
  destruct svc, op; reflexivity.
Qed.

(** The result of a span search: the backend's failure as it is, or the
    spans of the converted traces after the filter engine. *)
Lemma outcome_search_spans (env : Env) (query : SpanQuery.t) :
  outcome (search_spans env query) =
  match api_trace_list env (search_traces_params env (trace_query_of query)) with
  | Ok data =>
      Ok (apply_filters
            (flat_map TraceData.spans (converted_traces env (data_or_empty data)))
            (span_get_all_filters query))
  | Raise e => Raise e
  end.
Proof.
  unfold search_spans. fold (trace_query_of query). cbv zeta.
  rewrite outcome_bind. cbn [outcome fst log].
  rewrite outcome_bind, outcome_search_traces.
  destruct (api_trace_list env _) as [data | e]; [| reflexivity].
  unfold client_stage. rewrite delegated_query_has_no_client_filter.
  rewrite fold_left_spans. cbn [app].
  destruct (span_get_all_filters query) as [| f fs]; cbn [outcome fst ret].
  - rewrite apply_filters_nil. reflexivity.
  - reflexivity.
Qed.

(** A trace converted without observations consists of its synthesized
    root span. *)
Lemma converted_root (env : Env) (trace_item : Obj) (trace : TraceData.t) :
  converted env trace_item = Some trace ->
  exists root,
    outcome (_create_span_from_trace_metadata env trace_item) = Ok root /\
    TraceData.spans trace = [root] /\
    SpanData.span_id root = TraceData.trace_id trace /\
    SpanData.trace_id root = TraceData.trace_id trace /\
    SpanData.parent_span_id root = None.
Proof.
  rewrite converted_body.
  destruct (outcome (convert_trace_body env trace_item None)) as [t |] eqn:Hbody;
    [| discriminate].
  intros H. injection H as ->.
  apply convert_trace_body_shape in Hbody. destruct Hbody as [Hspans Hid].
  unfold collected_spans in Hspans. cbn [no_observations] in Hspans.
  inv_bind Hspans. cbn [outcome fst ret] in Hspans. injection Hspans as Hspans.
  destruct (create_span_ids _ _ _ Hv) as [Hroot [Htid Hparent]].
  exists v. repeat split; try congruence.
Qed.

Lemma In_converted_traces (env : Env) (traces_data : list Obj) (trace : TraceData.t) :
  In trace (converted_traces env traces_data) <->
  exists trace_item, In trace_item traces_data /\ converted env trace_item = Some trace.
Proof.
  unfold converted_traces. rewrite in_flat_map. split.
  - intros [item [Hin Ht]]. exists item. split; [exact Hin |].
    destruct (converted env item) as [t |]; [| contradiction].
    destruct Ht as [-> | []]. reflexivity.
  - intros [item [Hin Ht]]. exists item. split; [exact Hin |].
    rewrite Ht. left. reflexivity.
Qed.

(** X4: a span search enforces every composed filter.  Each span it
    returns matches each filter of [get_all_filters()], whatever the
    filter's operator. *)
Theorem search_spans_enforces_every_filter (env : Env) (query : SpanQuery.t)
    (spans : list SpanData.t) (f : Filter) (span : SpanData.t) :
  outcome (search_spans env query) = Ok spans ->
  In f (span_get_all_filters query) ->
  In span spans ->
  matches f span = true.
Proof.
  rewrite outcome_search_spans.
  destruct (api_trace_list env _) as [data | e]; [| discriminate].
  intros H Hf Hspan. injection H as <-.
  apply filter_In in Hspan. destruct Hspan as [_ Hall].
  rewrite forallb_forall in Hall. apply Hall. exact Hf.
Qed.

(** X5: a span search returns synthesized root spans only.  No
    observation is fetched for it, so each span it returns has no parent
    and carries its trace's id as span id. *)
Theorem search_spans_returns_root_spans (env : Env) (query : SpanQuery.t)
    (spans : list SpanData.t) (span : SpanData.t) :
  outcome (search_spans env query) = Ok spans ->
  In span spans ->
  SpanData.parent_span_id span = None /\
  SpanData.span_id span = SpanData.trace_id span.
Proof.
  rewrite outcome_search_spans.
  destruct (api_trace_list env _) as [data | e]; [| discriminate].
  intros H Hspan. injection H as <-.
  apply filter_In in Hspan. destruct Hspan as [Hspan _].
  apply in_flat_map in Hspan. destruct Hspan as [trace [Htrace Hspan]].
  apply In_converted_traces in Htrace. destruct Htrace as [item [_ Hitem]].
  destruct (converted_root _ _ _ Hitem) as [root [_ [Hspans [Hsid [Htid Hpar]]]]].
  rewrite Hspans in Hspan. destruct Hspan as [<- | []].
  split; [exact Hpar | congruence].
Qed.

Lemma params_tag_of_untagged (env : Env) (query : TraceQuery.t) :
  TraceQuery.tags query = None ->
  dict_get (search_traces_params env query) "tag" = None.
Proof.
  destruct query as [svc op start stop lim tags fs]. cbn [TraceQuery.tags].
  intros ->. unfold search_traces_params.
  destruct svc as [svc |], op as [op |], start, stop; simpl;
    repeat match goal with
           | |- context [(?s =? "")%string] => destruct (s =? "")%string; simpl
           end;
    reflexivity.
Qed.

(** X6: a span search talks to the backend once.  Its only remote call is
    the [trace.list] of the delegated trace query, with the limit clamped
    to 100 and without a [tag] parameter, whatever tags the span query
    has; and it raises exactly when that call does. *)
Theorem search_spans_remote_call (env : Env) (query : SpanQuery.t) :
  calls (search_spans env query) =
    [Call (TraceList (search_traces_params env (trace_query_of query)))] /\
  dict_get (search_traces_params env (trace_query_of query)) "tag" = None /\
  dict_get (search_traces_params env (trace_query_of query)) "limit" =
    Some (PNum (Z.min (SpanQuery.limit query) 100)) /\
  (forall e,
     outcome (search_spans env query) = Raise e <->
     api_trace_list env (search_traces_params env (trace_query_of query)) = Raise e).
Proof.
  split.
  - unfold search_spans. fold (trace_query_of query). cbv zeta.
    rewrite calls_bind. cbn [outcome fst log].
    change (calls (log L_DEBUG "Searching spans with query")) with (@nil event).
    cbn [app]. rewrite calls_bind, calls_search_traces.
    destruct (outcome (search_traces env (trace_query_of query))); [| reflexivity].
    cbn [app]. f_equal.
    destruct (span_get_all_filters query); reflexivity.
  - split; [apply params_tag_of_untagged; reflexivity |].
    split; [apply (params_limit env (trace_query_of query)) |].
    intros e. rewrite outcome_search_spans.
    destruct (api_trace_list env _) as [data | e']; split; intros H;
      try discriminate; injection H as ->; reflexivity.
Qed.

(** A span search for the failed spans of the last minutes. *)
Lemma search_spans_filter_witness :
  exists spans,
    outcome
      (search_spans (langfuse_with [trace_checkout; trace_search] [])
         (SpanQuery.mk None None (Some t0) None 20 None [status_is_error])) =
      Ok spans /\
    map SpanData.span_id spans = ["t-2"] /\
    forall span, In span spans -> matches status_is_error span = true.
Proof.
  eexists. split; [reflexivity |]. split; [reflexivity |].
  intros span Hin.
  refine (search_spans_enforces_every_filter
            (langfuse_with [trace_checkout; trace_search] [])
            (SpanQuery.mk None None (Some t0) None 20 None [status_is_error])
            _ status_is_error span eq_refl _ Hin).
  left. reflexivity.
Defined.

(** A span search without filters over two stored traces. *)
Lemma search_spans_roots_witness :
  exists spans,
    outcome
      (search_spans (langfuse_with [trace_checkout; trace_search] [])
         (SpanQuery.mk None None (Some t0) None 20 None [])) = Ok spans /\
    map SpanData.span_id spans = ["t-1"; "t-2"] /\
    forall span, In span spans ->
      SpanData.parent_span_id span = None /\
      SpanData.span_id span = SpanData.trace_id span.
Proof.
  eexists. split; [reflexivity |]. split; [reflexivity |].
  intros span Hin.
  exact (search_spans_returns_root_spans
           (langfuse_with [trace_checkout; trace_search] [])
           (SpanQuery.mk None None (Some t0) None 20 None [])
           _ span eq_refl Hin).
Defined.

(** ** Spans and their trace *)

Lemma opt_str_field_inv (name : string) (v : pyval) (o : option string) :
  outcome (opt_str_field name v) = Ok o -> v = of_opt_str o.
Proof. destruct v; simpl; try discriminate; intros H; injection H as <-; reflexivity. Qed.

(** What a converted observation says of its span. *)
Lemma observation_span_shape (env : Env) (trace_id : pyval) (obs : Obj)
    (span : SpanData.t) :
  converted_span env trace_id obs = Some span ->
  trace_id = PStr (SpanData.trace_id span) /\
  dict_get obs "id" = Some (PStr (SpanData.span_id span)) /\
  dict_get obs "parent_observation_id" =
    Some (of_opt_str (SpanData.parent_span_id span)) /\
  dict_get obs "name" = Some (PStr (SpanData.operation_name span)) /\
  (exists level, dict_get obs "level" = Some level /\
                 SpanData.status span = _langfuse_level_to_status level).
Proof.
  unfold converted_span, _convert_langfuse_observation_to_span.
  rewrite outcome_try_except.
  match goal with
  | |- context [match outcome ?body with _ => _ end] =>
      destruct (outcome body) as [[s |] | e] eqn:Hbody
  end; try discriminate.
  intros H. injection H as ->.
  repeat inv_bind Hbody. cbn [outcome fst ret] in Hbody. injection Hbody as <-.
  match goal with
  | H : outcome (new_SpanData _ _ _ _ _ _ _ _ _) = Ok _ |- _ =>
      unfold new_SpanData in H; repeat inv_bind H;
      cbn [outcome fst ret] in H; injection H as <-
  end.
  repeat match goal with
         | H : outcome (opt_str_field _ _) = Ok _ |- _ => apply opt_str_field_inv in H
         end.
  inv_fields. subst.
  cbn [SpanData.trace_id SpanData.span_id SpanData.parent_span_id
       SpanData.operation_name SpanData.status].
  repeat split; try congruence.
  eexists. split; [eassumption | reflexivity].
Qed.

Lemma In_converted_spans (env : Env) (id : pyval) (observations : list Obj)
    (span : SpanData.t) :
  In span (converted_spans env id observations) <->
  exists obs, In obs observations /\ converted_span env id obs = Some span.
Proof.
  unfold converted_spans. rewrite in_flat_map. split.
  - intros [obs [Hin Hs]]. exists obs. split; [exact Hin |].
    destruct (converted_span env id obs) as [s |]; [| contradiction].
    destruct Hs as [-> | []]. reflexivity.
  - intros [obs [Hin Hs]]. exists obs. split; [exact Hin |].
    rewrite Hs. left. reflexivity.
Qed.

(** The spans a trace conversion collects, by the observations that
    convert. *)
Lemma outcome_collected_spans (env : Env) (trace_item : Obj) (id : pyval)
    (observations : option (list Obj)) :
  dict_get trace_item "id" = Some id ->
  outcome (collected_spans env trace_item observations) =
  match converted_spans env id (data_or_empty observations) with
  | [] =>
      match outcome (_create_span_from_trace_metadata env trace_item) with
      | Ok root => Ok [root]
      | Raise e => Raise e
      end
  | span :: spans => Ok (span :: spans)
  end.
Proof.
  intros Hid. unfold collected_spans.
  destruct observations as [[| obs rest] |]; cbn [no_observations data_or_empty].
  - cbn [converted_spans flat_map]. rewrite outcome_bind.
    destruct (outcome (_create_span_from_trace_metadata env trace_item)); reflexivity.
  - rewrite outcome_bind, (outcome_observation_loop env trace_item id _ Hid).
    cbn [app].
    destruct (converted_spans env id (obs :: rest)); [| reflexivity].
    rewrite outcome_bind.
    destruct (outcome (_create_span_from_trace_metadata env trace_item)); reflexivity.
  - cbn [converted_spans flat_map]. rewrite outcome_bind.
    destruct (outcome (_create_span_from_trace_metadata env trace_item)); reflexivity.
Qed.

(** X7: the spans of a fetched trace.  A converted trace holds the spans
    of the observations that convert, in the order given, and no span of
    its own; only when no observation converts (none given, or none
    convertible) does it hold the one root span synthesized from the trace
    metadata. *)
Theorem converted_trace_spans (env : Env) (trace_item : Obj)
    (observations : option (list Obj)) (trace : TraceData.t) :
  outcome (_convert_langfuse_trace_to_trace env trace_item observations) =
    Ok (Some trace) ->
  (converted_spans env (PStr (TraceData.trace_id trace))
     (data_or_empty observations) <> [] ->
   TraceData.spans trace =
     converted_spans env (PStr (TraceData.trace_id trace))
       (data_or_empty observations)) /\
  (converted_spans env (PStr (TraceData.trace_id trace))
     (data_or_empty observations) = [] ->
   exists root,
     outcome (_create_span_from_trace_metadata env trace_item) = Ok root /\
     TraceData.spans trace = [root]).
Proof.
  intros H. apply convert_trace_Some in H.
  apply convert_trace_body_shape in H. destruct H as [Hspans Hid].
  rewrite (outcome_collected_spans env trace_item _ observations Hid) in Hspans.
  destruct (converted_spans env (PStr (TraceData.trace_id trace))
              (data_or_empty observations)) as [| s rest].
  - split; [intros Hne; contradiction Hne; reflexivity |].
    intros _.
    destruct (outcome (_create_span_from_trace_metadata env trace_item))
      as [root |]; [| discriminate].
    exists root. split; [reflexivity | congruence].
  - split; [intros _; congruence | intros Hnil; discriminate Hnil].
Qed.

(** A trace fetched with a good and a malformed observation, and one
    fetched with a malformed observation only. *)
Lemma converted_trace_spans_witness :
  (exists trace,
     outcome (_convert_langfuse_trace_to_trace (langfuse_with [] []) trace_checkout
                (Some [obs_llm; obs_malformed])) = Ok (Some trace) /\
     TraceData.spans trace =
       converted_spans (langfuse_with [] []) (PStr "t-1") [obs_llm; obs_malformed]) /\
  (exists trace root,
     outcome (_convert_langfuse_trace_to_trace (langfuse_with [] []) trace_checkout
                (Some [obs_malformed])) = Ok (Some trace) /\
     TraceData.spans trace = [root]).
Proof.
  split.
  - eexists. split; [reflexivity |].
    apply (proj1 (converted_trace_spans (langfuse_with [] []) trace_checkout
                    (Some [obs_llm; obs_malformed]) _ eq_refl)).
    discriminate.
  - eexists.
    destruct (proj2 (converted_trace_spans (langfuse_with [] []) trace_checkout
                       (Some [obs_malformed]) _ eq_refl) eq_refl)
      as [root [_ Hspans]].
    exists root. split; [reflexivity | exact Hspans].
Defined.

(** X8: every span belongs to its trace.  In a trace that conversion
    produces, with or without observations, each span carries the trace's
    id as its trace id. *)
Theorem spans_belong_to_their_trace (env : Env) (trace_item : Obj)
    (observations : option (list Obj)) (trace : TraceData.t) :
  outcome (_convert_langfuse_trace_to_trace env trace_item observations) =
    Ok (Some trace) ->
  Forall (fun span => SpanData.trace_id span = TraceData.trace_id trace)
    (TraceData.spans trace).
Proof.
  intros H. apply convert_trace_Some in H.
  apply convert_trace_body_shape in H. destruct H as [Hspans Hid].
  rewrite (outcome_collected_spans env trace_item _ observations Hid) in Hspans.
  apply Forall_forall. intros span Hin.
  destruct (converted_spans env (PStr (TraceData.trace_id trace))
              (data_or_empty observations)) as [| s rest] eqn:Hconv.
  - destruct (outcome (_create_span_from_trace_metadata env trace_item))
      as [root |] eqn:Hroot; [| discriminate].
    injection Hspans as Hspans. rewrite <- Hspans in Hin.
    destruct Hin as [<- | []].
    destruct (create_span_ids _ _ _ Hroot) as [Hrid [Htid _]]. congruence.
  - injection Hspans as Hspans. rewrite <- Hspans, <- Hconv in Hin.
    apply In_converted_spans in Hin. destruct Hin as [obs [_ Hobs]].
    apply observation_span_shape in Hobs. destruct Hobs as [Htid _].
    congruence.
Qed.

(** The trace fetched with a good and a malformed observation. *)
Lemma spans_belong_witness :
  exists trace,
    outcome (_convert_langfuse_trace_to_trace (langfuse_with [] []) trace_checkout
               (Some [obs_llm; obs_malformed])) = Ok (Some trace) /\
    Forall (fun span => SpanData.trace_id span = "t-1") (TraceData.spans trace).
Proof.
  eexists. split; [reflexivity |].
  exact (spans_belong_to_their_trace (langfuse_with [] []) trace_checkout
           (Some [obs_llm; obs_malformed]) _ eq_refl).
Defined.

(** X9: what a search needs of a record.  A record converts in a search
    only if it has every attribute the synthesized span reads, [latency_ms]
    included: the [latency] and [duration] fallbacks do not save a record
    that lacks it. *)
Theorem search_conversion_needs_every_attribute (env : Env) (trace_item : Obj)
    (trace : TraceData.t) :
  converted env trace_item = Some trace ->
  Forall (fun name => hasattr trace_item name = true) trace_attributes.
Proof.
  intros H. destruct (converted_root _ _ _ H) as [root [Hroot _]].
  unfold _create_span_from_trace_metadata in Hroot.
  repeat inv_bind Hroot. inv_fields.
  unfold trace_attributes, hasattr.
  repeat constructor;
    match goal with
    | H : dict_get trace_item ?n = Some _ |- context [dict_get trace_item ?n] =>
        rewrite H; reflexivity
    end.
Qed.

Lemma search_conversion_witness :
  Forall (fun name => hasattr trace_checkout name = true) trace_attributes.
Proof.
  destruct (converted (langfuse_with [] []) trace_checkout) as [trace |] eqn:H.
  - exact (search_conversion_needs_every_attribute (langfuse_with [] [])
             trace_checkout trace H).
  - discriminate H.
Defined.

(** ** The fields of a converted trace *)

Lemma determine_status_run (trace_item : Obj) (spans : list SpanData.t)
    (level : pyval) :
  dict_get trace_item "level" = Some level ->
  outcome (_determine_trace_status trace_item spans) =
  Ok (if eq_str level "ERROR" then ERROR
      else if eq_str level "WARNING" || eq_str level "DEFAULT"
           then (if any_error spans then ERROR else OK)
           else UNSET).
Proof.
  intros H. unfold _determine_trace_status.
  rewrite (bind_Ok _ _ _ (getattr_Ok _ _ _ H)).
  destruct (eq_str level "ERROR"), (eq_str level "WARNING"),
    (eq_str level "DEFAULT"), (any_error spans); reflexivity.
Qed.

(** What the conversion of a trace record reads and writes. *)
Lemma convert_trace_body_fields (env : Env) (trace_item : Obj)
    (observations : option (list Obj)) (trace : TraceData.t) :
  outcome (convert_trace_body env trace_item observations) = Ok trace ->
  exists name session_id timestamp latency,
    dict_get trace_item "name" = Some name /\
    dict_get trace_item "session_id" = Some session_id /\
    dict_get trace_item "timestamp" = Some timestamp /\
    PStr (TraceData.service_name trace) = py_or name (PStr "unknown") /\
    PStr (TraceData.root_operation trace) =
      py_or session_id (py_or name (PStr "unknown")) /\
    outcome (_parse_timestamp env timestamp) = Ok (TraceData.start_time trace) /\
    outcome (trace_latency_ms trace_item) = Ok latency /\
    outcome (py_float env latency) = Ok (TraceData.duration_ms trace) /\
    outcome (_determine_trace_status trace_item (TraceData.spans trace)) =
      Ok (TraceData.status trace).
Proof.
  intros H. unfold convert_trace_body in H.
  repeat inv_bind H. unfold new_TraceData in H. repeat inv_bind H.
  cbn [outcome fst ret] in H. injection H as <-.
  cbn [TraceData.service_name TraceData.root_operation TraceData.start_time
       TraceData.duration_ms TraceData.status TraceData.spans].
  match goal with
  | H : outcome (if truthy ?s then _ else _) = Ok ?r |- _ =>
      assert (Hroot : exists n, dict_get trace_item "name" = Some n /\
                                r = py_or s (py_or n (PStr "unknown")))
  end.
  { match goal with
    | H : outcome (if truthy ?s then _ else _) = Ok ?r,
      Hn : outcome (getattr trace_item "name") = Ok ?n |- _ =>
        exists n; split; [apply getattr_inv; exact Hn |];
        unfold py_or at 1; destruct (truthy s);
        [ cbn [outcome fst ret] in H; congruence
        | inv_bind H; cbn [outcome fst ret] in H; congruence ]
    end. }
  destruct Hroot as [n [Hn Hr]].
  inv_fields. subst.
  do 4 eexists. repeat split; try eassumption; congruence.
Qed.

(** X10: how a trace is named.  A converted trace carries the record's
    id; its service name is [name or "unknown"] and its root operation is
    [session_id or name or "unknown"], so a record without a name is
    reported as service ["unknown"] and a session id takes precedence over
    the name. *)
Theorem converted_trace_names (env : Env) (trace_item : Obj)
    (observations : option (list Obj)) (trace : TraceData.t) :
  outcome (_convert_langfuse_trace_to_trace env trace_item observations) =
    Ok (Some trace) ->
  exists name session_id,
    dict_get trace_item "id" = Some (PStr (TraceData.trace_id trace)) /\
    dict_get trace_item "name" = Some name /\
    dict_get trace_item "session_id" = Some session_id /\
    PStr (TraceData.service_name trace) = py_or name (PStr "unknown") /\
    PStr (TraceData.root_operation trace) =
      py_or session_id (py_or name (PStr "unknown")).
Proof.
  intros H. apply convert_trace_Some in H.
  destruct (convert_trace_body_shape _ _ _ _ H) as [_ Hid].
  destruct (convert_trace_body_fields _ _ _ _ H)
    as [name [session [ts [lat [Hname [Hsession [_ [Hsvc [Hroot _]]]]]]]]].
  exists name, session. repeat split; assumption.
Qed.

(** A record without a session id, and one without a name. *)
Lemma converted_trace_names_witness :
  (exists trace,
     outcome (_convert_langfuse_trace_to_trace (langfuse_with [] []) trace_search
                None) = Ok (Some trace) /\
     TraceData.service_name trace = "search" /\
     TraceData.root_operation trace = "search") /\
  (exists trace,
     outcome (_convert_langfuse_trace_to_trace (langfuse_with [] []) trace_nameless
                None) = Ok (Some trace) /\
     TraceData.service_name trace = "unknown" /\
     TraceData.root_operation trace = "unknown").
Proof.
  split; eexists; (split; [reflexivity |]).
  - destruct (converted_trace_names (langfuse_with [] []) trace_search None _ eq_refl)
      as [name [session [_ [Hname [Hsession [Hsvc Hroot]]]]]].
    cbn in Hname, Hsession. injection Hname as <-. injection Hsession as <-.
    split;
      [ exact (f_equal (fun v => match v with PStr s => s | _ => "" end) Hsvc)
      | exact (f_equal (fun v => match v with PStr s => s | _ => "" end) Hroot) ].
  - destruct (converted_trace_names (langfuse_with [] []) trace_nameless None _ eq_refl)
      as [name [session [_ [Hname [Hsession [Hsvc Hroot]]]]]].
    cbn in Hname, Hsession. injection Hname as <-. injection Hsession as <-.
    split;
      [ exact (f_equal (fun v => match v with PStr s => s | _ => "" end) Hsvc)
      | exact (f_equal (fun v => match v with PStr s => s | _ => "" end) Hroot) ].
Defined.

Lemma trace_latency_cases (trace_item : Obj) :
  outcome (trace_latency_ms trace_item) =
  match dict_get trace_item "latency_ms" with
  | Some v => Ok (py_or v (PNum 0))
  | None =>
      match dict_get trace_item "latency" with
      | Some v =>
          if truthy v then outcome (py_mul_1000 (py_or v (PNum 0)))
          else Ok (PNum 0)
      | None =>
          match dict_get trace_item "duration" with
          | Some v =>
              if truthy v then outcome (py_mul_1000 (py_or v (PNum 0)))
              else Ok (PNum 0)
          | None => Ok (PNum 0)
          end
      end
  end.
Proof.
  unfold trace_latency_ms, hasattr.
  destruct (dict_get trace_item "latency_ms") as [v |] eqn:Hms.
  { rewrite (bind_Ok _ _ _ (getattr_Ok _ _ _ Hms)). reflexivity. }
  destruct (dict_get trace_item "latency") as [v |] eqn:Hl.
  { rewrite (bind_Ok _ _ _ (getattr_Ok _ _ _ Hl)).
    destruct (truthy v); reflexivity. }
  destruct (dict_get trace_item "duration") as [v |] eqn:Hd; [| reflexivity].
  rewrite (bind_Ok _ _ _ (getattr_Ok _ _ _ Hd)).
  destruct (truthy v); reflexivity.
Qed.

(** Below [2 ** 53] in magnitude, [float] is exact. *)
Lemma float_of_int_exact (n : Z) :
  Z.abs n < 2 ^ 53 -> float_of_int n = Some n.
Proof.
  intros H. unfold float_of_int, round_to_double.
  assert (Hbits : (Z.log2 (Z.abs n) + 1 <=? 53) = true).
  { apply Z.leb_le. destruct (Z.eq_dec (Z.abs n) 0) as [-> | Hnz]; [cbn; lia |].
    assert (Z.log2 (Z.abs n) < 53) by (apply Z.log2_lt_pow2; lia). lia. }
  rewrite Hbits.
  assert (Hlt : (Z.abs n <? 2 ^ 1024) = true).
  { apply Z.ltb_lt. apply Z.lt_trans with (2 ^ 53); [exact H |].
    apply Z.pow_lt_mono_r; lia. }
  rewrite Hlt. f_equal. destruct n; reflexivity.
Qed.

Lemma py_float_int (env : Env) (n x : Z) :
  outcome (py_float env (PNum n)) = Ok x -> float_of_int n = Some x.
Proof.
  cbn [py_float]. destruct (float_of_int n); cbn [outcome fst ret raise];
    congruence.
Qed.

Lemma py_float_int_or_0 (env : Env) (n x : Z) :
  outcome (py_float env (py_or (PNum n) (PNum 0))) = Ok x ->
  float_of_int n = Some x.
Proof.
  unfold py_or. cbn [truthy].
  destruct (n =? 0) eqn:Hn; cbn [negb]; [| apply py_float_int].
  apply Z.eqb_eq in Hn. subst n. apply py_float_int.
Qed.

(** X11: the duration of a trace, for a record whose latency is an [int].
    It is the [float] of the record's [latency_ms] when the record has that
    attribute (0 for [None]); without it, of the record's [latency], else
    of its [duration], taken as seconds and multiplied by 1000; and 0 when
    the record has none of the three.  [float] of an [int] is the nearest
    double: the int itself below [2 ** 53] in magnitude. *)
Theorem converted_trace_duration (env : Env) (trace_item : Obj)
    (observations : option (list Obj)) (trace : TraceData.t) :
  outcome (_convert_langfuse_trace_to_trace env trace_item observations) =
    Ok (Some trace) ->
  (forall n, dict_get trace_item "latency_ms" = Some (PNum n) ->
     float_of_int n = Some (TraceData.duration_ms trace)) /\
  (dict_get trace_item "latency_ms" = Some PNone ->
     TraceData.duration_ms trace = 0) /\
  (dict_get trace_item "latency_ms" = None ->
   (forall n, dict_get trace_item "latency" = Some (PNum n) ->
      float_of_int (n * 1000) = Some (TraceData.duration_ms trace)) /\
   (dict_get trace_item "latency" = None ->
    (forall n, dict_get trace_item "duration" = Some (PNum n) ->
       float_of_int (n * 1000) = Some (TraceData.duration_ms trace)) /\
    (dict_get trace_item "duration" = None ->
       TraceData.duration_ms trace = 0))) /\
  (forall n, Z.abs n < 2 ^ 53 -> float_of_int n = Some n).
Proof.
  intros H. apply convert_trace_Some in H.
  destruct (convert_trace_body_fields _ _ _ _ H)
    as [name [session [ts [lat [_ [_ [_ [_ [_ [_ [Hlat [Hfloat _]]]]]]]]]]]].
  rewrite trace_latency_cases in Hlat.
  assert (Hseconds : forall n,
             (if truthy (PNum n) then outcome (py_mul_1000 (py_or (PNum n) (PNum 0)))
              else Ok (PNum 0)) = Ok lat ->
             float_of_int (n * 1000) = Some (TraceData.duration_ms trace)).
  { intros n Hv. unfold py_or in Hv. cbn [truthy] in Hv.
    destruct (n =? 0) eqn:Hn; cbn [negb py_mul_1000 outcome fst ret] in Hv;
      injection Hv as <-; [| exact (py_float_int _ _ _ Hfloat)].
    apply Z.eqb_eq in Hn. subst n. exact (py_float_int _ _ _ Hfloat). }
  assert (Hzero : outcome (py_float env (PNum 0)) = Ok (TraceData.duration_ms trace) ->
                  TraceData.duration_ms trace = 0).
  { intros H0. apply py_float_int in H0. rewrite float_of_int_exact in H0.
    - congruence.
    - reflexivity. }
  split; [| split; [| split; [intros Hms; split; [| intros Hl; split] |]]].
  - intros n Hn. rewrite Hn in Hlat. injection Hlat as <-.
    exact (py_float_int_or_0 _ _ _ Hfloat).
  - intros Hn. rewrite Hn in Hlat. injection Hlat as <-.
    exact (Hzero Hfloat).
  - intros n Hn. rewrite Hms, Hn in Hlat. exact (Hseconds n Hlat).
  - intros n Hn. rewrite Hms, Hl, Hn in Hlat. exact (Hseconds n Hlat).
  - intros Hd. rewrite Hms, Hl, Hd in Hlat. injection Hlat as <-.
    exact (Hzero Hfloat).
  - exact float_of_int_exact.
Qed.

(** A record of an SDK version without [latency_ms], fetched with one
    observation: 2 seconds are 2000 ms. *)
Lemma converted_trace_duration_witness :
  exists trace,
    outcome (_convert_langfuse_trace_to_trace (langfuse_with [] []) trace_legacy
               (Some [obs_failed])) = Ok (Some trace) /\
    TraceData.duration_ms trace = 2 * 1000.
Proof.
  eexists. split; [reflexivity |].
  exact (eq_sym (f_equal (fun o => match o with Some d => d | None => 0 end)
           (proj1 (proj1 (proj2 (proj2
              (converted_trace_duration (langfuse_with [] []) trace_legacy
                 (Some [obs_failed]) _ eq_refl))) eq_refl) 2 eq_refl))).
Defined.

(** What the synthesized root span says of its record. *)
Lemma create_span_fields (env : Env) (trace_item : Obj) (root : SpanData.t) :
  outcome (_create_span_from_trace_metadata env trace_item) = Ok root ->
  exists name timestamp latency level,
    dict_get trace_item "name" = Some name /\
    dict_get trace_item "timestamp" = Some timestamp /\
    dict_get trace_item "latency_ms" = Some latency /\
    dict_get trace_item "level" = Some level /\
    PStr (SpanData.operation_name root) = py_or name (PStr "unknown") /\
    PStr (SpanData.service_name root) = py_or name (PStr "unknown") /\
    outcome (_parse_timestamp env timestamp) = Ok (SpanData.start_time root) /\
    outcome (py_float env (py_or latency (PNum 0))) = Ok (SpanData.duration_ms root) /\
    SpanData.status root = _langfuse_level_to_status level.
Proof.
  intros H. unfold _create_span_from_trace_metadata in H.
  repeat inv_bind H. unfold new_SpanData in H. repeat inv_bind H.
  cbn [outcome fst ret] in H. injection H as <-.
  inv_fields. subst.
  cbn [SpanData.operation_name SpanData.service_name SpanData.start_time
       SpanData.duration_ms SpanData.status].
  do 4 eexists. repeat split; try eassumption; congruence.
Qed.

Lemma level_agreement (level : pyval) (root : SpanData.t) :
  SpanData.status root = _langfuse_level_to_status level ->
  (if eq_str level "ERROR" then ERROR
   else if eq_str level "WARNING" || eq_str level "DEFAULT"
        then (if any_error [root] then ERROR else OK)
        else UNSET) = _langfuse_level_to_status level.
Proof.
  intros Hroot. unfold any_error. cbn [existsb]. rewrite Hroot.
  unfold _langfuse_level_to_status.
  destruct (eq_str level "ERROR"); [reflexivity |].
  rewrite (orb_comm (eq_str level "WARNING")).
  destruct (eq_str level "DEFAULT" || eq_str level "WARNING"); reflexivity.
Qed.

(** A [datetime] is its own parse, and so is a string that
    [fromisoformat] accepts, a final [Z] read as UTC. *)
Lemma parse_timestamp_given (env : Env) (timestamp : pyval) (t : Z) :
  timestamp = PTime t \/
  (exists s, timestamp = PStr s /\ s <> "" /\
     fromisoformat env
       (if endswith_Z s then (drop_last s ++ "+00:00")%string else s) = Some t) ->
  outcome (_parse_timestamp env timestamp) = Ok t.
Proof.
  intros [-> | [s [-> [Hs Hparse]]]]; [reflexivity |].
  unfold _parse_timestamp. cbn [truthy].
  destruct (s =? "")%string eqn:Hempty;
    [apply String.eqb_eq in Hempty; contradiction |].
  cbn [negb]. rewrite outcome_try_except.
  destruct (endswith_Z s); rewrite Hparse; reflexivity.
Qed.

(** X12: a search result and its span agree.  A trace converted for a
    search has one span, and that span has the trace's status, which is the
    status of the record's level alone, its duration and its service name,
    which is also the span's operation name.  It has the trace's start time
    too when the record's timestamp is a [datetime] or a string that
    parses: that time.  (For a timestamp that is missing or does not parse
    each of the two is a reading of the clock of its own.) *)
Theorem search_result_agrees_with_its_span (env : Env) (trace_item : Obj)
    (trace : TraceData.t) :
  converted env trace_item = Some trace ->
  exists root level,
    TraceData.spans trace = [root] /\
    dict_get trace_item "level" = Some level /\
    TraceData.status trace = _langfuse_level_to_status level /\
    SpanData.status root = TraceData.status trace /\
    (forall timestamp t,
       dict_get trace_item "timestamp" = Some timestamp ->
       timestamp = PTime t \/
       (exists s, timestamp = PStr s /\ s <> "" /\
          fromisoformat env
            (if endswith_Z s then (drop_last s ++ "+00:00")%string else s) =
            Some t) ->
       SpanData.start_time root = t /\ TraceData.start_time trace = t) /\
    SpanData.duration_ms root = TraceData.duration_ms trace /\
    SpanData.service_name root = TraceData.service_name trace /\
    SpanData.operation_name root = TraceData.service_name trace.
Proof.
  intros H. destruct (converted_root _ _ _ H) as [root [Hroot [Hspans _]]].
  rewrite converted_body in H.
  destruct (outcome (convert_trace_body env trace_item None)) as [t |] eqn:Hbody;
    [| discriminate].
  injection H as ->.
  destruct (create_span_fields _ _ _ Hroot)
    as [name [ts [lat [level [Hname [Hts [Hlat [Hlevel
         [Hop [Hsvc [Hstart [Hdur Hstatus]]]]]]]]]]]].
  destruct (convert_trace_body_fields _ _ _ _ Hbody)
    as [name' [session [ts' [lat' [Hname' [_ [Hts' [Hsvc' [_
         [Hstart' [Hlat' [Hdur' Hstatus']]]]]]]]]]]].
  rewrite Hspans, (determine_status_run _ _ _ Hlevel),
    (level_agreement _ _ Hstatus) in Hstatus'.
  rewrite trace_latency_cases, Hlat in Hlat'.
  assert (name' = name) by congruence. assert (ts' = ts) by congruence.
  subst name' ts'. injection Hlat' as <-.
  exists root, level.
  split; [exact Hspans |]. split; [exact Hlevel |].
  split; [congruence |]. split; [congruence |].
  split; [| repeat split; congruence].
  intros timestamp t Hgiven Hparse.
  assert (timestamp = ts) by congruence. subst timestamp.
  pose proof (parse_timestamp_given env ts t Hparse) as Ht.
  split; congruence.
Qed.

Lemma search_result_witness :
  exists trace root,
    converted (langfuse_with [] []) trace_search = Some trace /\
    TraceData.spans trace = [root] /\
    TraceData.status trace = ERROR /\
    SpanData.status root = ERROR /\
    SpanData.start_time root = t0 + 5 /\
    TraceData.start_time trace = t0 + 5.
Proof.
  eexists.
  destruct (search_result_agrees_with_its_span (langfuse_with [] []) trace_search
              _ eq_refl)
    as [root [level [Hspans [Hlevel [Hstatus [Hroot [Hstart _]]]]]]].
  cbn in Hlevel. injection Hlevel as <-.
  exists root. split; [reflexivity |]. split; [exact Hspans |].
  split; [exact Hstatus |]. split; [rewrite Hroot; exact Hstatus |].
  exact (Hstart (PTime (t0 + 5)) (t0 + 5) eq_refl (or_introl eq_refl)).
Defined.

(** ** Observations and attributes *)

Lemma dict_get_set (d : dict) (k k' : string) (v : pyval) :
  dict_get (dict_set d k v) k' =
  if (k =? k')%string then Some v else dict_get d k'.
Proof.
  induction d as [| [k0 v0] rest IH]; cbn [dict_set dict_get].
  - reflexivity.
  - destruct (k0 =? k)%string eqn:Hk0; cbn [dict_get].
    + apply String.eqb_eq in Hk0. subst k0.
      destruct (k =? k')%string; reflexivity.
    + destruct (k0 =? k')%string eqn:Hk0'; [| exact IH].
      apply String.eqb_eq in Hk0'. subst k0. rewrite String.eqb_sym, Hk0.
      reflexivity.
Qed.

(** X13: converting an observation never raises and talks to nobody; the
    span it yields carries the trace id it was given, the observation's id
    as span id, its [parent_observation_id] as parent, its name as
    operation name, and the status of its level. *)
Theorem observation_conversion (env : Env) (trace_id : pyval) (obs : Obj) :
  (exists result,
     outcome (_convert_langfuse_observation_to_span env trace_id obs) = Ok result) /\
  calls (_convert_langfuse_observation_to_span env trace_id obs) = [] /\
  (forall span,
     outcome (_convert_langfuse_observation_to_span env trace_id obs) =
       Ok (Some span) ->
     trace_id = PStr (SpanData.trace_id span) /\
     dict_get obs "id" = Some (PStr (SpanData.span_id span)) /\
     dict_get obs "parent_observation_id" =
       Some (of_opt_str (SpanData.parent_span_id span)) /\
     dict_get obs "name" = Some (PStr (SpanData.operation_name span)) /\
     exists level,
       dict_get obs "level" = Some level /\
       SpanData.status span = _langfuse_level_to_status level).
Proof.
  split; [| split].
  - rewrite convert_observation_outcome. eexists. reflexivity.
  - exact (silent_convert_observation env trace_id obs).
  - intros span H. apply (observation_span_shape env).
    unfold converted_span. rewrite H. reflexivity.
Qed.

Lemma observation_conversion_witness :
  exists span,
    outcome (_convert_langfuse_observation_to_span (langfuse_with [] [])
               (PStr "t-4") obs_failed) = Ok (Some span) /\
    SpanData.trace_id span = "t-4" /\
    dict_get obs_failed "id" = Some (PStr (SpanData.span_id span)).
Proof.
  eexists. split; [reflexivity |].
  destruct (proj2 (proj2 (observation_conversion (langfuse_with [] [])
                            (PStr "t-4") obs_failed)) _ eq_refl)
    as [Htid [Hid _]].
  split; [| exact Hid].
  exact (f_equal (fun v => match v with PStr s => s | _ => "" end) (eq_sym Htid)).
Defined.

(** X14: the generative-AI attributes of a generation.  When an
    observation of type ["generation"] with usage details converts, its
    span's attributes hold the model under [gen_ai.request.model] and
    [gen_ai.response.model], and under the three [gen_ai.usage] keys the
    entries of the usage details ([None] for a missing one), whatever the
    observation's metadata says under these keys. *)
Theorem generation_attributes (env : Env) (trace_id : pyval) (obs : Obj)
    (span : SpanData.t) (usage : pyval) :
  converted_span env trace_id obs = Some span ->
  dict_get obs "type" = Some (PStr "generation") ->
  dict_get obs "usage_details" = Some usage ->
  truthy usage = true ->
  exists model details,
    dict_get obs "model" = Some model /\
    usage = PDict details /\
    dict_get (SpanData.attributes span) "gen_ai.request.model" = Some model /\
    dict_get (SpanData.attributes span) "gen_ai.response.model" = Some model /\
    dict_get (SpanData.attributes span) "gen_ai.usage.prompt_tokens" =
      Some (match dict_get details "prompt_tokens" with Some v => v | None => PNone end) /\
    dict_get (SpanData.attributes span) "gen_ai.usage.completion_tokens" =
      Some (match dict_get details "completion_tokens" with Some v => v | None => PNone end) /\
    dict_get (SpanData.attributes span) "gen_ai.usage.total_tokens" =
      Some (match dict_get details "total_tokens" with Some v => v | None => PNone end).
Proof.
  unfold converted_span, _convert_langfuse_observation_to_span.
  rewrite outcome_try_except.
  match goal with
  | |- context [match outcome ?body with _ => _ end] =>
      destruct (outcome body) as [[s |] | e] eqn:Hbody
  end; try discriminate.
  intros H Htype Husage Htruthy. injection H as ->.
  repeat inv_bind Hbody. cbn [outcome fst ret] in Hbody. injection Hbody as <-.
  match goal with
  | H : outcome (new_SpanData _ _ _ _ _ _ _ _ _) = Ok _ |- _ =>
      unfold new_SpanData in H; repeat inv_bind H;
      cbn [outcome fst ret] in H; injection H as <-
  end.
  cbn [SpanData.attributes].
  inv_fields.
  repeat match goal with
         | H1 : dict_get obs ?n = Some ?a, H2 : dict_get obs ?n = Some ?b |- _ =>
             assert (a = b) by congruence; subst a; clear H1
         end.
  cbn [eq_str] in *. rewrite String.eqb_refl in *. cbn [andb] in *.
  match goal with
  | H : outcome (getattr obs "usage_details") = Ok _ |- _ =>
      apply getattr_inv in H; rewrite Husage in H; injection H as <-
  end.
  rewrite Htruthy in *.
  match goal with
  | H : outcome (bind (getattr obs "model") _) = Ok _ |- _ =>
      repeat inv_bind H; cbn [outcome fst ret] in H; injection H as <-
  end.
  inv_fields.
  destruct usage as [| | | | | details |];
    try (match goal with
         | H : outcome (py_get _ "prompt_tokens" _) = Ok _ |- _ => discriminate H
         end).
  repeat match goal with
         | H : outcome (py_get (PDict _) _ _) = Ok _ |- _ =>
             cbn [py_get outcome fst ret] in H; injection H as <-
         end.
  do 2 eexists. split; [eassumption |]. split; [reflexivity |].
  unfold GenAI.SYSTEM, GenAI.REQUEST_MODEL, GenAI.RESPONSE_MODEL.
  rewrite !dict_get_set. repeat split.
Qed.

Lemma generation_attributes_witness :
  exists span,
    converted_span (langfuse_with [] []) (PStr "t-1") obs_llm = Some span /\
    dict_get (SpanData.attributes span) "gen_ai.request.model" = Some (PStr "gpt") /\
    dict_get (SpanData.attributes span) "gen_ai.usage.total_tokens" = Some (PNum 15).
Proof.
  eexists. split; [reflexivity |].
  destruct (generation_attributes (langfuse_with [] []) (PStr "t-1") obs_llm _ _
              eq_refl eq_refl eq_refl eq_refl)
    as [model [details [Hmodel [Hdetails [Hreq [_ [_ [_ Htotal]]]]]]]].
  cbn in Hmodel. injection Hmodel as <-. injection Hdetails as <-.
  split; [exact Hreq | exact Htotal].
Defined.

Lemma update_frame (kvs : list (string * pyval)) (k : string) :
  ~ In k (map fst kvs) ->
  forall d,
    dict_get (fold_left (fun acc kv => dict_set acc (fst kv) (snd kv)) kvs d) k =
    dict_get d k.
Proof.
  induction kvs as [| [k0 v0] rest IH]; intros Hk d; cbn [fold_left fst snd];
    [reflexivity |].
  cbn [map fst In] in Hk. rewrite IH by tauto. rewrite dict_get_set.
  destruct (k0 =? k)%string eqn:E; [| reflexivity].
  apply String.eqb_eq in E. tauto.
Qed.

Lemma update_get (kvs : list (string * pyval)) (k : string) (v : pyval) :
  NoDup (map fst kvs) ->
  dict_get kvs k = Some v ->
  forall d,
    dict_get (fold_left (fun acc kv => dict_set acc (fst kv) (snd kv)) kvs d) k =
    Some v.
Proof.
  induction kvs as [| [k0 v0] rest IH]; intros Hnd Hget d; [discriminate |].
  cbn [map fst] in Hnd. inversion Hnd as [| ? ? Hk0 Hrest]. subst.
  cbn [dict_get] in Hget. cbn [fold_left fst snd].
  destruct (k0 =? k)%string eqn:E.
  - apply String.eqb_eq in E. subst k0. injection Hget as ->.
    rewrite update_frame by exact Hk0. rewrite dict_get_set, String.eqb_refl.
    reflexivity.
  - apply IH; assumption.
Qed.

Lemma tags_set (env : Env) (tags : list pyval) (k : string) :
  forall d,
    dict_get d k = Some (PStr "true") ->
    dict_get
      (fold_left (fun raw_attrs tag =>
                    dict_set raw_attrs ("tag." ++ format env tag)%string (PStr "true"))
         tags d) k = Some (PStr "true").
Proof.
  induction tags as [| t rest IH]; intros d Hd; cbn [fold_left]; [exact Hd |].
  apply IH. rewrite dict_get_set.
  destruct (("tag." ++ format env t) =? k)%string; [reflexivity | exact Hd].
Qed.

Lemma tags_get (env : Env) (tags : list pyval) (tag : string) :
  In (PStr tag) tags ->
  forall d,
    dict_get
      (fold_left (fun raw_attrs tag =>
                    dict_set raw_attrs ("tag." ++ format env tag)%string (PStr "true"))
         tags d) ("tag." ++ tag)%string = Some (PStr "true").
Proof.
  induction tags as [| t rest IH]; intros Hin d; [contradiction |].
  cbn [fold_left]. destruct Hin as [-> | Hin].
  - apply tags_set. rewrite dict_get_set. cbn [format].
    rewrite String.eqb_refl. reflexivity.
  - apply IH. exact Hin.
Qed.

(** X15: tags become attributes.  On the root span synthesized from a
    trace record whose [tags] is a list, every tag that is a string [t] is
    the attribute [tag.t] with value ["true"]. *)
Theorem root_span_carries_tags (env : Env) (trace_item : Obj) (root : SpanData.t)
    (tags : list pyval) (tag : string) :
  outcome (_create_span_from_trace_metadata env trace_item) = Ok root ->
  dict_get trace_item "tags" = Some (PList tags) ->
  In (PStr tag) tags ->
  dict_get (SpanData.attributes root) ("tag." ++ tag)%string = Some (PStr "true").
Proof.
  intros H Htags Hin. unfold _create_span_from_trace_metadata in H.
  repeat inv_bind H. unfold new_SpanData in H. repeat inv_bind H.
  cbn [outcome fst ret] in H. injection H as <-.
  cbn [SpanData.attributes].
  match goal with
  | Ht : outcome (getattr trace_item "tags") = Ok ?t |- _ =>
      apply getattr_inv in Ht; rewrite Htags in Ht; injection Ht as <-
  end.
  match goal with
  | Hloop : outcome (if truthy (PList tags) then _ else _) = Ok _ |- _ =>
      destruct tags as [| t rest]; [contradiction |];
      cbn [truthy py_iter] in Hloop; inv_bind Hloop;
      cbn [outcome fst ret] in *
  end.
  match goal with
  | Hi : Ok _ = Ok ?l, Hloop : outcome (for_each ?l _ _) = Ok _ |- _ =>
      injection Hi as <-;
      rewrite (for_each_ret
                 (fun raw_attrs tag =>
                    dict_set raw_attrs ("tag." ++ format env tag)%string (PStr "true")))
        in Hloop;
      injection Hloop as <-
  end.
  exact (tags_get env (t :: rest) tag Hin _).
Qed.

Lemma root_span_tags_witness :
  exists root,
    outcome (_create_span_from_trace_metadata (langfuse_with [] []) trace_checkout) =
      Ok root /\
    dict_get (SpanData.attributes root) "tag.prod" = Some (PStr "true").
Proof.
  eexists. split; [reflexivity |].
  exact (root_span_carries_tags (langfuse_with [] []) trace_checkout _
           [PStr "prod"] "prod" eq_refl eq_refl (or_introl eq_refl)).
Defined.

(** X16: metadata becomes attributes.  When an observation that is not a
    generation converts and its metadata is a mapping, every entry of the
    metadata is an attribute of the span, with the metadata's value even
    under a key the backend sets itself. *)
Theorem observation_span_carries_metadata (env : Env) (trace_id : pyval)
    (obs : Obj) (span : SpanData.t) (type : pyval)
    (metadata : list (string * pyval)) (k : string) (v : pyval) :
  converted_span env trace_id obs = Some span ->
  dict_get obs "type" = Some type ->
  eq_str type "generation" = false ->
  dict_get obs "metadata" = Some (PDict metadata) ->
  NoDup (map fst metadata) ->
  dict_get metadata k = Some v ->
  dict_get (SpanData.attributes span) k = Some v.
Proof.
  unfold converted_span, _convert_langfuse_observation_to_span.
  rewrite outcome_try_except.
  match goal with
  | |- context [match outcome ?body with _ => _ end] =>
      destruct (outcome body) as [[s |] | e] eqn:Hbody
  end; try discriminate.
  intros H Htype Hgen Hmeta Hnd Hk. injection H as ->.
  repeat inv_bind Hbody. cbn [outcome fst ret] in Hbody. injection Hbody as <-.
  match goal with
  | H : outcome (new_SpanData _ _ _ _ _ _ _ _ _) = Ok _ |- _ =>
      unfold new_SpanData in H; repeat inv_bind H;
      cbn [outcome fst ret] in H; injection H as <-
  end.
  cbn [SpanData.attributes].
  inv_fields.
  repeat match goal with
         | H1 : dict_get obs ?n = Some ?a, H2 : dict_get obs ?n = Some ?b |- _ =>
             assert (a = b) by congruence; subst a; clear H1
         end.
  rewrite Hgen in *. cbn [andb] in *.
  repeat match goal with
         | H : outcome (ret _) = Ok _ |- _ =>
             cbn [outcome fst ret] in H; injection H as <-
         end.
  match goal with
  | H : outcome (if truthy (PDict metadata) then py_update ?d _ else ret _) = Ok ?r
    |- _ =>
      assert (Hr : r = fold_left (fun acc kv => dict_set acc (fst kv) (snd kv))
                         metadata d)
        by (destruct metadata; cbn [truthy py_update outcome fst ret] in H;
            injection H as <-; reflexivity)
  end.
  rewrite Hr. apply update_get; assumption.
Qed.

Lemma observation_metadata_witness :
  exists span,
    converted_span (langfuse_with [] []) (PStr "t-4") obs_failed = Some span /\
    dict_get (SpanData.attributes span) "attempt" = Some (PNum 3).
Proof.
  eexists. split; [reflexivity |].
  refine (observation_span_carries_metadata (langfuse_with [] []) (PStr "t-4")
            obs_failed _ (PStr "span")
            [("service.name", PStr "billing"); ("attempt", PNum 3)]
            "attempt" (PNum 3) eq_refl eq_refl eq_refl eq_refl _ eq_refl).
  repeat constructor; cbn; intuition discriminate.
Defined.

(** ** Fetching one trace: the remote calls *)

Lemma calls_remote {A : Type} (c : api_call) (answer : Exc A) :
  calls (remote c answer) = [Call c].
Proof. reflexivity. Qed.

Lemma outcome_remote {A : Type} (c : api_call) (answer : Exc A) :
  outcome (remote c answer) = answer.
Proof. reflexivity. Qed.

(** X17: [get_trace] fetches the trace, then its observations, each once
    and by the requested id; when the trace fetch fails, the observations
    are not fetched. *)
Theorem get_trace_remote_calls (env : Env) (trace_id : string) :
  calls (get_trace env trace_id) =
  match api_trace_get env trace_id with
  | Ok _ => [Call (TraceGet trace_id); Call (ObservationsGetMany trace_id)]
  | Raise _ => [Call (TraceGet trace_id)]
  end.
Proof.
  unfold get_trace. rewrite calls_bind. cbn [outcome fst log].
  change (calls (log L_DEBUG "Fetching trace")) with (@nil event). cbn [app].
  rewrite calls_try_except, outcome_bind, calls_bind.
  rewrite !outcome_remote, !calls_remote.
  destruct (api_trace_get env trace_id) as [trace_item | e]; [| reflexivity].
  rewrite outcome_bind, calls_bind, !outcome_remote, !calls_remote.
  destruct (api_observations_get_many env trace_id) as [data | e]; [| reflexivity].
  cbv zeta.
  rewrite (silent_convert_trace env trace_item (Some (data_or_empty data))).
  destruct (outcome (_convert_langfuse_trace_to_trace env trace_item _));
    reflexivity.
Qed.

(** ** Listing services and operations *)


Lemma ascii_compare_lt_trans (a b c : ascii) :
  Ascii.compare a b = Lt -> Ascii.compare b c = Lt -> Ascii.compare a c = Lt.
Proof.
  unfold Ascii.compare. rewrite !N.compare_lt_iff. apply N.lt_trans.
Qed.

Lemma string_compare_lt_trans (a b c : string) :
  String.compare a b = Lt -> String.compare b c = Lt -> String.compare a c = Lt.
Proof.
  revert b c. induction a as [| x a IH]; intros [| y b] [| z c]; cbn;
    try discriminate; try reflexivity.
  destruct (Ascii.compare x y) eqn:Hxy; try discriminate;
    destruct (Ascii.compare y z) eqn:Hyz; try discriminate; intros H1 H2.
  - apply Ascii.compare_eq_iff in Hxy, Hyz. subst.
    assert (Hzz : Ascii.compare z z = Eq)
      by (unfold Ascii.compare; apply N.compare_refl).
    rewrite Hzz. exact (IH _ _ H1 H2).
  - apply Ascii.compare_eq_iff in Hxy. subst. rewrite Hyz. reflexivity.
  - apply Ascii.compare_eq_iff in Hyz. subst. rewrite Hxy. reflexivity.
  - rewrite (ascii_compare_lt_trans _ _ _ Hxy Hyz). reflexivity.
Qed.

Lemma string_ltb_trans (a b c : string) :
  String.ltb a b = true -> String.ltb b c = true -> String.ltb a c = true.
Proof.
  unfold String.ltb.
  destruct (String.compare a b) eqn:Hab; try discriminate.
  destruct (String.compare b c) eqn:Hbc; try discriminate.
  rewrite (string_compare_lt_trans _ _ _ Hab Hbc). reflexivity.
Qed.

Lemma string_leb_ltb (a b : string) :
  String.leb a b = true -> a <> b -> String.ltb a b = true.
Proof.
  unfold String.leb, String.ltb.
  destruct (String.compare a b) eqn:H; try discriminate; try reflexivity.
  intros _ Hne. apply String.compare_eq_iff in H. contradiction.
Qed.

Lemma string_not_leb_ltb (a b : string) :
  String.leb a b = false -> String.ltb b a = true.
Proof.
  unfold String.leb, String.ltb. rewrite (String.compare_antisym b a).
  destruct (String.compare a b); try discriminate. reflexivity.
Qed.

Lemma In_str_insert (x y : string) (l : list string) :
  In y (str_insert x l) <-> y = x \/ In y l.
Proof.
  induction l as [| z rest IH]; cbn [str_insert].
  - cbn. intuition.
  - destruct (String.leb x z); cbn [In]; [intuition | rewrite IH; intuition].
Qed.

Lemma In_str_sort (y : string) (l : list string) : In y (str_sort l) <-> In y l.
Proof.
  induction l as [| x rest IH]; cbn [str_sort fold_right]; [reflexivity |].
  fold (str_sort rest). rewrite In_str_insert, IH. cbn. intuition.
Qed.

Lemma str_insert_ascending (x : string) (l : list string) :
  ascending l -> ~ In x l -> ascending (str_insert x l).
Proof.
  unfold ascending. induction l as [| y rest IH]; intros Hs Hx; cbn [str_insert].
  - repeat constructor.
  - inversion Hs as [| ? ? Hrest Hall]. subst.
    assert (Hne : x <> y) by (intros ->; apply Hx; left; reflexivity).
    destruct (String.leb x y) eqn:Hxy.
    + pose proof (string_leb_ltb _ _ Hxy Hne) as Hlt.
      constructor; [exact Hs |]. constructor; [exact Hlt |].
      apply Forall_forall. intros z Hz. rewrite Forall_forall in Hall.
      exact (string_ltb_trans _ _ _ Hlt (Hall z Hz)).
    + constructor.
      * apply IH; [exact Hrest | intros Hin; apply Hx; right; exact Hin].
      * apply Forall_forall. intros z Hz. apply In_str_insert in Hz.
        destruct Hz as [-> | Hz]; [apply string_not_leb_ltb; exact Hxy |].
        rewrite Forall_forall in Hall. exact (Hall z Hz).
Qed.

Lemma str_sort_ascending (l : list string) : NoDup l -> ascending (str_sort l).
Proof.
  induction 1 as [| x rest Hx _ IH]; cbn [str_sort fold_right].
  - constructor.
  - apply str_insert_ascending; [exact IH |].
    fold (str_sort rest). rewrite In_str_sort. exact Hx.
Qed.

Lemma existsb_eqb_In (s : string) (l : list string) :
  existsb (String.eqb s) l = true <-> In s l.
Proof.
  rewrite existsb_exists. split.
  - intros [x [Hin Heq]]. apply String.eqb_eq in Heq. subst. exact Hin.
  - intros Hin. exists s. split; [exact Hin | apply String.eqb_refl].
Qed.

Lemma unique_step (names acc : list string) :
  NoDup acc ->
  NoDup (fold_left (fun acc s => if existsb (String.eqb s) acc then acc else acc ++ [s])
           names acc) /\
  forall s,
    In s (fold_left (fun acc s => if existsb (String.eqb s) acc then acc else acc ++ [s])
            names acc) <-> In s acc \/ In s names.
Proof.
  revert acc. induction names as [| x rest IH]; intros acc Hacc; cbn [fold_left].
  - split; [exact Hacc | intros s; cbn; intuition].
  - destruct (existsb (String.eqb x) acc) eqn:Hx.
    + destruct (IH acc Hacc) as [Hnd Hin]. split; [exact Hnd |].
      intros s. rewrite Hin. apply existsb_eqb_In in Hx. cbn.
      intuition (subst; auto).
    + assert (Hnotin : ~ In x acc).
      { intros Hin. apply existsb_eqb_In in Hin. congruence. }
      assert (Hacc' : NoDup (acc ++ [x])).
      { apply NoDup_app; [exact Hacc | repeat constructor; intros [] |].
        intros y Hy [<- | []]. exact (Hnotin Hy). }
      destruct (IH (acc ++ [x]) Hacc') as [Hnd Hin]. split; [exact Hnd |].
      intros s. rewrite Hin, in_app_iff. cbn. intuition.
Qed.

Lemma unique_spec (names : list string) :
  NoDup (unique names) /\ forall s, In s (unique names) <-> In s names.
Proof.
  destruct (unique_step names [] (NoDup_nil _)) as [Hnd Hin].
  split; [exact Hnd |]. intros s. unfold unique. rewrite Hin. cbn. intuition.
Qed.

Lemma In_strings_of (attr : string) (traces : list Obj) (s : string) :
  In s (strings_of attr traces) <->
  s <> "" /\ exists trace, In trace traces /\ dict_get trace attr = Some (PStr s).
Proof.
  unfold strings_of. rewrite in_flat_map. split.
  - intros [trace [Hin Hs]].
    destruct (dict_get trace attr) as [[| x | | | | |] |] eqn:Hget;
      try contradiction.
    destruct (x =? "")%string eqn:Hx; [contradiction |].
    destruct Hs as [-> | []]. apply String.eqb_neq in Hx.
    split; [exact Hx |]. exists trace. split; assumption.
  - intros [Hne [trace [Hin Hget]]]. exists trace. split; [exact Hin |].
    rewrite Hget. apply String.eqb_neq in Hne. rewrite Hne. left. reflexivity.
Qed.

Lemma existsb_same_key_str (s : string) (acc : list string) :
  existsb (same_key (PStr s)) (map PStr acc) = existsb (String.eqb s) acc.
Proof.
  induction acc as [| x rest IH]; cbn [map existsb]; [reflexivity |].
  rewrite IH. reflexivity.
Qed.

(** The collecting loop of a listing over records whose attribute is a
    string or [None]. *)
Lemma outcome_collect_loop (attr : string) (traces : list Obj) :
  Forall (fun trace => attr_ok trace attr is_opt_str = true) traces ->
  forall acc,
    outcome
      (for_each traces
         (fun names trace =>
            v <- getattr trace attr ;;
            if truthy v then set_add names v else ret names)
         (map PStr acc)) =
    Ok (map PStr
          (fold_left (fun acc s => if existsb (String.eqb s) acc then acc else acc ++ [s])
             (strings_of attr traces) acc)).
Proof.
  induction 1 as [| trace rest Htrace _ IH]; intros acc; [reflexivity |].
  cbn [for_each]. rewrite outcome_bind.
  apply attr_ok_inv in Htrace. destruct Htrace as [v [Hget Hv]].
  rewrite (bind_Ok _ _ _ (getattr_Ok _ _ _ Hget)).
  unfold strings_of. cbn [flat_map]. rewrite Hget. fold (strings_of attr rest).
  destruct v as [| s | | | | |]; try discriminate Hv; cbn [truthy].
  - cbn [outcome fst ret app]. apply IH.
  - destruct (s =? "")%string; cbn [negb outcome fst ret app]; [apply IH |].
    unfold set_add. cbn [as_key]. rewrite existsb_same_key_str.
    cbn [fold_left].
    destruct (existsb (String.eqb s) acc); cbn [outcome fst ret].
    + apply IH.
    + rewrite <- (IH (acc ++ [s])), map_app. reflexivity.
Qed.

Lemma insert_sorted_strings (x : string) (l : list string) :
  insert_sorted (PStr x) (map PStr l) = map PStr (str_insert x l).
Proof.
  induction l as [| y rest IH]; cbn [map insert_sorted str_insert]; [reflexivity |].
  change (py_leb (PStr x) (PStr y)) with (String.leb x y).
  destruct (String.leb x y); cbn [map]; [reflexivity | rewrite IH; reflexivity].
Qed.

Lemma sort_strings (l : list string) : py_sort (map PStr l) = map PStr (str_sort l).
Proof.
  induction l as [| x rest IH]; cbn [map py_sort str_sort fold_right]; [reflexivity |].
  fold (py_sort (map PStr rest)). fold (str_sort rest).
  rewrite IH. apply insert_sorted_strings.
Qed.

Lemma sorted_set_strings (l : list string) :
  sorted_set (map PStr l) = ret (map PStr (str_sort l)).
Proof.
  destruct l as [| x [| y rest]]; try reflexivity.
  unfold sorted_set. cbn [map].
  assert (Hall : forallb (comparable (PStr x)) (PStr y :: map PStr rest) = true).
  { apply forallb_forall. intros v Hv.
    change (PStr y :: map PStr rest) with (map PStr (y :: rest)) in Hv.
    apply in_map_iff in Hv. destruct Hv as [s [<- _]]. reflexivity. }
  rewrite Hall.
  change (PStr x :: PStr y :: map PStr rest) with (map PStr (x :: y :: rest)).
  rewrite sort_strings. reflexivity.
Qed.

(** What a listing makes of an answered [trace.list]. *)
Lemma outcome_listing (attr : string) (traces : list Obj) :
  Forall (fun trace => attr_ok trace attr is_opt_str = true) traces ->
  outcome
    (names <- for_each traces
                (fun names trace =>
                   v <- getattr trace attr ;;
                   if truthy v then set_add names v else ret names)
                [] ;;
     sorted_set names) =
  Ok (map PStr (str_sort (unique (strings_of attr traces)))).
Proof.
  intros Hall. rewrite outcome_bind.
  pose proof (outcome_collect_loop attr traces Hall []) as Hloop.
  cbn [map] in Hloop. rewrite Hloop.
  fold (unique (strings_of attr traces)).
  rewrite sorted_set_strings. reflexivity.
Qed.

Lemma listing_spec (attr : string) (traces : list Obj) :
  ascending (str_sort (unique (strings_of attr traces))) /\
  forall s,
    In s (str_sort (unique (strings_of attr traces))) <->
    s <> "" /\ exists trace, In trace traces /\ dict_get trace attr = Some (PStr s).
Proof.
  destruct (unique_spec (strings_of attr traces)) as [Hnd Hin].
  split; [apply str_sort_ascending; exact Hnd |].
  intros s. rewrite In_str_sort, Hin. apply In_strings_of.
Qed.

Lemma silent_listing (attr : string) (traces : list Obj) :
  silent
    (names <- for_each traces
                (fun names trace =>
                   v <- getattr trace attr ;;
                   if truthy v then set_add names v else ret names)
                [] ;;
     sorted_set names).
Proof.
  apply silent_bind.
  - apply silent_for_each. intros acc trace.
    apply silent_bind; [apply silent_getattr | intros v].
    destruct (truthy v); [| apply silent_ret].
    unfold set_add. silent_auto.
  - intros names. destruct names as [| ? [| ? ?]]; cbn [sorted_set]; silent_auto.
Qed.

Lemma calls_list_services (env : Env) :
  calls (list_services env) = [Call (TraceList [("limit", PNum 100)])].
Proof.
  unfold list_services. rewrite calls_bind. cbn [outcome fst log].
  change (calls (log L_DEBUG "Listing services (trace names)")) with (@nil event).
  cbn [app]. rewrite calls_try_except, outcome_bind, calls_bind.
  rewrite outcome_remote, calls_remote.
  destruct (api_trace_list env [("limit", PNum 100)]) as [data | e];
    [| reflexivity].
  cbv zeta. rewrite (silent_listing "name" (data_or_empty data)).
  destruct (outcome _); reflexivity.
Qed.

Lemma calls_get_service_operations (env : Env) (service_name : string) :
  calls (get_service_operations env service_name) =
  [Call (TraceList [("name", PStr service_name); ("limit", PNum 100)])].
Proof.
  unfold get_service_operations. rewrite calls_bind. cbn [outcome fst log].
  change (calls (log L_DEBUG "Getting operations for service")) with (@nil event).
  cbn [app]. rewrite calls_try_except, outcome_bind, calls_bind.
  rewrite outcome_remote, calls_remote.
  destruct (api_trace_list env _) as [data | e]; [| reflexivity].
  cbv zeta. rewrite (silent_listing "session_id" (data_or_empty data)).
  destruct (outcome _); reflexivity.
Qed.

(** X18: the services of a listing.  [list_services] asks for 100 traces
    at most, without a time window; when the backend answers and every
    record's name is a string or [None], it returns the non-empty names of
    the records, each once, in ascending order. *)
Theorem list_services_sorted_unique (env : Env) (data : option (list Obj)) :
  api_trace_list env [("limit", PNum 100)] = Ok data ->
  Forall (fun trace => attr_ok trace "name" is_opt_str = true) (data_or_empty data) ->
  exists names,
    outcome (list_services env) = Ok (map PStr names) /\
    calls (list_services env) = [Call (TraceList [("limit", PNum 100)])] /\
    ascending names /\
    forall s,
      In s names <->
      s <> "" /\
      exists trace, In trace (data_or_empty data) /\
                    dict_get trace "name" = Some (PStr s).
Proof.
  intros Hdata Hall.
  exists (str_sort (unique (strings_of "name" (data_or_empty data)))).
  split; [| split; [apply calls_list_services | apply listing_spec]].
  unfold list_services. rewrite outcome_bind. cbn [outcome fst log].
  rewrite outcome_try_except, outcome_bind, outcome_remote, Hdata. cbv zeta.
  rewrite (outcome_listing "name" _ Hall). reflexivity.
Qed.

(** X19: the operations of a service.  [get_service_operations] asks for
    the traces of that name, 100 at most; when the backend answers and
    every record's session id is a string or [None], it returns the
    non-empty session ids of the records, each once, in ascending order. *)
Theorem get_service_operations_sorted_unique (env : Env) (service_name : string)
    (data : option (list Obj)) :
  api_trace_list env [("name", PStr service_name); ("limit", PNum 100)] = Ok data ->
  Forall (fun trace => attr_ok trace "session_id" is_opt_str = true)
    (data_or_empty data) ->
  exists operations,
    outcome (get_service_operations env service_name) = Ok (map PStr operations) /\
    calls (get_service_operations env service_name) =
      [Call (TraceList [("name", PStr service_name); ("limit", PNum 100)])] /\
    ascending operations /\
    forall s,
      In s operations <->
      s <> "" /\
      exists trace, In trace (data_or_empty data) /\
                    dict_get trace "session_id" = Some (PStr s).
Proof.
  intros Hdata Hall.
  exists (str_sort (unique (strings_of "session_id" (data_or_empty data)))).
  split; [| split; [| apply listing_spec]].
  - unfold get_service_operations. rewrite outcome_bind. cbn [outcome fst log].
    rewrite outcome_try_except, outcome_bind, outcome_remote, Hdata. cbv zeta.
    rewrite (outcome_listing "session_id" _ Hall). reflexivity.
  - apply calls_get_service_operations.
Qed.

(** A store with a repeated name and a nameless trace. *)
Lemma list_services_witness :
  exists names,
    outcome (list_services
               (langfuse_with
                  [trace_search; trace_checkout; trace_nameless; trace_checkout] [])) =
      Ok (map PStr names) /\
    ascending names /\
    In "checkout" names /\
    ~ In "" names.
Proof.
  destruct (list_services_sorted_unique
              (langfuse_with
                 [trace_search; trace_checkout; trace_nameless; trace_checkout] [])
              (Some [trace_search; trace_checkout; trace_nameless; trace_checkout])
              eq_refl)
    as [names [Hrun [_ [Hsorted Hin]]]].
  - repeat constructor.
  - exists names. split; [exact Hrun |]. split; [exact Hsorted |]. split.
    + apply Hin. split; [discriminate |].
      exists trace_checkout. split; [right; left; reflexivity | reflexivity].
    + intros H. apply Hin in H. destruct H as [H _]. apply H. reflexivity.
Defined.

(** The operations of the service ["checkout"]. *)
Lemma get_service_operations_witness :
  exists operations,
    outcome (get_service_operations
               (langfuse_with [trace_search; trace_checkout; trace_checkout] [])
               "checkout") = Ok (map PStr operations) /\
    ascending operations /\
    In "s-1" operations.
Proof.
  destruct (get_service_operations_sorted_unique
              (langfuse_with [trace_search; trace_checkout; trace_checkout] [])
              "checkout" (Some [trace_checkout; trace_checkout]) eq_refl)
    as [operations [Hrun [_ [Hsorted Hin]]]].
  - repeat constructor.
  - exists operations. split; [exact Hrun |]. split; [exact Hsorted |].
    apply Hin. split; [discriminate |].
    exists trace_checkout. split; [left; reflexivity | reflexivity].
Defined.

Lemma for_each_raises {A S : Type} (body : S -> A -> M S) (xs : list A) (x : A) :
  In x xs ->
  (forall acc, exists e, outcome (body acc x) = Raise e) ->
  forall acc, exists e, outcome (for_each xs body acc) = Raise e.
Proof.
  intros Hin Hx. induction xs as [| y rest IH]; [contradiction |].
  intros acc. cbn [for_each]. rewrite outcome_bind.
  destruct Hin as [-> | Hin].
  - destruct (Hx acc) as [e He]. rewrite He. eexists. reflexivity.
  - destruct (outcome (body acc y)) as [acc' | e]; [apply IH; exact Hin |].
    eexists. reflexivity.
Qed.

(** X20: a listing fails as a whole.  [list_services] logs and re-raises
    the backend's failure unchanged; and, unlike a search, it does not drop
    a record it cannot read: one record without a [name] attribute makes
    the whole listing raise, after an error record in the log. *)
Theorem list_services_fails_as_a_whole (env : Env) :
  (forall e,
     api_trace_list env [("limit", PNum 100)] = Raise e ->
     outcome (list_services env) = Raise e /\
     events (list_services env) =
       [Log L_DEBUG "Listing services (trace names)";
        Call (TraceList [("limit", PNum 100)]);
        Log L_ERROR "Error listing services"]) /\
  (forall data trace,
     api_trace_list env [("limit", PNum 100)] = Ok data ->
     In trace (data_or_empty data) ->
     dict_get trace "name" = None ->
     exists e,
       outcome (list_services env) = Raise e /\
       In (Log L_ERROR "Error listing services") (events (list_services env))).
Proof.
  split.
  - intros e He. unfold list_services, remote. rewrite He. split; reflexivity.
  - intros data trace Hdata Hin Hname.
    assert (Hloop : exists e,
               outcome
                 (for_each (data_or_empty data)
                    (fun service_names trace =>
                       name <- getattr trace "name" ;;
                       if truthy name then set_add service_names name
                       else ret service_names)
                    []) = Raise e).
    { apply (for_each_raises _ _ trace Hin). intros acc.
      rewrite outcome_bind. unfold getattr. rewrite Hname.
      eexists. reflexivity. }
    destruct Hloop as [e He]. exists e.
    unfold list_services. rewrite outcome_bind, events_bind. cbn [outcome fst log].
    rewrite outcome_try_except, events_try_except.
    rewrite !outcome_bind, !outcome_remote, Hdata. cbv zeta.
    rewrite !outcome_bind, He. split; [reflexivity |].
    apply in_or_app. right. apply in_or_app. right. left. reflexivity.
Qed.

(** A Langfuse that is down, and one that returns a record without a
    name. *)
Lemma list_services_failure_witness :
  outcome (list_services langfuse_down) = Raise (ApiError 503 "Service Unavailable") /\
  exists e,
    outcome (list_services (langfuse_with [trace_checkout; trace_malformed] [])) =
      Raise e.
Proof.
  split.
  - exact (proj1 (proj1 (list_services_fails_as_a_whole langfuse_down)
                    (ApiError 503 "Service Unavailable") eq_refl)).
  - destruct (proj2 (list_services_fails_as_a_whole
                       (langfuse_with [trace_checkout; trace_malformed] []))
                (Some [trace_checkout; trace_malformed]) trace_malformed
                eq_refl (or_intror (or_introl eq_refl)) eq_refl)
      as [e [He _]].
    exists e. exact He.
Defined.

(** ** Construction *)

Lemma rstrip_slash_slashes (n : nat) : rstrip_slash (string_repeat n "/") = "".
Proof.
  induction n as [| n IH]; [reflexivity |].
  cbn [string_repeat append]. cbn [rstrip_slash]. rewrite IH. reflexivity.
Qed.

Lemma rstrip_slash_decomposes (url : string) :
  exists n, url = (rstrip_slash url ++ string_repeat n "/")%string.
Proof.
  induction url as [| c rest [n IH]]; [exists 0%nat; reflexivity |].
  cbn [rstrip_slash].
  destruct (rstrip_slash rest) as [| c' r] eqn:Hr.
  - cbn [append] in IH.
    destruct (c =? "/")%char eqn:Hc.
    + apply Ascii.eqb_eq in Hc. subst c. exists (S n).
      cbn [append string_repeat]. rewrite <- IH. reflexivity.
    + exists n. cbn [append]. rewrite <- IH. reflexivity.
  - exists n. cbn [append] in *. rewrite <- IH. reflexivity.
Qed.

Lemma rstrip_slash_no_slash (url : string) :
  endswith_slash (rstrip_slash url) = false.
Proof.
  induction url as [| c rest IH]; [reflexivity |].
  cbn [rstrip_slash].
  destruct (rstrip_slash rest) as [| c' r] eqn:Hr.
  - destruct (c =? "/")%char eqn:Hc; [reflexivity |].
    cbn [endswith_slash]. exact Hc.
  - cbn [endswith_slash] in *. exact IH.
Qed.

(** X21: construction checks the keys and normalizes the URL.  Without a
    public or a secret key, [None] or empty, [__init__] raises
    [ValueError].  A backend it does return keeps both keys, uses the
    secret key as [api_key], was given a client built for its URL, and its
    URL is the given one without trailing slashes: the given URL is the
    stored one followed by slashes only, and the stored one ends in
    none. *)
Theorem init_checks_keys_and_strips_url (Client : Type)
    (Langfuse_new : string -> string -> string -> Exc Client)
    (url : string) (public_key secret_key : option string) (timeout : Z) :
  (public_key = None \/ public_key = Some "" \/
   secret_key = None \/ secret_key = Some "" ->
   outcome (__init__ Client Langfuse_new url public_key secret_key timeout) =
     Raise (ValueError "Langfuse backend requires both public_key and secret_key")) /\
  (forall backend,
     outcome (__init__ Client Langfuse_new url public_key secret_key timeout) =
       Ok backend ->
     Langfuse.public_key Client backend = public_key /\
     Langfuse.secret_key Client backend = secret_key /\
     api_key Client backend = secret_key /\
     (exists pk sk,
        public_key = Some pk /\ pk <> "" /\ secret_key = Some sk /\ sk <> "" /\
        Langfuse_new pk sk (backend_url Client backend) =
          Ok (_langfuse_client Client backend)) /\
     (exists n, url = (backend_url Client backend ++ string_repeat n "/")%string) /\
     endswith_slash (backend_url Client backend) = false).
Proof.
  unfold __init__. split.
  - intros [-> | [-> | [-> | ->]]]; cbn [of_opt_str truthy String.eqb negb orb];
      try reflexivity;
      destruct (negb (truthy (of_opt_str public_key))); reflexivity.
  - intros backend.
    destruct public_key as [pk |], secret_key as [sk |];
      cbn [of_opt_str truthy negb orb]; try discriminate;
      try (destruct (negb (pk =? "")%string); discriminate).
    destruct (pk =? "")%string eqn:Hpk; cbn [negb orb]; [discriminate |].
    destruct (sk =? "")%string eqn:Hsk; cbn [negb]; [discriminate |].
    cbv zeta. rewrite outcome_bind. cbn [outcome fst].
    destruct (Langfuse_new pk sk (rstrip_slash url)) as [client | e] eqn:Hnew;
      [| discriminate].
    cbn [outcome fst ret]. intros H. injection H as <-.
    cbn [Langfuse.public_key Langfuse.secret_key api_key backend_url _langfuse_client].
    apply String.eqb_neq in Hpk, Hsk.
    repeat split; try reflexivity.
    + exists pk, sk. repeat split; assumption.
    + apply rstrip_slash_decomposes.
    + apply rstrip_slash_no_slash.
Qed.

Lemma init_witness :
  outcome (__init__ unit (fun _ _ _ => Ok tt) "https://cloud.langfuse.com/"
             (Some "pk-lf-1") (Some "") 30) =
    Raise (ValueError "Langfuse backend requires both public_key and secret_key") /\
  exists backend,
    outcome (__init__ unit (fun _ _ _ => Ok tt) "https://cloud.langfuse.com//"
               (Some "pk-lf-1") (Some "sk-lf-1") 30) = Ok backend /\
    endswith_slash (backend_url unit backend) = false.
Proof.
  split.
  - apply (proj1 (init_checks_keys_and_strips_url unit (fun _ _ _ => Ok tt)
                    "https://cloud.langfuse.com/" (Some "pk-lf-1") (Some "") 30)).
    right. right. right. reflexivity.
  - eexists. split; [reflexivity |].
    exact (proj2 (proj2 (proj2 (proj2 (proj2
             (proj2 (init_checks_keys_and_strips_url unit (fun _ _ _ => Ok tt)
                       "https://cloud.langfuse.com//" (Some "pk-lf-1")
                       (Some "sk-lf-1") 30) _ eq_refl)))))).
Defined.

(** ** Timestamps, written and read back *)

Lemma endswith_Z_app (s : string) : endswith_Z (s ++ "Z") = true.
Proof.
  induction s as [| c rest IH]; [reflexivity |].
  cbn [append endswith_Z]. destruct rest; [reflexivity | exact IH].
Qed.

Lemma drop_last_app (s : string) : drop_last (s ++ "Z") = s.
Proof.
  induction s as [| c rest IH]; [reflexivity |].
  cbn [append drop_last]. destruct rest as [| c' rest'].
  - reflexivity.
  - cbn [append] in *. rewrite IH. reflexivity.
Qed.

Lemma app_Z_nonempty (s : string) : ((s ++ "Z") =? "")%string = false.
Proof. destruct s; reflexivity. Qed.

(** X22: a timestamp written by [_format_timestamp] and read back.
    [_parse_timestamp] strips the ["Z"] the formatter appended and reads
    the ISO text with the offset ["+00:00"] in its place; if that text does
    not parse, it logs a warning and answers the current time. *)
Theorem format_then_parse_timestamp (env : Env) (isoformat : Z -> string) (dt : Z) :
  endswith_Z (_format_timestamp isoformat dt) = true /\
  _parse_timestamp env (PStr (_format_timestamp isoformat dt)) =
  match fromisoformat env (isoformat dt ++ "+00:00") with
  | Some t => (Ok t, [])
  | None => (Ok (now env), [Log L_WARNING "Error parsing timestamp"])
  end.
Proof.
  unfold _format_timestamp. split; [apply endswith_Z_app |].
  unfold _parse_timestamp. cbn [truthy]. rewrite app_Z_nonempty. cbn [negb].
  rewrite endswith_Z_app, drop_last_app.
  destruct (fromisoformat env (isoformat dt ++ "+00:00")); reflexivity.
Qed.
